(** * Quash execution core ([src/execute.c]): a shallow embedding

    The C functions of [execute.c] are written as computations in a small
    state monad over an explicit model of one process (descriptor table,
    working directory, environment, private copy of the job table, stdio
    buffer) and of the kernel services they call.  [fork] is the one
    primitive that "returns twice": it runs its continuation once in a copy
    of the caller (return value 0) and once in the caller itself.

    A created process is run to its end at the point of the [fork] that
    creates it, and what it did is kept in a record of its own; the
    statements below are about the private state of each process
    (descriptors, job table, exit status, what it wrote where), which does
    not depend on how the processes interleave.  Blocking in [wait] and
    [waitpid] is not modelled: the calls are only recorded. *)

From Stdlib Require Import ZArith List Ascii String Lia.
From stdpp Require Import gmap strings list fin_maps pretty.

Open Scope Z_scope.

(* ===================================================================== *)
(** ** Text and the fragment of printf used by the source *)
(* ===================================================================== *)

Module Text.

Definition TAB : string := String (ascii_of_nat 9) EmptyString.
Definition NL : string := String (ascii_of_nat 10) EmptyString.

Fixpoint spaces (n : nat) : string :=
  match n with
  | O => ""
  | S n' => String " " (spaces n')
  end.

(** Right-justification in a field of [w] characters, as a printf width. *)
Definition pad_left (w : nat) (s : string) : string :=
  spaces (w - String.length s) +:+ s.

Inductive printf_arg :=
| ArgInt (n : Z)
| ArgStr (s : string).

Definition is_digit (c : ascii) : bool :=
  (48 <=? nat_of_ascii c)%nat && (nat_of_ascii c <=? 57)%nat.

Definition digit_val (c : ascii) : nat := nat_of_ascii c - 48.

(** The scanner is either copying literal text or inside a conversion
    specification whose width read so far is [w]. *)
Inductive fmt_state :=
| Copy
| Conv (w : nat).

(** Conversions [%d] and [%s] with an optional decimal width; any other
    character after the percent sign is copied ([%%] gives a percent sign).
    A conversion without a matching argument ends the output. *)
Fixpoint format_from (st : fmt_state) (fmt : string) (args : list printf_arg)
  : string :=
  match fmt with
  | EmptyString => ""
  | String c rest =>
      match st with
      | Copy =>
          if Ascii.eqb c "%"%char then format_from (Conv 0) rest args
          else String c (format_from Copy rest args)
      | Conv w =>
          if is_digit c then format_from (Conv (10 * w + digit_val c)) rest args
          else if Ascii.eqb c "d"%char then
            match args with
            | ArgInt n :: args' =>
                pad_left w (pretty n) +:+ format_from Copy rest args'
            | _ => ""
            end
          else if Ascii.eqb c "s"%char then
            match args with
            | ArgStr s :: args' => pad_left w s +:+ format_from Copy rest args'
            | _ => ""
            end
          else String c (format_from Copy rest args)
      end
  end.

Definition format (fmt : string) (args : list printf_arg) : string :=
  format_from Copy fmt args.

End Text.

Import Text.

(* ===================================================================== *)
(** ** Data model (declarations of the headers used by [execute.c]) *)
(* ===================================================================== *)

(** Modelled from the spec: the header declaring the command structures is
    not among the sources; the kinds are the eight of the data model
    (RunExternal, Print, ListEnvSet, ChangeDirectory, SendSignal,
    PrintWorkingDirectory, ListJobs, EndOfPipeline) under the names the
    source switches on. *)
Inductive CommandType :=
| EOC | GENERIC | ECHO | EXPORT | KILL | CD | PWD | JOBS.

(** Modelled from the spec: the structure declarations are in the missing
    header; each variant carries the fields [execute.c] reads from it.
    [args] is a NULL-terminated [char**] that [run_generic] tests against
    NULL, hence the option; [run_generic] also reads [cmd.flags]. *)
Record GenericCommand := {
  generic_args : option (list string);
  generic_flags : Z
}.

(** [run_echo] dereferences [args] unconditionally: the array is present. *)
Record EchoCommand := { echo_args : list string }.

Record ExportCommand := { env_var : string; val : string }.

(** [dir] may be NULL ([run_cd] tests it). *)
Record CDCommand := { dir : option string }.

Record KillCommand := { sig : Z; job : Z }.

(** Modelled from the spec: the C union of the missing header with its
    discriminant, as the tagged variant of the data model. *)
Inductive Command :=
| CmdGeneric (generic : GenericCommand)
| CmdEcho (echo : EchoCommand)
| CmdExport (export : ExportCommand)
| CmdCD (cd : CDCommand)
| CmdKill (kill : KillCommand)
| CmdPWD
| CmdJobs
| CmdEOC.

Definition get_command_type (c : Command) : CommandType :=
  match c with
  | CmdGeneric _ => GENERIC
  | CmdEcho _ => ECHO
  | CmdExport _ => EXPORT
  | CmdCD _ => CD
  | CmdKill _ => KILL
  | CmdPWD => PWD
  | CmdJobs => JOBS
  | CmdEOC => EOC
  end.

(** Modelled from the spec: a pipeline stage of the missing header, a
    command with its flag set and redirection paths; the paths are [char*]
    and may be NULL. *)
Record CommandHolder := {
  redirect_in : option string;
  redirect_out : option string;
  flags : Z;
  cmd : Command
}.

Definition get_command_holder_type (h : CommandHolder) : CommandType :=
  get_command_type (cmd h).

#[global] Instance CommandType_eq_dec : EqDecision CommandType.
Proof. solve_decision. Defined.

(** What [execute.c] takes from its headers without defining it: the flag
    masks, and whether the preprocessor sees a macro named
    [get_finished_job] (the test of the [#ifdef] in
    [check_jobs_bg_status]). *)
Class Headers := {
  REDIRECT_IN : Z;
  REDIRECT_OUT : Z;
  PIPE_OUT : Z;
  BACKGROUND : Z;
  get_finished_job_defined : bool
}.

(** The C truth value of [flags & mask]. *)
Definition has_flag (fl mask : Z) : bool := negb (Z.land fl mask =? 0).

Definition EXIT_FAILURE : Z := 1.
Definition STDIN_FILENO : Z := 0.
Definition STDOUT_FILENO : Z := 1.
Definition STDERR_FILENO : Z := 2.

(* ===================================================================== *)
(** ** The Job Registry *)
(* ===================================================================== *)

Inductive JobState := Running | Finished.

Record Job := {
  job_id : Z;
  job_pid : Z;
  job_cmd : string;
  job_state : JobState
}.

#[global] Instance JobState_eq_dec : EqDecision JobState.
Proof. solve_decision. Defined.

Module Registry.

(** Modelled from the spec: the registry's functions are called by
    [execute.c] but defined elsewhere.  A job id is a small positive
    integer, unique among the tracked jobs and reused after completion: the
    least positive integer no tracked job carries. *)
Definition fresh_id (jobs : list Job) : Z :=
  let used := job_id <$> jobs in
  let candidates := seqZ 1 (Z.of_nat (length jobs) + 1) in
  match filter (fun i => i ∉ used) candidates with
  | i :: _ => i
  | [] => Z.of_nat (length jobs) + 1
  end.

(** Modelled from the spec: [register_background_job] records a running job
    at the end of the table (insertion order) and returns its fresh id. *)
Definition add (pid : Z) (name : string) (jobs : list Job) : Z * list Job :=
  let id := fresh_id jobs in
  (id, jobs ++ [ {| job_id := id; job_pid := pid; job_cmd := name;
                    job_state := Running |} ]).

(** Modelled from the spec: [poll_finished_job] returns at most one
    completed and unreported job and removes it from the table. *)
Fixpoint take_finished (jobs : list Job) : option (Job * list Job) :=
  match jobs with
  | [] => None
  | j :: rest =>
      if decide (job_state j = Finished) then Some (j, rest)
      else match take_finished rest with
           | Some (f, rest') => Some (f, j :: rest')
           | None => None
           end
  end.

(** Modelled from the spec: one listing line per tracked job, in insertion
    order, "[job id] <tab> <process id> <tab> <display string>". *)
Definition listing (jobs : list Job) : string :=
  String.concat ""
    ((fun j => "[" +:+ pretty (job_id j) +:+ "]" +:+ TAB +:+
               pretty (job_pid j) +:+ TAB +:+ job_cmd j +:+ NL) <$> jobs).

End Registry.

(* ===================================================================== *)
(** ** Processes, the kernel, and the monad of one process *)
(* ===================================================================== *)

(** What a descriptor refers to. Both ends of pipe [n] carry its number. *)
Inductive file_obj :=
| Tty
| PipeR (n : nat)
| PipeW (n : nat)
| FileRd (path : string)
| FileWr (path : string).

Inductive open_mode :=
| O_RDONLY
| O_WRONLY_CREAT_TRUNC.

(** What a process did, oldest first.  [EvWrite] and [EvPerror] carry the
    object the descriptor referred to at that moment ([None]: it was not
    open, the bytes are lost). *)
Inductive event :=
| EvWrite (fd : Z) (target : option file_obj) (data : string)
| EvPerror (target : option file_obj) (msg : string)
| EvOpen (path : string) (mode : open_mode)
| EvWaitpid (pid : Z)
| EvWait
| EvKill (target sig : Z).

Record proc := {
  p_pid : Z;
  p_fds : gmap Z file_obj;
  p_cwd : string;
  p_env : gmap string string;
  p_jobs : list Job;            (* this process's copy of the job table *)
  p_stdout : string;            (* stdio buffer of stdout, not yet written *)
  p_stack : Z * Z;              (* contents of an uninitialised int[2] *)
  p_trace : list event
}.

(** The kernel and the file system, as far as the source consults them.
    The two scripts decide the successive [fork] and [pipe] calls
    ([true]: success; past the end of a script the call succeeds). *)
Record kernel := {
  k_next_pid : positive;
  k_next_pipe : nat;
  k_fork_ok : list bool;
  k_pipe_ok : list bool;
  k_open_ok : string → open_mode → bool;
  k_exec_ok : string → bool;
  k_realpath : string → string → option string;   (* cwd, path *)
  k_chdir_ok : string → bool;
  k_kill_ok : Z → Z → bool
}.

Inductive fault :=
| OutOfBounds       (* read past the end of an array *)
| OutOfFuel.        (* the iteration bound of a loop was reached *)

(** How a process stopped running the code of [execute.c]. *)
Inductive ending :=
| Exited (status : Z)
| Execed (file : string) (argv : list string)
| Returned
| Faulted (f : fault).

(** A process created by [fork], once it has run: its last state. *)
Record summary := {
  s_pid : Z;
  s_parent : Z;
  s_end : ending;
  s_proc : proc
}.

(** The state threaded through a computation: the running process, the
    kernel, and the processes created so far (by it or its descendants),
    in creation order. *)
Record sys := {
  me : proc;
  kern : kernel;
  others : list summary
}.

Inductive result (A : Type) :=
| Ret (a : A)
| Exit (status : Z)
| Exec (file : string) (argv : list string)
| Abort (f : fault).

Arguments Ret {A} a.
Arguments Exit {A} status.
Arguments Exec {A} file argv.
Arguments Abort {A} f.

Definition M (A : Type) : Type := sys → result A * sys.

Definition ret {A} (a : A) : M A := fun s => (Ret a, s).

Definition bind {A B} (m : M A) (k : A → M B) : M B := fun s =>
  match m s with
  | (Ret a, s') => k a s'
  | (Exit n, s') => (Exit n, s')
  | (Exec f v, s') => (Exec f v, s')
  | (Abort f, s') => (Abort f, s')
  end.

Declare Scope proc_scope.
Delimit Scope proc_scope with proc.
Notation "x <- c1 ;; c2" := (bind c1 (fun x => c2))
  (at level 20, c1 at level 99, c2 at level 200, only parsing) : proc_scope.
Notation "c1 ;; c2" := (bind c1 (fun _ => c2))
  (at level 100, c2 at level 200, only parsing, right associativity)
  : proc_scope.
Open Scope proc_scope.

Definition ending_of {A} (r : result A) : ending :=
  match r with
  | Ret _ => Returned
  | Exit n => Exited n
  | Exec f v => Execed f v
  | Abort f => Faulted f
  end.

(** *** Field updates *)

Definition with_fds (f : gmap Z file_obj) (p : proc) : proc :=
  {| p_pid := p_pid p; p_fds := f; p_cwd := p_cwd p; p_env := p_env p;
     p_jobs := p_jobs p; p_stdout := p_stdout p; p_stack := p_stack p;
     p_trace := p_trace p |}.

Definition with_cwd (c : string) (p : proc) : proc :=
  {| p_pid := p_pid p; p_fds := p_fds p; p_cwd := c; p_env := p_env p;
     p_jobs := p_jobs p; p_stdout := p_stdout p; p_stack := p_stack p;
     p_trace := p_trace p |}.

Definition with_env (e : gmap string string) (p : proc) : proc :=
  {| p_pid := p_pid p; p_fds := p_fds p; p_cwd := p_cwd p; p_env := e;
     p_jobs := p_jobs p; p_stdout := p_stdout p; p_stack := p_stack p;
     p_trace := p_trace p |}.

Definition with_jobs (j : list Job) (p : proc) : proc :=
  {| p_pid := p_pid p; p_fds := p_fds p; p_cwd := p_cwd p; p_env := p_env p;
     p_jobs := j; p_stdout := p_stdout p; p_stack := p_stack p;
     p_trace := p_trace p |}.

Definition with_stdout (b : string) (p : proc) : proc :=
  {| p_pid := p_pid p; p_fds := p_fds p; p_cwd := p_cwd p; p_env := p_env p;
     p_jobs := p_jobs p; p_stdout := b; p_stack := p_stack p;
     p_trace := p_trace p |}.

Definition log (e : event) (p : proc) : proc :=
  {| p_pid := p_pid p; p_fds := p_fds p; p_cwd := p_cwd p; p_env := p_env p;
     p_jobs := p_jobs p; p_stdout := p_stdout p; p_stack := p_stack p;
     p_trace := p_trace p ++ [e] |}.

(** The state of a process just created: a copy of its parent under a new
    pid, with nothing done yet. *)
Definition child_of (pid : Z) (p : proc) : proc :=
  {| p_pid := pid; p_fds := p_fds p; p_cwd := p_cwd p; p_env := p_env p;
     p_jobs := p_jobs p; p_stdout := p_stdout p; p_stack := p_stack p;
     p_trace := [] |}.

Definition on_me (f : proc → proc) (s : sys) : sys :=
  {| me := f (me s); kern := kern s; others := others s |}.

Definition with_kern (k : kernel) (s : sys) : sys :=
  {| me := me s; kern := k; others := others s |}.

Definition modify (f : proc → proc) : M unit := fun s => (Ret tt, on_me f s).

Definition gets {A} (f : proc → A) : M A := fun s => (Ret (f (me s)), s).

#[global] Instance file_obj_eq_dec : EqDecision file_obj.
Proof. solve_decision. Defined.

(* ===================================================================== *)
(** ** Kernel services and stdio, as the source calls them *)
(* ===================================================================== *)

Module Sys.

(** POSIX hands out the lowest descriptor number that is not open. *)
Definition lowest_free (t : gmap Z file_obj) : Z :=
  match filter (fun n => t !! n = None) (seqZ 0 (Z.of_nat (size t) + 1)) with
  | n :: _ => n
  | [] => Z.of_nat (size t) + 1
  end.

Definition kernel_after_pipe (k : kernel) : kernel :=
  {| k_next_pid := k_next_pid k; k_next_pipe := S (k_next_pipe k);
     k_fork_ok := k_fork_ok k; k_pipe_ok := tail (k_pipe_ok k);
     k_open_ok := k_open_ok k; k_exec_ok := k_exec_ok k;
     k_realpath := k_realpath k; k_chdir_ok := k_chdir_ok k;
     k_kill_ok := k_kill_ok k |}.

Definition kernel_pipe_refused (k : kernel) : kernel :=
  {| k_next_pid := k_next_pid k; k_next_pipe := k_next_pipe k;
     k_fork_ok := k_fork_ok k; k_pipe_ok := tail (k_pipe_ok k);
     k_open_ok := k_open_ok k; k_exec_ok := k_exec_ok k;
     k_realpath := k_realpath k; k_chdir_ok := k_chdir_ok k;
     k_kill_ok := k_kill_ok k |}.

Definition kernel_after_fork (k : kernel) : kernel :=
  {| k_next_pid := Pos.succ (k_next_pid k); k_next_pipe := k_next_pipe k;
     k_fork_ok := tail (k_fork_ok k); k_pipe_ok := k_pipe_ok k;
     k_open_ok := k_open_ok k; k_exec_ok := k_exec_ok k;
     k_realpath := k_realpath k; k_chdir_ok := k_chdir_ok k;
     k_kill_ok := k_kill_ok k |}.

Definition kernel_fork_refused (k : kernel) : kernel :=
  {| k_next_pid := k_next_pid k; k_next_pipe := k_next_pipe k;
     k_fork_ok := tail (k_fork_ok k); k_pipe_ok := k_pipe_ok k;
     k_open_ok := k_open_ok k; k_exec_ok := k_exec_ok k;
     k_realpath := k_realpath k; k_chdir_ok := k_chdir_ok k;
     k_kill_ok := k_kill_ok k |}.

(** Whether the next call of a scripted service succeeds. *)
Definition next_ok (script : list bool) : bool :=
  match script with
  | false :: _ => false
  | _ => true
  end.

(** [pipe(fds)]: on success the array receives the read end and the write
    end of a new pipe; on failure it is left as it was.  The result is the
    return code and the array. *)
Definition pipe (fds : Z * Z) : M (Z * (Z * Z)) := fun s =>
  if next_ok (k_pipe_ok (kern s)) then
    let n := k_next_pipe (kern s) in
    let r := lowest_free (p_fds (me s)) in
    let t1 := <[r := PipeR n]> (p_fds (me s)) in
    let w := lowest_free t1 in
    let t2 := <[w := PipeW n]> t1 in
    (Ret (0, (r, w)),
     {| me := with_fds t2 (me s); kern := kernel_after_pipe (kern s);
        others := others s |})
  else
    (Ret (-1, fds), with_kern (kernel_pipe_refused (kern s)) s).

(** [fork()], with the code that follows it as [k].  On success the child
    runs [k 0] from a copy of the caller and is recorded, with its own
    descendants, when it stops; the caller then runs [k pid].  On failure
    no process is created and the caller runs [k (-1)]. *)
Definition fork {A} (k : Z → M A) : M A := fun s =>
  if next_ok (k_fork_ok (kern s)) then
    let pid := Z.pos (k_next_pid (kern s)) in
    let '(r, c) := k 0 {| me := child_of pid (me s);
                          kern := kernel_after_fork (kern s);
                          others := [] |} in
    k pid {| me := me s; kern := kern c;
             others := others s ++
                       {| s_pid := pid; s_parent := p_pid (me s);
                          s_end := ending_of r; s_proc := me c |}
                       :: others c |}
  else
    k (-1) (with_kern (kernel_fork_refused (kern s)) s).

Definition obj_of (path : string) (mode : open_mode) : file_obj :=
  match mode with
  | O_RDONLY => FileRd path
  | O_WRONLY_CREAT_TRUNC => FileWr path
  end.

(** [open(path, mode)]: the new descriptor, or -1. *)
Definition open (path : option string) (mode : open_mode) : M Z := fun s =>
  match path with
  | Some p =>
      if k_open_ok (kern s) p mode then
        let fd := lowest_free (p_fds (me s)) in
        (Ret fd,
         on_me (fun q => log (EvOpen p mode)
                           (with_fds (<[fd := obj_of p mode]> (p_fds q)) q)) s)
      else (Ret (-1), s)
  | None => (Ret (-1), s)
  end.

(** The object behind a descriptor number; negative numbers are never
    open. *)
Definition fd_lookup (t : gmap Z file_obj) (fd : Z) : option file_obj :=
  if fd <? 0 then None else t !! fd.

(** [dup2(oldfd, newfd)]: fails, changing nothing, when [oldfd] is not
    open; does nothing when both are equal. *)
Definition dup2 (oldfd newfd : Z) : M Z := fun s =>
  match fd_lookup (p_fds (me s)) oldfd with
  | None => (Ret (-1), s)
  | Some o =>
      if oldfd =? newfd then (Ret newfd, s)
      else (Ret newfd,
            on_me (fun q => with_fds (<[newfd := o]> (p_fds q)) q) s)
  end.

Definition close (fd : Z) : M Z := fun s =>
  match fd_lookup (p_fds (me s)) fd with
  | None => (Ret (-1), s)
  | Some _ => (Ret 0, on_me (fun q => with_fds (delete fd (p_fds q)) q) s)
  end.

(** [printf] appends to the buffer of stdout. *)
Definition printf (fmt : string) (args : list printf_arg) : M unit :=
  modify (fun q => with_stdout (p_stdout q +:+ format fmt args) q).

(** [fflush(stdout)] writes the buffered bytes to descriptor 1. *)
Definition fflush_stdout : M unit :=
  modify (fun q =>
    if decide (p_stdout q = "") then q
    else with_stdout ""
           (log (EvWrite STDOUT_FILENO (p_fds q !! STDOUT_FILENO) (p_stdout q))
                q)).

(** [fprintf(stderr, ...)]: stderr is unbuffered. *)
Definition fprintf_stderr (fmt : string) (args : list printf_arg) : M unit :=
  modify (fun q =>
    log (EvWrite STDERR_FILENO (p_fds q !! STDERR_FILENO) (format fmt args)) q).

(** [perror(msg)]: [msg], a colon and the text of [errno], on stderr. *)
Definition perror (msg : string) : M unit :=
  modify (fun q => log (EvPerror (p_fds q !! STDERR_FILENO) msg) q).

(** [execvp(file, argv)] returns (-1) only when it fails. *)
Definition execvp (file : string) (argv : list string) : M Z := fun s =>
  if k_exec_ok (kern s) file then (Exec file argv, s) else (Ret (-1), s).

Definition _exit {A} (status : Z) : M A := fun s => (Exit status, s).

(** [waitpid(pid, NULL, 0)] and [wait(NULL)]: only the call is recorded
    (the status is discarded by the source). *)
Definition waitpid (pid : Z) : M unit := modify (log (EvWaitpid pid)).
Definition wait : M unit := modify (log EvWait).

Definition kill (target sg : Z) : M Z := fun s =>
  (Ret (if k_kill_ok (kern s) target sg then 0 else -1),
   on_me (log (EvKill target sg)) s).

(** [realpath(path, NULL)]: the canonical absolute path, or NULL. *)
Definition realpath (path : string) : M (option string) := fun s =>
  (Ret (k_realpath (kern s) (p_cwd (me s)) path), s).

(** [chdir(path)], called by the source on canonical absolute paths only:
    the working directory becomes [path]. *)
Definition chdir (path : string) : M Z := fun s =>
  if k_chdir_ok (kern s) path then (Ret 0, on_me (with_cwd path) s)
  else (Ret (-1), s).

(** [getcwd(buf, size)]: NULL when the path and its terminator do not fit. *)
Definition getcwd (size : nat) : M (option string) :=
  gets (fun q =>
    if (String.length (p_cwd q) + 1 <=? size)%nat then Some (p_cwd q)
    else None).

Fixpoint has_equals (s : string) : bool :=
  match s with
  | EmptyString => false
  | String c rest => Ascii.eqb c "="%char || has_equals rest
  end.

(** [setenv(name, value, overwrite)]: refuses an empty name and a name
    containing '='. *)
Definition setenv (name value : string) (overwrite : Z) : M Z := fun s =>
  if decide (name = "") then (Ret (-1), s)
  else if has_equals name then (Ret (-1), s)
  else match p_env (me s) !! name with
       | Some _ =>
           if overwrite =? 0 then (Ret 0, s)
           else (Ret 0, on_me (fun q => with_env (<[name := value]> (p_env q)) q) s)
       | None =>
           (Ret 0, on_me (fun q => with_env (<[name := value]> (p_env q)) q) s)
       end.

(** Modelled from the spec: the registry's entry points, acting on the
    calling process's copy of the table. *)
Definition add_background_job (pid : Z) (name : string) : M Z := fun s =>
  let '(id, jobs) := Registry.add pid name (p_jobs (me s)) in
  (Ret id, on_me (with_jobs jobs) s).

(** Modelled from the spec: the polling entry point; its C form returns
    false, or true with the three out-parameters filled in. *)
Definition get_finished_job : M (option (Z * Z * string)) := fun s =>
  match Registry.take_finished (p_jobs (me s)) with
  | Some (j, jobs) =>
      (Ret (Some (job_id j, job_pid j, job_cmd j)), on_me (with_jobs jobs) s)
  | None => (Ret None, s)
  end.

(** Modelled from the spec: the listing is written through stdio. *)
Definition list_background_jobs : M unit :=
  modify (fun q => with_stdout (p_stdout q +:+ Registry.listing (p_jobs q)) q).

End Sys.

Import Sys.

(* ===================================================================== *)
(** ** The functions of [execute.c] *)
(* ===================================================================== *)

Definition abort {A} (f : fault) : M A := fun s => (Abort f, s).

(** [if (c) { m }] for a statement [m]. *)
Definition when (c : bool) (m : M unit) : M unit := if c then m else ret tt.

Section Execute.

Context `{Headers}.

(** [print_job]: printf("[%d]\t%8d\t%s\n", job_id, pid, cmd); fflush. *)
Definition print_job (job_id pid : Z) (cmd : string) : M unit :=
  printf ("[%d]" +:+ TAB +:+ "%8d" +:+ TAB +:+ "%s" +:+ NL)
         [ArgInt job_id; ArgInt pid; ArgStr cmd] ;;
  fflush_stdout.

Definition print_job_bg_start (job_id pid : Z) (cmd : string) : M unit :=
  printf "Background job started: " [] ;;
  print_job job_id pid cmd.

Definition print_job_bg_complete (job_id pid : Z) (cmd : string) : M unit :=
  printf ("Completed: " +:+ TAB) [] ;;
  print_job job_id pid cmd.

(** The [while (get_finished_job(...))] loop, with an iteration bound. *)
Fixpoint drain_finished (fuel : nat) : M unit :=
  match fuel with
  | O => abort OutOfFuel
  | S n =>
      r <- get_finished_job ;;
      match r with
      | Some (job_id, pid, cmd) =>
          print_job_bg_complete job_id pid cmd ;;
          drain_finished n
      | None => ret tt
      end
  end.

(** [check_jobs_bg_status]: the loop is compiled only under
    [#ifdef get_finished_job].  Each iteration that continues removes a job
    from the table, so one more than its length bounds the loop. *)
Definition check_jobs_bg_status : M unit :=
  if get_finished_job_defined then
    fun s => drain_finished (S (length (p_jobs (me s)))) s
  else ret tt.

Definition run_generic (cmd : GenericCommand) : M unit :=
  match generic_args cmd with
  | None | Some [] =>
      fprintf_stderr ("ERROR: No command provided." +:+ NL) []
  | Some ((arg0 :: _) as args) =>
      fork (fun pid =>
        if pid <? 0 then perror "ERROR: Fork failed"
        else if pid =? 0 then
          execvp arg0 args ;;
          perror "ERROR: Failed to execute command" ;;
          _exit EXIT_FAILURE
        else if negb (has_flag (generic_flags cmd) BACKGROUND) then
          waitpid pid
        else
          job_id <- add_background_job pid arg0 ;;
          print_job_bg_start job_id pid arg0)
  end.

Fixpoint echo_args_loop (args : list string) : M unit :=
  match args with
  | [] => ret tt
  | arg :: rest => printf "%s " [ArgStr arg] ;; echo_args_loop rest
  end.

Definition run_echo (cmd : EchoCommand) : M unit :=
  echo_args_loop (echo_args cmd) ;;
  printf NL [] ;;
  fflush_stdout.

Definition run_export (cmd : ExportCommand) : M unit :=
  rc <- setenv (env_var cmd) (val cmd) 1 ;;
  when (negb (rc =? 0)) (perror "ERROR: Failed to set environment variable").

Definition run_cd (cmd : CDCommand) : M unit :=
  match dir cmd with
  | None => perror "ERROR: Failed to resolve path"
  | Some d =>
      real_path <- realpath d ;;
      match real_path with
      | None => perror "ERROR: Failed to resolve absolute path"
      | Some rp =>
          rc <- chdir rp ;;
          if negb (rc =? 0) then perror "ERROR: Failed to change directory"
          else
            cwd <- getcwd 1024 ;;
            match cwd with
            | Some c => setenv "PWD" c 1 ;; ret tt
            | None => ret tt
            end
      end
  end.

Definition run_kill (cmd : KillCommand) : M unit :=
  rc <- kill (job cmd) (sig cmd) ;;
  when (negb (rc =? 0)) (perror "ERROR: Failed to send signal").

Definition run_pwd : M unit :=
  cwd <- getcwd 1024 ;;
  match cwd with
  | Some c => printf ("%s" +:+ NL) [ArgStr c]
  | None => perror "ERROR: Failed to get current directory"
  end ;;
  fflush_stdout.

Definition run_jobs : M unit :=
  list_background_jobs ;;
  fflush_stdout.

Definition child_run_command (cmd : Command) : M unit :=
  match cmd with
  | CmdGeneric generic => run_generic generic
  | CmdEcho echo => run_echo echo
  | CmdPWD => run_pwd
  | CmdJobs => run_jobs
  | _ => fprintf_stderr ("Unknown command type." +:+ NL) []
  end.

Definition parent_run_command (cmd : Command) : M unit :=
  match cmd with
  | CmdExport export => run_export export
  | CmdCD cd => run_cd cd
  | CmdKill kill => run_kill kill
  | _ => ret tt
  end.

(** The branch [pid == 0] of [create_process]. *)
Definition create_process_child (holder : CommandHolder) (fds : Z * Z)
  : M unit :=
  when (has_flag (flags holder) REDIRECT_IN)
    (fd <- open (redirect_in holder) O_RDONLY ;;
     dup2 fd STDIN_FILENO ;;
     close fd ;;
     ret tt) ;;
  when (has_flag (flags holder) REDIRECT_OUT)
    (fd <- open (redirect_out holder) O_WRONLY_CREAT_TRUNC ;;
     dup2 fd STDOUT_FILENO ;;
     close fd ;;
     ret tt) ;;
  when (has_flag (flags holder) PIPE_OUT)
    (dup2 (snd fds) STDOUT_FILENO ;;
     close (fst fds) ;;
     close (snd fds) ;;
     ret tt) ;;
  child_run_command (cmd holder) ;;
  _exit EXIT_FAILURE.

(** The [else] branch of [create_process]. *)
Definition create_process_parent (holder : CommandHolder) (fds : Z * Z)
  : M unit :=
  when (has_flag (flags holder) PIPE_OUT)
    (close (snd fds) ;; ret tt) ;;
  parent_run_command (cmd holder).

Definition create_process (holder : CommandHolder) : M unit :=
  fds0 <- gets p_stack ;;
  fds <- (if has_flag (flags holder) PIPE_OUT
          then r <- pipe fds0 ;; ret (snd r)
          else ret fds0) ;;
  fork (fun pid =>
    if pid =? 0 then create_process_child holder fds
    else create_process_parent holder fds).

(** [for (i = 0; get_command_holder_type(holders[i]) != EOC; ++i)
      create_process(holders[i]);] over the array from index [i] on. *)
Fixpoint create_processes (holders : list CommandHolder) : M unit :=
  match holders with
  | [] => abort OutOfBounds
  | h :: rest =>
      if decide (get_command_holder_type h = EOC) then ret tt
      else create_process h ;; create_processes rest
  end.

(** The same loop around [wait(NULL)]. *)
Fixpoint wait_each (holders : list CommandHolder) : M unit :=
  match holders with
  | [] => abort OutOfBounds
  | h :: rest =>
      if decide (get_command_holder_type h = EOC) then ret tt
      else wait ;; wait_each rest
  end.

(** [run_script]; [None] is the NULL pointer. *)
Definition run_script (holders : option (list CommandHolder)) : M unit :=
  match holders with
  | None => ret tt
  | Some [] => abort OutOfBounds
  | Some ((h0 :: _) as hs) =>
      if decide (get_command_holder_type h0 = EOC) then ret tt
      else
        check_jobs_bg_status ;;
        create_processes hs ;;
        when (negb (has_flag (flags h0) BACKGROUND)) (wait_each hs)
  end.

End Execute.

(* ===================================================================== *)
(** ** Vocabulary of the statements *)
(* ===================================================================== *)

(** The effect on a process of flushing [text] appended to what stdout
    already buffered: one write on descriptor 1, and an empty buffer. *)
Definition emit (text : string) (q : proc) : proc :=
  with_stdout ""
    (log (EvWrite STDOUT_FILENO (p_fds q !! STDOUT_FILENO)
                  (p_stdout q +:+ text)) q).

(** Every argument followed by one space. *)
Definition spaced (args : list string) : string :=
  foldr (fun a rest => a +:+ " " +:+ rest) "" args.

(** The job line of the source: the process id right-justified in eight
    columns. *)
Definition job_line (id pid : Z) (name : string) : string :=
  "[" +:+ pretty id +:+ "]" +:+ TAB +:+ pad_left 8 (pretty pid) +:+ TAB +:+
  name +:+ NL.

(** The job line as the specification words it: fields separated by single
    tabs and nothing else. *)
Definition job_line_unpadded (id pid : Z) (name : string) : string :=
  "[" +:+ pretty id +:+ "]" +:+ TAB +:+ pretty pid +:+ TAB +:+ name +:+ NL.

(** The processes a computation created: what it appended to [others]. *)
Definition spawned {A} (m : M A) (s : sys) : list summary :=
  drop (length (others s)) (others (snd (m s))).

(** The process a successful [fork] creates next. *)
Definition next_pid (s : sys) : Z := Z.pos (k_next_pid (kern s)).

(** The state in which the child of the next [fork] starts. *)
Definition child_start (s : sys) : sys :=
  {| me := child_of (next_pid s) (me s); kern := kernel_after_fork (kern s);
     others := [] |}.

(** The record of a child that ran [m] from [child_start s]. *)
Definition child_record {A} (m : M A) (s : sys) : summary :=
  {| s_pid := next_pid s; s_parent := p_pid (me s);
     s_end := ending_of (fst (m (child_start s)));
     s_proc := me (snd (m (child_start s))) |}.

(** The state in which the caller continues after that child. *)
Definition after_child {A} (m : M A) (s : sys) : sys :=
  {| me := me s; kern := kern (snd (m (child_start s)));
     others := others s ++ child_record m s :: others (snd (m (child_start s))) |}.

Definition is_stdout_write (e : event) : bool :=
  match e with
  | EvWrite fd _ _ => fd =? STDOUT_FILENO
  | _ => false
  end.

(** Every write on descriptor 1 recorded in [tr] went to [o]. *)
Definition stdout_goes_to (o : option file_obj) (tr : list event) : Prop :=
  ∀ t d, EvWrite STDOUT_FILENO t d ∈ tr → t = o.

(** A process stopped the way a process of this program can: by running
    another program, or with the failure status. *)
Definition exec_or_failure (e : ending) : Prop :=
  e = Exited EXIT_FAILURE ∨ ∃ f v, e = Execed f v.

(** Relations between the state before and after a computation. *)

(** Nothing was written on descriptor 1. *)
Definition quiet (s s' : sys) : Prop :=
  ∀ t d, EvWrite STDOUT_FILENO t d ∈ p_trace (me s') →
         EvWrite STDOUT_FILENO t d ∈ p_trace (me s).

(** Only the caller's descriptor table and trace may differ. *)
Definition same_but_fds (s s' : sys) : Prop :=
  kern s' = kern s ∧ others s' = others s
  ∧ p_jobs (me s') = p_jobs (me s) ∧ p_stdout (me s') = p_stdout (me s)
  ∧ p_cwd (me s') = p_cwd (me s) ∧ p_env (me s') = p_env (me s).

(** The descriptor table is kept, and whatever was written on descriptor 1
    went to the object it referred to at the start. *)
Definition proc_out (q q' : proc) : Prop :=
  p_fds q' = p_fds q
  ∧ ∀ t d, EvWrite STDOUT_FILENO t d ∈ p_trace q' →
           EvWrite STDOUT_FILENO t d ∈ p_trace q
           ∨ t = p_fds q !! STDOUT_FILENO.

(** The processes created meanwhile execute another program or exit with
    the failure status, and have the caller's descriptor table. *)
Definition child_side (s s' : sys) : Prop :=
  proc_out (me s) (me s')
  ∧ ∃ new, others s' = others s ++ new
           ∧ Forall (fun g => exec_or_failure (s_end g)
                              ∧ p_fds (s_proc g) = p_fds (me s)) new.

(** What the caller's side of [create_process] keeps: the processes
    created so far, its job table, and silence on descriptor 1. *)
Definition parent_side (s s' : sys) : Prop :=
  others s' = others s ∧ p_jobs (me s') = p_jobs (me s) ∧ quiet s s'.

(** What creating the pipe keeps. *)
Definition pipe_side (s s1 : sys) : Prop :=
  others s1 = others s ∧ p_jobs (me s1) = p_jobs (me s)
  ∧ p_trace (me s1) = p_trace (me s) ∧ p_pid (me s1) = p_pid (me s)
  ∧ k_next_pid (kern s1) = k_next_pid (kern s)
  ∧ k_fork_ok (kern s1) = k_fork_ok (kern s)
  ∧ ∀ k o, p_fds (me s) !! k = Some o → p_fds (me s1) !! k = Some o.

(** The processes created between two states all satisfy [P]. *)
Definition grows (P : summary → Prop) (s s' : sys) : Prop :=
  ∃ new, others s' = others s ++ new ∧ Forall P new.

(** A kernel that refuses the next [fork] and then goes on as [k]. *)
Definition refusing_fork (k : kernel) : kernel :=
  {| k_next_pid := k_next_pid k; k_next_pipe := k_next_pipe k;
     k_fork_ok := false :: k_fork_ok k; k_pipe_ok := k_pipe_ok k;
     k_open_ok := k_open_ok k; k_exec_ok := k_exec_ok k;
     k_realpath := k_realpath k; k_chdir_ok := k_chdir_ok k;
     k_kill_ok := k_kill_ok k |}.

(** What is seen of a created process in the examples. *)
Definition wiring (g : summary)
  : Z * Z * ending * option file_obj * option file_obj :=
  (s_pid g, s_parent g, s_end g,
   p_fds (s_proc g) !! STDIN_FILENO, p_fds (s_proc g) !! STDOUT_FILENO).

(** The tracked jobs whose process has exited, and the others. *)
Definition finished_jobs (jobs : list Job) : list Job :=
  filter (fun j => job_state j = Finished) jobs.

Definition running_jobs (jobs : list Job) : list Job :=
  filter (fun j => job_state j ≠ Finished) jobs.

(** The completion notice of a job, as one write on descriptor 1. *)
Definition completion_notice (target : option file_obj) (j : Job) : event :=
  EvWrite STDOUT_FILENO target
    ("Completed: " +:+ TAB +:+ job_line (job_id j) (job_pid j) (job_cmd j)).

Section GenericVocabulary.

Context `{Headers}.

(** The caller's side of [run_generic] once the new process exists. *)
Definition generic_caller (cmd : GenericCommand) (arg0 : string) (pid : Z)
    (q : proc) : proc :=
  if has_flag (generic_flags cmd) BACKGROUND then
    emit ("Background job started: " +:+
          job_line (fst (Registry.add pid arg0 (p_jobs q))) pid arg0)
         (with_jobs (snd (Registry.add pid arg0 (p_jobs q))) q)
  else log (EvWaitpid pid) q.

(** What the new process is when it stops. *)
Definition generic_child (arg0 : string) (args : list string) (s : sys)
  : summary :=
  {| s_pid := next_pid s; s_parent := p_pid (me s);
     s_end := if k_exec_ok (kern s) arg0 then Execed arg0 args
              else Exited EXIT_FAILURE;
     s_proc := if k_exec_ok (kern s) arg0 then child_of (next_pid s) (me s)
               else log (EvPerror (p_fds (me s) !! STDERR_FILENO)
                           "ERROR: Failed to execute command")
                        (child_of (next_pid s) (me s)) |}.

End GenericVocabulary.

(* ===================================================================== *)
(** ** Concrete inputs *)
(* ===================================================================== *)

Module Examples.

(** Modelled from the spec: the header is not among the sources.  One bit
    per flag; and since the registry's polling entry point is a function of
    an external collaborator, no preprocessor macro is named
    [get_finished_job]. *)
Definition quash_headers : Headers :=
  {| REDIRECT_IN := 1; REDIRECT_OUT := 4; PIPE_OUT := 32; BACKGROUND := 64;
     get_finished_job_defined := false |}.

Definition std_fds : gmap Z file_obj :=
  <[0 := Tty]> (<[1 := Tty]> (<[2 := Tty]> ∅)).

Definition shell0 : proc :=
  {| p_pid := 100; p_fds := std_fds; p_cwd := "/home/u";
     p_env := <["PWD" := "/home/u"]> ∅; p_jobs := []; p_stdout := "";
     p_stack := (-7, 12345); p_trace := [] |}.

(** A file system whose directories are ["/tmp"] and a deep one. *)
Definition deep_dir : string :=
  String.concat "" (replicate 5 ("/" +:+ String.concat "" (replicate 250 "d"))).

Definition realpath0 (cwd path : string) : option string :=
  if decide (path = "/tmp") then Some "/tmp"
  else if decide (path = deep_dir) then Some deep_dir
  else None.

Definition kern0 : kernel :=
  {| k_next_pid := 101; k_next_pipe := 0; k_fork_ok := []; k_pipe_ok := [];
     k_open_ok := fun _ _ => true; k_exec_ok := fun _ => true;
     k_realpath := realpath0; k_chdir_ok := fun _ => true;
     k_kill_ok := fun _ _ => true |}.

(** The same kernel refusing the next [fork]. *)
Definition kern_nofork : kernel :=
  {| k_next_pid := 101; k_next_pipe := 0; k_fork_ok := [false];
     k_pipe_ok := [];
     k_open_ok := fun _ _ => true; k_exec_ok := fun _ => true;
     k_realpath := realpath0; k_chdir_ok := fun _ => true;
     k_kill_ok := fun _ _ => true |}.

(** The same kernel on a machine without the programs asked for. *)
Definition kern_noexec : kernel :=
  {| k_next_pid := 101; k_next_pipe := 0; k_fork_ok := []; k_pipe_ok := [];
     k_open_ok := fun _ _ => true; k_exec_ok := fun _ => false;
     k_realpath := realpath0; k_chdir_ok := fun _ => true;
     k_kill_ok := fun _ _ => true |}.

Definition sys0 : sys := {| me := shell0; kern := kern0; others := [] |}.
Definition sys_nofork : sys :=
  {| me := shell0; kern := kern_nofork; others := [] |}.
Definition sys_noexec : sys :=
  {| me := shell0; kern := kern_noexec; others := [] |}.

Definition stage (c : Command) (fl : Z) : CommandHolder :=
  {| redirect_in := None; redirect_out := None; flags := fl; cmd := c |}.

Definition echo_ab : Command := CmdEcho {| echo_args := ["a"; "b"] |}.
Definition cat : Command :=
  CmdGeneric {| generic_args := Some ["cat"]; generic_flags := 0 |}.
(** A bit outside the four masks, such as a parser sets on a stage that
    reads from the previous one; [execute.c] tests no such bit. *)
Definition PIPE_IN : Z := 16.
Definition sleep_bg : GenericCommand :=
  {| generic_args := Some ["sleep"; "5"]; generic_flags := 64 |}.
Definition ls : GenericCommand :=
  {| generic_args := Some ["ls"]; generic_flags := 0 |}.
Definition cd_tmp : Command := CmdCD {| dir := Some "/tmp" |}.

(** [echo a b | cat] *)
Definition echo_pipe_cat : list CommandHolder :=
  [stage echo_ab 32; stage cat PIPE_IN; stage CmdEOC 0].

(** [sleep 5 &] *)
Definition sleep_background : list CommandHolder :=
  [stage (CmdGeneric sleep_bg) 64; stage CmdEOC 0].

(** [echo a b > out.txt |]: redirection to a file and a pipe to the next
    stage on the same command. *)
Definition echo_to_file_and_pipe : CommandHolder :=
  {| redirect_in := None; redirect_out := Some "out.txt"; flags := 36;
     cmd := echo_ab |}.

(** A shell that tracks one job whose process has exited. *)
Definition finished_job : Job :=
  {| job_id := 1; job_pid := 90; job_cmd := "make"; job_state := Finished |}.

Definition sys_finished : sys :=
  {| me := with_jobs [finished_job] shell0; kern := kern0; others := [] |}.

End Examples.

(* ===================================================================== *)
(** ** The interface functions of [execute.c] *)
(* ===================================================================== *)

Module Interface.

(** [getenv(name)]: the value, or NULL. *)
Definition getenv (name : string) : M (option string) :=
  gets (fun q => p_env q !! name).

(** [getcwd(NULL, 0)]: the buffer is allocated to fit the path, so the
    length never makes the call fail; with a buffer of its own, [getcwd]
    fails in this model for no other reason either. *)
Definition getcwd_alloc : M (option string) :=
  gets (fun q => Some (p_cwd q)).

(** [get_current_directory(bool* should_free)]: the result, and what
    [*should_free] holds afterwards. *)
Definition get_current_directory (should_free : bool)
  : M (option string * bool) :=
  cwd <- getcwd_alloc ;;
  match cwd with
  | None =>
      perror "ERROR: Failed to get current directory" ;;
      ret (None, should_free)
  | Some c => ret (Some c, true)
  end.

(** [lookup_env]: [value ? value : ""]. *)
Definition lookup_env (env_var : string) : M string :=
  value <- getenv env_var ;;
  ret (match value with
       | Some v => v
       | None => ""
       end).

End Interface.

Import Interface.

(* ===================================================================== *)
(** ** Further vocabulary *)
(* ===================================================================== *)

(** The number of [wait(NULL)] calls in a trace. *)
Fixpoint count_waits (tr : list event) : nat :=
  match tr with
  | [] => 0
  | EvWait :: rest => S (count_waits rest)
  | _ :: rest => count_waits rest
  end.

(** What the parent-side commands record: error reports and signals. *)
Definition parent_event (e : event) : bool :=
  match e with
  | EvPerror _ _ => true
  | EvKill _ _ => true
  | _ => false
  end.

(** A report on the error stream. *)
Definition reports_error (e : event) : bool :=
  match e with
  | EvPerror _ _ => true
  | EvWrite fd _ _ => fd =? STDERR_FILENO
  | _ => false
  end.

(** The file a redirection of a stage really opens: none when the flag is
    not set, the path is NULL, or the file cannot be opened. *)
Definition opened (k : kernel) (flag : bool) (path : option string)
    (mode : open_mode) : option string :=
  if flag then
    match path with
    | Some p => if k_open_ok k p mode then Some p else None
    | None => None
    end
  else None.

(** Two kernels answer alike where the answer does not depend on what
    happened before. *)
Definition same_oracles (k k' : kernel) : Prop :=
  k_open_ok k' = k_open_ok k ∧ k_exec_ok k' = k_exec_ok k
  ∧ k_realpath k' = k_realpath k ∧ k_chdir_ok k' = k_chdir_ok k
  ∧ k_kill_ok k' = k_kill_ok k.

(** A process has the environment and the working directory of [q]. *)
Definition lives_like (q : proc) (g : summary) : Prop :=
  p_env (s_proc g) = p_env q ∧ p_cwd (s_proc g) = p_cwd q.

(** What running a command in a created process keeps: its environment and
    working directory, which the processes it creates share. *)
Definition inherits (s s' : sys) : Prop :=
  p_env (me s') = p_env (me s) ∧ p_cwd (me s') = p_cwd (me s)
  ∧ same_oracles (kern s) (kern s')
  ∧ ∃ new, others s' = others s ++ new ∧ Forall (lives_like (me s)) new.

(** What the caller's side of a stage does to the calling process itself:
    only error reports and signals are recorded, and the descriptor table,
    the stdio buffer and the job table are kept. *)
Definition shell_step (s s' : sys) : Prop :=
  p_fds (me s') = p_fds (me s)
  ∧ p_stdout (me s') = p_stdout (me s)
  ∧ p_jobs (me s') = p_jobs (me s)
  ∧ others s' = others s
  ∧ kern s' = kern s
  ∧ ∃ evs, p_trace (me s') = p_trace (me s) ++ evs
           ∧ Forall (fun e => parent_event e = true) evs.

(** A pipeline as the parser hands it over: stages, the terminator, and
    whatever the array holds after it. *)
Definition pipeline (stages : list CommandHolder) (eoc : CommandHolder)
    (rest : list CommandHolder) : list CommandHolder :=
  stages ++ eoc :: rest.

(** What a redirection that opens [o] records. *)
Definition open_events (o : option string) (mode : open_mode) : list event :=
  match o with
  | Some p => [EvOpen p mode]
  | None => []
  end.

(** The descriptor a redirection installs, or the one that was there. *)
Definition redirected (o : option string) (mode : open_mode)
    (before : option file_obj) : option file_obj :=
  match o with
  | Some p => Some (obj_of p mode)
  | None => before
  end.

(** The kinds [child_run_command] has a case for. *)
Definition child_side_kind (t : CommandType) : bool :=
  match t with
  | GENERIC | ECHO | PWD | JOBS => true
  | _ => false
  end.

(** A process whose stdio buffer of standard output holds nothing: what
    [_exit] and [execvp], which do not flush, would otherwise lose. *)
Definition flushed (g : summary) : Prop := p_stdout (s_proc g) = "".

(** The kernel never refuses a pipe. *)
Definition pipes_granted (k : kernel) : Prop :=
  Forall (fun b => b = true) (k_pipe_ok k).

Section Pipes.

Context `{Headers}.

(** How many of the stages pipe their output to the next one. *)
Definition pipes_of (stages : list CommandHolder) : nat :=
  length (filter (fun h => has_flag (flags h) PIPE_OUT = true) stages).

End Pipes.

(** More concrete inputs. *)
Module Inputs.

Import Examples.

(** A file system on which nothing can be created or written. *)
Definition kern_readonly : kernel :=
  {| k_next_pid := 101; k_next_pipe := 0; k_fork_ok := []; k_pipe_ok := [];
     k_open_ok := fun _ mode => match mode with
                                | O_RDONLY => true
                                | O_WRONLY_CREAT_TRUNC => false
                                end;
     k_exec_ok := fun _ => true;
     k_realpath := realpath0; k_chdir_ok := fun _ => true;
     k_kill_ok := fun _ _ => true |}.

Definition sys_readonly : sys :=
  {| me := shell0; kern := kern_readonly; others := [] |}.

(** [echo a b > out.txt] *)
Definition echo_to_file : CommandHolder :=
  {| redirect_in := None; redirect_out := Some "out.txt"; flags := 4;
     cmd := echo_ab |}.

(** [export EDITOR=vi], and a name [setenv] refuses. *)
Definition export_editor : ExportCommand :=
  {| env_var := "EDITOR"; val := "vi" |}.
Definition export_bad : ExportCommand :=
  {| env_var := "A=B"; val := "c" |}.

(** A command without a program name. *)
Definition no_program : GenericCommand :=
  {| generic_args := None; generic_flags := 0 |}.

Definition cat_generic : GenericCommand :=
  {| generic_args := Some ["cat"]; generic_flags := 0 |}.

Definition eoc : CommandHolder := stage CmdEOC 0.

(** [echo a b | cat], as stages. *)
Definition echo_cat_stages : list CommandHolder :=
  [stage echo_ab 32; stage cat PIPE_IN].

End Inputs.

(* ===================================================================== *)
(** * Properties *)
(* ===================================================================== *)

(* ===================================================================== *)
(** ** Strings *)
(* ===================================================================== *)

Lemma str_app_cons (a : ascii) (s t : string) :
  String a s +:+ t = String a (s +:+ t).
Proof. reflexivity. Qed.

Lemma str_app_nil_r (s : string) : s +:+ "" = s.
Proof. induction s as [|a s IH]; [done|]. by rewrite str_app_cons, IH. Qed.

Lemma str_app_assoc (s t u : string) : (s +:+ t) +:+ u = s +:+ (t +:+ u).
Proof. induction s as [|a s IH]; [done|]. by rewrite !str_app_cons, IH. Qed.

Lemma str_app_length (s t : string) :
  String.length (s +:+ t) = (String.length s + String.length t)%nat.
Proof.
  induction s as [|a s IH]; [done|].
  rewrite str_app_cons. simpl. by rewrite IH.
Qed.

Lemma str_app_nonempty_r (s t : string) : t ≠ "" → s +:+ t ≠ "".
Proof.
  intros Ht Hst. apply (f_equal String.length) in Hst.
  rewrite str_app_length in Hst. destruct t; [done|]. simpl in Hst. lia.
Qed.

Lemma spaces_length (n : nat) : String.length (spaces n) = n.
Proof. induction n as [|n IH]; [done|]. simpl. by rewrite IH. Qed.

Lemma pad_left_length (w : nat) (s : string) :
  String.length (pad_left w s) = Nat.max w (String.length s).
Proof. unfold pad_left. rewrite str_app_length, spaces_length. lia. Qed.

(* ===================================================================== *)
(** ** stdio *)
(* ===================================================================== *)

Lemma bind_ret_l {A B} (m : M A) (k : A → M B) (s s' : sys) (a : A) :
  m s = (Ret a, s') → bind m k s = k a s'.
Proof. intros Hm. unfold bind. by rewrite Hm. Qed.

Lemma job_format (id pid : Z) (name : string) :
  format ("[%d]" +:+ TAB +:+ "%8d" +:+ TAB +:+ "%s" +:+ NL)
         [ArgInt id; ArgInt pid; ArgStr name]
  = job_line id pid name.
Proof.
  set (f := "[%d]" +:+ _). vm_compute in f. subst f.
  cbv -[pretty pad_left String.append job_line].
  reflexivity.
Qed.

Lemma print_job_emits (id pid : Z) (name : string) (s : sys) :
  print_job id pid name s = (Ret tt, on_me (emit (job_line id pid name)) s).
Proof.
  unfold print_job, printf, fflush_stdout, bind, modify, on_me. simpl.
  rewrite job_format. f_equal. f_equal.
  destruct (decide (p_stdout (me s) +:+ job_line id pid name = "")) as [E|_].
  - by apply str_app_nonempty_r in E.
  - reflexivity.
Qed.

Lemma print_job_bg_start_emits (id pid : Z) (name : string) (s : sys) :
  print_job_bg_start id pid name s
  = (Ret tt,
     on_me (emit ("Background job started: " +:+ job_line id pid name)) s).
Proof.
  unfold print_job_bg_start, bind, printf, modify.
  rewrite print_job_emits. unfold on_me, emit. simpl.
  by rewrite str_app_assoc.
Qed.

Lemma print_job_bg_complete_emits (id pid : Z) (name : string) (s : sys) :
  print_job_bg_complete id pid name s
  = (Ret tt,
     on_me (emit ("Completed: " +:+ TAB +:+ job_line id pid name)) s).
Proof.
  unfold print_job_bg_complete, bind, printf, modify.
  rewrite print_job_emits. unfold on_me, emit. simpl.
  by rewrite str_app_assoc.
Qed.

Lemma echo_format (a : string) : format "%s " [ArgStr a] = a +:+ " ".
Proof. reflexivity. Qed.

Lemma echo_args_loop_buffers (args : list string) (s : sys) :
  echo_args_loop args s
  = (Ret tt, on_me (fun q => with_stdout (p_stdout q +:+ spaced args) q) s).
Proof.
  revert s. induction args as [|a rest IH]; intros s.
  - destruct s as [[] ? ?]. unfold on_me, with_stdout, ret. simpl.
    by rewrite str_app_nil_r.
  - simpl. unfold bind, printf, modify. rewrite IH, echo_format.
    unfold on_me, with_stdout. simpl. by rewrite !str_app_assoc.
Qed.

(** C9 (amended). [print_job] writes the job id in brackets, a tab, the
    process id right-justified in a field of eight characters (padded on the
    left with spaces when it is shorter), a tab, the display string and a
    line terminator; the start notice is that line after
    "Background job started: ", the completion notice that line after
    "Completed: " and a tab. *)
Theorem C9_job_lines_pad_the_pid (id pid : Z) (name : string) (s : sys) :
  print_job id pid name s = (Ret tt, on_me (emit (job_line id pid name)) s)
  ∧ print_job_bg_start id pid name s
    = (Ret tt,
       on_me (emit ("Background job started: " +:+ job_line id pid name)) s)
  ∧ print_job_bg_complete id pid name s
    = (Ret tt,
       on_me (emit ("Completed: " +:+ TAB +:+ job_line id pid name)) s)
  ∧ String.length (pad_left 8 (pretty pid))
    = Nat.max 8 (String.length (pretty pid)).
Proof.
  split; [apply print_job_emits|].
  split; [apply print_job_bg_start_emits|].
  split; [apply print_job_bg_complete_emits|].
  apply pad_left_length.
Qed.

(** C9 (counterexample). For job 1, process 1234, display string "sleep"
    the line written is not the unpadded "[1]<tab>1234<tab>sleep": four
    spaces precede the process id; the same holds for the start notice. *)
Lemma C9_counterexample :
  p_trace (me (snd (print_job 1 1234 "sleep" Examples.sys0)))
    ≠ [EvWrite 1 (Some Tty) (job_line_unpadded 1 1234 "sleep")]
  ∧ p_trace (me (snd (print_job_bg_start 1 1234 "sleep" Examples.sys0)))
    ≠ [EvWrite 1 (Some Tty)
         ("Background job started: " +:+ job_line_unpadded 1 1234 "sleep")]
  ∧ p_trace (me (snd (print_job 1 1234 "sleep" Examples.sys0)))
    = [EvWrite 1 (Some Tty)
         ("[1]" +:+ TAB +:+ "    1234" +:+ TAB +:+ "sleep" +:+ NL)].
Proof. vm_compute. repeat split; discriminate. Qed.

Lemma run_echo_emits (args : list string) (s : sys) :
  run_echo {| echo_args := args |} s
  = (Ret tt, on_me (emit (spaced args +:+ NL)) s).
Proof.
  unfold run_echo, bind. simpl. rewrite echo_args_loop_buffers.
  unfold printf, fflush_stdout, modify, on_me, emit. simpl.
  f_equal. f_equal. rewrite !str_app_assoc.
  change (format NL []) with NL.
  destruct (decide (p_stdout (me s) +:+ spaced args +:+ NL = "")) as [E|_].
  - apply str_app_nonempty_r in E; [done|]. by apply str_app_nonempty_r.
  - reflexivity.
Qed.

(** C8. [run_echo] writes every argument followed by one space and then one
    line terminator (after whatever stdout still buffered); with the
    arguments a, b, and nothing buffered before, exactly "a b " and the
    terminator are written, in one write on descriptor 1. *)
Theorem C8_print_writes_spaced_arguments (args : list string) (s : sys) :
  run_echo {| echo_args := args |} s
  = (Ret tt, on_me (emit (spaced args +:+ NL)) s)
  ∧ p_trace (me (snd (run_echo {| echo_args := ["a"; "b"] |} Examples.sys0)))
    = [EvWrite STDOUT_FILENO (Some Tty) ("a b " +:+ NL)].
Proof. split; [apply run_echo_emits|reflexivity]. Qed.

(* ===================================================================== *)
(** ** Descriptor allocation *)
(* ===================================================================== *)

Lemma lowest_free_is_free (t : gmap Z file_obj) : t !! lowest_free t = None.
Proof.
  unfold lowest_free.
  destruct (filter _ _) as [|n l] eqn:E.
  - exfalso.
    assert (Hsub : (list_to_set (seqZ 0 (Z.of_nat (size t) + 1)) : gset Z)
                   ⊆ dom t).
    { intros n Hn. apply elem_of_list_to_set in Hn.
      apply elem_of_dom. destruct (t !! n) eqn:Hl; [by eexists|].
      assert (Hin : n ∈ filter (λ n, t !! n = None)
                      (seqZ 0 (Z.of_nat (size t) + 1))).
      { apply list_elem_of_filter. by split. }
      rewrite E in Hin. by apply elem_of_nil in Hin. }
    apply subseteq_size in Hsub.
    rewrite size_dom, size_list_to_set, length_seqZ in Hsub
      by apply NoDup_seqZ.
    lia.
  - assert (Hin : n ∈ filter (λ n, t !! n = None)
                    (seqZ 0 (Z.of_nat (size t) + 1))).
    { rewrite E. apply list_elem_of_here. }
    apply list_elem_of_filter in Hin. tauto.
Qed.

Lemma lowest_free_nonneg (t : gmap Z file_obj) : 0 ≤ lowest_free t.
Proof.
  unfold lowest_free.
  destruct (filter _ _) as [|n l] eqn:E; [lia|].
  assert (Hin : n ∈ filter (λ n, t !! n = None)
                  (seqZ 0 (Z.of_nat (size t) + 1))).
  { rewrite E. apply list_elem_of_here. }
  apply list_elem_of_filter in Hin. destruct Hin as [_ Hin].
  apply elem_of_seqZ in Hin. lia.
Qed.

(** An open descriptor is never handed out again. *)
Lemma lowest_free_ne (t : gmap Z file_obj) (fd : Z) :
  is_Some (t !! fd) → lowest_free t ≠ fd.
Proof.
  intros [o Ho] E. rewrite <- E, lowest_free_is_free in Ho. discriminate.
Qed.

Lemma fd_lookup_nonneg (t : gmap Z file_obj) (fd : Z) :
  0 ≤ fd → fd_lookup t fd = t !! fd.
Proof. intros Hfd. unfold fd_lookup. by rewrite (proj2 (Z.ltb_ge fd 0)). Qed.

(* ===================================================================== *)
(** ** [fork] *)
(* ===================================================================== *)

Lemma fork_succeeds {A} (k : Z → M A) (s : sys) :
  next_ok (k_fork_ok (kern s)) = true →
  fork k s = k (next_pid s) (after_child (k 0) s).
Proof.
  intros Hok. unfold fork. rewrite Hok.
  unfold after_child, child_record, child_start, next_pid.
  by destruct (k 0 _).
Qed.

Lemma fork_fails {A} (k : Z → M A) (s : sys) :
  next_ok (k_fork_ok (kern s)) = false →
  fork k s = k (-1) (with_kern (kernel_fork_refused (kern s)) s).
Proof. intros Hok. unfold fork. by rewrite Hok. Qed.

(* ===================================================================== *)
(** ** [run_generic] *)
(* ===================================================================== *)

Section RunGeneric.

Context `{Headers}.

(** The code [run_generic] leaves to the process it creates. *)
Lemma run_generic_child_ending (arg0 : string) (args : list string) (s : sys) :
  (execvp arg0 args ;;
   perror "ERROR: Failed to execute command" ;;
   _exit (A := unit) EXIT_FAILURE) s
  = if k_exec_ok (kern s) arg0 then (Exec arg0 args, s)
    else (Exit EXIT_FAILURE,
          on_me (log (EvPerror (p_fds (me s) !! STDERR_FILENO)
                        "ERROR: Failed to execute command")) s).
Proof. unfold bind, execvp. by destruct (k_exec_ok (kern s) arg0). Qed.

Lemma run_generic_forks (cmd : GenericCommand) (arg0 : string)
    (rest : list string) (s : sys) :
  generic_args cmd = Some (arg0 :: rest) →
  next_ok (k_fork_ok (kern s)) = true →
  run_generic cmd s
  = (Ret tt,
     {| me := generic_caller cmd arg0 (next_pid s) (me s);
        kern := kernel_after_fork (kern s);
        others := others s ++ [generic_child arg0 (arg0 :: rest) s] |}).
Proof.
  intros Hargs Hok. unfold run_generic. rewrite Hargs.
  rewrite fork_succeeds by done.
  change (next_pid s <? 0) with false. change (next_pid s =? 0) with false.
  cbv iota.
  unfold after_child, child_record.
  change (0 <? 0) with false. change (0 =? 0) with true. cbv iota.
  rewrite run_generic_child_ending.
  unfold generic_caller, generic_child.
  change (kern (child_start s)) with (kernel_after_fork (kern s)).
  change (k_exec_ok (kernel_after_fork (kern s)) arg0)
    with (k_exec_ok (kern s) arg0).
  destruct (has_flag (generic_flags cmd) BACKGROUND) eqn:Hbg;
    destruct (k_exec_ok (kern s) arg0) eqn:Hexec; simpl.
  all: try reflexivity.
  all: unfold bind, add_background_job; simpl;
       by rewrite print_job_bg_start_emits.
Qed.

Lemma run_generic_fork_fails (cmd : GenericCommand) (arg0 : string)
    (rest : list string) (s : sys) :
  generic_args cmd = Some (arg0 :: rest) →
  next_ok (k_fork_ok (kern s)) = false →
  run_generic cmd s
  = (Ret tt,
     {| me := log (EvPerror (p_fds (me s) !! STDERR_FILENO) "ERROR: Fork failed")
                  (me s);
        kern := kernel_fork_refused (kern s);
        others := others s |}).
Proof.
  intros Hargs Hok. unfold run_generic. rewrite Hargs.
  by rewrite fork_fails by done.
Qed.

Lemma run_generic_no_command (cmd : GenericCommand) (s : sys) :
  generic_args cmd = None ∨ generic_args cmd = Some [] →
  run_generic cmd s
  = (Ret tt,
     on_me (log (EvWrite STDERR_FILENO (p_fds (me s) !! STDERR_FILENO)
                   ("ERROR: No command provided." +:+ NL))) s).
Proof. intros [Hargs|Hargs]; unfold run_generic; by rewrite Hargs. Qed.

End RunGeneric.

Section RunGenericClaim.

Context `{Headers}.

(** C6 (amended). [run_generic] with a non-empty argument vector, when its
    [fork] succeeds, creates exactly one additional process, which inherits
    the caller's open descriptors; that process replaces its image with the
    named program, or, if the program cannot be executed, reports the
    failure and terminates with the non-zero status [EXIT_FAILURE] without
    returning.  The calling process is not replaced: it waits for the new
    process, or for a background command registers it and prints the start
    notice, and returns to its caller. *)
Theorem C6_run_generic_forks_then_execs (cmd : GenericCommand)
    (arg0 : string) (rest : list string) (s : sys) :
  generic_args cmd = Some (arg0 :: rest) →
  next_ok (k_fork_ok (kern s)) = true →
  ∃ (child : summary) (s' : sys),
    run_generic cmd s = (Ret tt, s')
    ∧ others s' = others s ++ [child]
    ∧ s_pid child = next_pid s
    ∧ s_parent child = p_pid (me s)
    ∧ p_fds (s_proc child) = p_fds (me s)
    ∧ (if k_exec_ok (kern s) arg0
       then s_end child = Execed arg0 (arg0 :: rest)
            ∧ p_trace (s_proc child) = []
       else s_end child = Exited EXIT_FAILURE
            ∧ EXIT_FAILURE ≠ 0
            ∧ p_trace (s_proc child)
              = [EvPerror (p_fds (me s) !! STDERR_FILENO)
                   "ERROR: Failed to execute command"])
    ∧ (if has_flag (generic_flags cmd) BACKGROUND
       then p_jobs (me s')
            = snd (Registry.add (next_pid s) arg0 (p_jobs (me s)))
            ∧ p_trace (me s')
              = p_trace (me s) ++
                [EvWrite STDOUT_FILENO (p_fds (me s) !! STDOUT_FILENO)
                   (p_stdout (me s) +:+ "Background job started: " +:+
                    job_line (fst (Registry.add (next_pid s) arg0
                                     (p_jobs (me s))))
                             (next_pid s) arg0)]
       else p_jobs (me s') = p_jobs (me s)
            ∧ p_trace (me s') = p_trace (me s) ++ [EvWaitpid (next_pid s)]).
Proof.
  intros Hargs Hok.
  eexists _, _. split; [by apply run_generic_forks|].
  unfold generic_child, generic_caller. simpl.
  repeat split.
  - by destruct (k_exec_ok (kern s) arg0).
  - by destruct (k_exec_ok (kern s) arg0).
  - by destruct (has_flag (generic_flags cmd) BACKGROUND).
Qed.

End RunGenericClaim.

Section RunGenericExamples.

#[local] Existing Instance Examples.quash_headers.

Import Examples.

(** C6 (counterexample). Running [ls] through [run_generic] does not replace
    the calling process: the call returns, and a process that was not there
    before has been created to run [ls]. *)
Lemma C6_counterexample :
  fst (run_generic ls sys0) = Ret tt
  ∧ fst (run_generic ls sys0) ≠ Exec "ls" ["ls"]
  ∧ others sys0 = []
  ∧ (s_pid <$> others (snd (run_generic ls sys0))) = [101]
  ∧ (s_end <$> others (snd (run_generic ls sys0))) = [Execed "ls" ["ls"]].
Proof. vm_compute. repeat split; discriminate. Qed.

(** C6 (witness): [ls] on a machine where it cannot be executed. *)
Lemma C6_witness :
  ∃ (child : summary) (s' : sys),
    run_generic ls sys_noexec = (Ret tt, s')
    ∧ others s' = others sys_noexec ++ [child]
    ∧ s_pid child = next_pid sys_noexec
    ∧ s_parent child = p_pid (me sys_noexec)
    ∧ p_fds (s_proc child) = p_fds (me sys_noexec)
    ∧ (if k_exec_ok (kern sys_noexec) "ls"
       then s_end child = Execed "ls" ["ls"]
            ∧ p_trace (s_proc child) = []
       else s_end child = Exited EXIT_FAILURE
            ∧ EXIT_FAILURE ≠ 0
            ∧ p_trace (s_proc child)
              = [EvPerror (p_fds (me sys_noexec) !! STDERR_FILENO)
                   "ERROR: Failed to execute command"])
    ∧ (if has_flag (generic_flags ls) BACKGROUND
       then p_jobs (me s')
            = snd (Registry.add (next_pid sys_noexec) "ls"
                     (p_jobs (me sys_noexec)))
            ∧ p_trace (me s')
              = p_trace (me sys_noexec) ++
                [EvWrite STDOUT_FILENO (p_fds (me sys_noexec) !! STDOUT_FILENO)
                   (p_stdout (me sys_noexec) +:+ "Background job started: " +:+
                    job_line (fst (Registry.add (next_pid sys_noexec) "ls"
                                     (p_jobs (me sys_noexec))))
                             (next_pid sys_noexec) "ls")]
       else p_jobs (me s') = p_jobs (me sys_noexec)
            ∧ p_trace (me s')
              = p_trace (me sys_noexec) ++ [EvWaitpid (next_pid sys_noexec)]).
Proof.
  apply (C6_run_generic_forks_then_execs ls "ls" [] sys_noexec);
    reflexivity.
Defined.

End RunGenericExamples.

(* ===================================================================== *)
(** ** [run_cd] *)
(* ===================================================================== *)

Lemma setenv_PWD (c : string) (s : sys) :
  setenv "PWD" c 1 s
  = (Ret 0, on_me (fun q => with_env (<["PWD" := c]> (p_env q)) q) s).
Proof.
  unfold setenv. simpl. by destruct (p_env (me s) !! "PWD").
Qed.

Lemma run_cd_null (cmd : CDCommand) (s : sys) :
  dir cmd = None →
  run_cd cmd s
  = (Ret tt,
     on_me (log (EvPerror (p_fds (me s) !! STDERR_FILENO)
                   "ERROR: Failed to resolve path")) s).
Proof. intros Hd. unfold run_cd. by rewrite Hd. Qed.

Lemma run_cd_unresolved (cmd : CDCommand) (d : string) (s : sys) :
  dir cmd = Some d →
  k_realpath (kern s) (p_cwd (me s)) d = None →
  run_cd cmd s
  = (Ret tt,
     on_me (log (EvPerror (p_fds (me s) !! STDERR_FILENO)
                   "ERROR: Failed to resolve absolute path")) s).
Proof.
  intros Hd Hrp. unfold run_cd. rewrite Hd.
  unfold bind, realpath. by rewrite Hrp.
Qed.

Lemma run_cd_refused (cmd : CDCommand) (d rp : string) (s : sys) :
  dir cmd = Some d →
  k_realpath (kern s) (p_cwd (me s)) d = Some rp →
  k_chdir_ok (kern s) rp = false →
  run_cd cmd s
  = (Ret tt,
     on_me (log (EvPerror (p_fds (me s) !! STDERR_FILENO)
                   "ERROR: Failed to change directory")) s).
Proof.
  intros Hd Hrp Hch. unfold run_cd. rewrite Hd.
  unfold bind, realpath, chdir. by rewrite Hrp, Hch.
Qed.

Lemma run_cd_changes (cmd : CDCommand) (d rp : string) (s : sys) :
  dir cmd = Some d →
  k_realpath (kern s) (p_cwd (me s)) d = Some rp →
  k_chdir_ok (kern s) rp = true →
  run_cd cmd s
  = (Ret tt,
     on_me (fun q =>
       if (String.length rp + 1 <=? 1024)%nat
       then with_env (<["PWD" := rp]> (p_env q)) (with_cwd rp q)
       else with_cwd rp q) s).
Proof.
  intros Hd Hrp Hch. unfold run_cd. rewrite Hd.
  unfold bind, realpath, chdir, getcwd, gets. rewrite Hrp, Hch. simpl.
  destruct (String.length rp + 1 <=? 1024)%nat; [|done].
  by rewrite setenv_PWD.
Qed.

(** C5 (amended). [run_cd] with a null path, with a path that does not
    resolve, or with a resolved path the kernel refuses to enter, reports an
    error and leaves the working directory and the environment as they were.
    When the change succeeds the working directory is the resolved path, and
    PWD is set to it provided the path is shorter than 1024 characters (the
    size of the buffer it is read back into); a longer path leaves PWD as it
    was. *)
Theorem C5_run_cd_updates_PWD_when_it_fits (cmd : CDCommand) (s : sys) :
  let s' := snd (run_cd cmd s) in
  fst (run_cd cmd s) = Ret tt
  ∧ ((dir cmd = None
      ∨ (∃ d, dir cmd = Some d
              ∧ k_realpath (kern s) (p_cwd (me s)) d = None)
      ∨ (∃ d rp, dir cmd = Some d
                 ∧ k_realpath (kern s) (p_cwd (me s)) d = Some rp
                 ∧ k_chdir_ok (kern s) rp = false)) →
     p_cwd (me s') = p_cwd (me s)
     ∧ p_env (me s') = p_env (me s)
     ∧ ∃ msg, p_trace (me s')
              = p_trace (me s) ++ [EvPerror (p_fds (me s) !! STDERR_FILENO) msg])
  ∧ (∀ d rp,
       dir cmd = Some d →
       k_realpath (kern s) (p_cwd (me s)) d = Some rp →
       k_chdir_ok (kern s) rp = true →
       p_cwd (me s') = rp
       ∧ p_trace (me s') = p_trace (me s)
       ∧ ((String.length rp < 1024)%nat →
          p_env (me s') = <["PWD" := rp]> (p_env (me s)))
       ∧ ((1024 ≤ String.length rp)%nat → p_env (me s') = p_env (me s))).
Proof.
  cbv zeta. split; [|split].
  - destruct (dir cmd) as [d|] eqn:Hd; [|by rewrite run_cd_null].
    destruct (k_realpath (kern s) (p_cwd (me s)) d) as [rp|] eqn:Hrp;
      [|by erewrite run_cd_unresolved].
    destruct (k_chdir_ok (kern s) rp) eqn:Hch.
    + by erewrite run_cd_changes.
    + by erewrite run_cd_refused.
  - intros [Hd|[(d & Hd & Hrp)|(d & rp & Hd & Hrp & Hch)]].
    + rewrite run_cd_null by done. simpl. eauto.
    + erewrite run_cd_unresolved by done. simpl. eauto.
    + erewrite run_cd_refused by done. simpl. eauto.
  - intros d rp Hd Hrp Hch. erewrite run_cd_changes by done. simpl.
    destruct (String.length rp + 1 <=? 1024)%nat eqn:Hlen; simpl.
    + apply Nat.leb_le in Hlen.
      split; [done|]. split; [done|]. split; [done|]. intros. lia.
    + apply Nat.leb_gt in Hlen.
      split; [done|]. split; [done|]. split; [|done]. intros. lia.
Qed.

Section RunCdExamples.

Import Examples.

(** C5 (counterexample). Changing to an existing directory whose canonical
    path has 1255 characters succeeds, yet PWD still names the directory
    the shell was in before. *)
Lemma C5_counterexample :
  let s' := snd (run_cd {| dir := Some deep_dir |} sys0) in
  p_cwd (me s') = deep_dir
  ∧ p_cwd (me s') ≠ p_cwd (me sys0)
  ∧ p_env (me s') !! "PWD" = Some "/home/u"
  ∧ p_env (me s') !! "PWD" ≠ Some (p_cwd (me s')).
Proof. vm_compute. repeat split; discriminate. Qed.

(** C5 (witness): a change to /tmp, and a path that does not resolve. *)
Lemma C5_witness :
  p_cwd (me (snd (run_cd {| dir := Some "/tmp" |} sys0))) = "/tmp"
  ∧ p_env (me (snd (run_cd {| dir := Some "/tmp" |} sys0)))
    = <["PWD" := "/tmp"]> (p_env (me sys0))
  ∧ p_cwd (me (snd (run_cd {| dir := Some "/nowhere" |} sys0)))
    = p_cwd (me sys0)
  ∧ p_env (me (snd (run_cd {| dir := Some "/nowhere" |} sys0)))
    = p_env (me sys0).
Proof.
  destruct (C5_run_cd_updates_PWD_when_it_fits {| dir := Some "/tmp" |} sys0)
    as (_ & _ & Hok).
  destruct (Hok "/tmp" "/tmp" eq_refl eq_refl eq_refl) as (Hcwd & _ & Hpwd & _).
  destruct (C5_run_cd_updates_PWD_when_it_fits {| dir := Some "/nowhere" |} sys0)
    as (_ & Hfail & _).
  assert (Hun : ∃ d, dir {| dir := Some "/nowhere" |} = Some d
                     ∧ k_realpath (kern sys0) (p_cwd (me sys0)) d = None).
  { by exists "/nowhere". }
  destruct (Hfail (or_intror (or_introl Hun))) as (Hcwd' & Henv' & _).
  split; [exact Hcwd|]. split; [|split; [exact Hcwd' | exact Henv']].
  apply Hpwd. simpl. lia.
Defined.

End RunCdExamples.

(* ===================================================================== *)
(** ** Redirections in the created process *)
(* ===================================================================== *)

Lemma redirect_block (path : option string) (mode : open_mode) (tgt : Z)
    (s : sys) :
  ∃ s',
    (fd <- open path mode ;; dup2 fd tgt ;; close fd ;; ret tt) s = (Ret tt, s')
    ∧ (∀ k, k ≠ tgt → p_fds (me s') !! k = p_fds (me s) !! k)
    ∧ quiet s s' ∧ same_but_fds s s'.
Proof.
  unfold bind at 1. unfold open.
  assert (Hfail : ∃ s',
    (dup2 (-1) tgt ;; close (-1) ;; ret tt) s = (Ret tt, s')
    ∧ (∀ k, k ≠ tgt → p_fds (me s') !! k = p_fds (me s) !! k)
    ∧ quiet s s' ∧ same_but_fds s s').
  { exists s. unfold bind, dup2, close, fd_lookup, quiet, same_but_fds. simpl.
    eauto 10. }
  destruct path as [p|]; [|exact Hfail].
  destruct (k_open_ok (kern s) p mode); [|exact Hfail].
  clear Hfail.
  set (t := p_fds (me s)).
  set (fd := lowest_free t).
  assert (Hfresh : t !! fd = None) by apply lowest_free_is_free.
  assert (Hpos : 0 ≤ fd) by apply lowest_free_nonneg.
  unfold bind, dup2, close, ret. simpl. fold t. fold fd.
  rewrite (fd_lookup_nonneg _ fd Hpos), lookup_insert_eq.
  destruct (fd =? tgt) eqn:Heq; simpl; fold t; fold fd.
  - apply Z.eqb_eq in Heq. subst tgt.
    rewrite (fd_lookup_nonneg _ fd Hpos), lookup_insert_eq.
    eexists. split; [reflexivity|]. simpl. fold t. fold fd.
    split; [|split].
    + intros k Hk. by rewrite lookup_delete_ne, lookup_insert_ne.
    + intros u d [Hin|Hin%list_elem_of_singleton]%elem_of_app;
        [done|discriminate].
    + by unfold same_but_fds.
  - apply Z.eqb_neq in Heq.
    rewrite (fd_lookup_nonneg _ fd Hpos), lookup_insert_ne, lookup_insert_eq
      by done.
    eexists. split; [reflexivity|]. simpl. fold t. fold fd.
    split; [|split].
    + intros k Hk. destruct (decide (k = fd)) as [->|Hne].
      * by rewrite lookup_delete_eq.
      * by rewrite lookup_delete_ne, !lookup_insert_ne.
    + intros u d [Hin|Hin%list_elem_of_singleton]%elem_of_app;
        [done|discriminate].
    + by unfold same_but_fds.
Qed.

(** The block that installs the write end of the pipe as descriptor 1. *)
Lemma pipe_out_block (r w : Z) (o : file_obj) (s : sys) :
  p_fds (me s) !! w = Some o → 0 ≤ w → w ≠ 1 → r ≠ 1 →
  ∃ s',
    (dup2 w STDOUT_FILENO ;; close r ;; close w ;; ret tt) s = (Ret tt, s')
    ∧ p_fds (me s') !! 1 = Some o
    ∧ (∀ k, k ≠ 1 → k ≠ r → k ≠ w → p_fds (me s') !! k = p_fds (me s) !! k)
    ∧ quiet s s' ∧ same_but_fds s s'.
Proof.
  intros Hw Hpos Hw1 Hr1. unfold STDOUT_FILENO.
  unfold bind at 1. unfold dup2.
  rewrite (fd_lookup_nonneg _ w Hpos), Hw.
  rewrite (proj2 (Z.eqb_neq w 1)) by done.
  unfold bind, close, ret.
  assert (Hw' : ∀ t : gmap Z file_obj, fd_lookup t w = t !! w)
    by (intros; by apply fd_lookup_nonneg).
  cbn [me on_me with_fds p_fds].
  destruct (fd_lookup (<[1:=o]> (p_fds (me s))) r) as [x|] eqn:Hr;
    cbn [me on_me with_fds p_fds]; rewrite Hw'.
  - destruct (decide (r = w)) as [->|Hrw].
    + rewrite lookup_delete_eq.
      eexists. split; [reflexivity|]. cbn [me on_me with_fds p_fds p_trace].
      split; [|split; [|split]].
      * by rewrite lookup_delete_ne, lookup_insert_eq.
      * intros k ? ? ?. by rewrite lookup_delete_ne, lookup_insert_ne.
      * by intros ? ?.
      * by unfold same_but_fds.
    + rewrite lookup_delete_ne, lookup_insert_ne, Hw by done.
      eexists. split; [reflexivity|]. cbn [me on_me with_fds p_fds p_trace].
      split; [|split; [|split]].
      * by rewrite !lookup_delete_ne, lookup_insert_eq.
      * intros k ? ? ?. by rewrite !lookup_delete_ne, lookup_insert_ne.
      * by intros ? ?.
      * by unfold same_but_fds.
  - rewrite lookup_insert_ne, Hw by done.
    eexists. split; [reflexivity|]. cbn [me on_me with_fds p_fds p_trace].
    split; [|split; [|split]].
    + by rewrite lookup_delete_ne, lookup_insert_eq.
    + intros k ? ? ?. by rewrite lookup_delete_ne, lookup_insert_ne.
    + by intros ? ?.
    + by unfold same_but_fds.
Qed.

(* ===================================================================== *)
(** ** The command run in the created process *)
(* ===================================================================== *)

Lemma proc_out_refl (q : proc) : proc_out q q.
Proof. split; [done|]. intros; by left. Qed.

Lemma proc_out_trans (q1 q2 q3 : proc) :
  proc_out q1 q2 → proc_out q2 q3 → proc_out q1 q3.
Proof.
  intros [Hf1 Ht1] [Hf2 Ht2]. split; [congruence|].
  intros t d Hin. destruct (Ht2 t d Hin) as [Hin2 | ->]; [by apply Ht1|].
  right. by rewrite Hf1.
Qed.

Lemma proc_out_log (e : event) (q : proc) :
  is_stdout_write e = false → proc_out q (log e q).
Proof.
  intros He. split; [done|]. simpl.
  intros t d [Hin|Hin%list_elem_of_singleton]%elem_of_app; [by left|].
  subst e. simpl in He. discriminate.
Qed.

Lemma proc_out_emit (text : string) (q : proc) : proc_out q (emit text q).
Proof.
  split; [done|]. simpl.
  intros t d [Hin|Hin%list_elem_of_singleton]%elem_of_app; [by left|].
  right. congruence.
Qed.

Lemma proc_out_flush (q : proc) :
  proc_out q
    (if decide (p_stdout q = "") then q
     else with_stdout ""
            (log (EvWrite STDOUT_FILENO (p_fds q !! STDOUT_FILENO) (p_stdout q))
                 q)).
Proof.
  destruct (decide _); [apply proc_out_refl|].
  split; [done|]. simpl.
  intros t d [Hin|Hin%list_elem_of_singleton]%elem_of_app; [by left|].
  right. congruence.
Qed.

Lemma child_side_me (s : sys) (f : proc → proc) :
  proc_out (me s) (f (me s)) → child_side s (on_me f s).
Proof.
  intros Hout. split; [done|]. exists []. simpl.
  by rewrite app_nil_r.
Qed.

Section ChildSide.

Context `{Headers}.

Lemma run_generic_child_side (cmd : GenericCommand) (s : sys) :
  ∃ s', run_generic cmd s = (Ret tt, s') ∧ child_side s s'.
Proof.
  destruct (generic_args cmd) as [[|arg0 rest]|] eqn:Hargs.
  - rewrite run_generic_no_command by auto. eexists. split; [done|].
    apply child_side_me. by apply proc_out_log.
  - destruct (next_ok (k_fork_ok (kern s))) eqn:Hok.
    + erewrite run_generic_forks by done. eexists. split; [done|].
      split; simpl.
      * unfold generic_caller.
        destruct (has_flag _ _); [|by apply proc_out_log].
        eapply proc_out_trans; [|apply proc_out_emit].
        split; [done|]. intros; by left.
      * eexists. split; [done|]. apply Forall_singleton.
        unfold generic_child, exec_or_failure. simpl.
        destruct (k_exec_ok _ _); eauto.
    + erewrite run_generic_fork_fails by done. eexists. split; [done|].
      split; simpl; [by apply proc_out_log|].
      exists []. by rewrite app_nil_r.
  - rewrite run_generic_no_command by auto. eexists. split; [done|].
    apply child_side_me. by apply proc_out_log.
Qed.

Lemma child_run_command_child_side (c : Command) (s : sys) :
  ∃ s', child_run_command c s = (Ret tt, s') ∧ child_side s s'.
Proof.
  destruct c as [g|[args]|e|c|k| | | ]; simpl.
  - apply run_generic_child_side.
  - rewrite run_echo_emits. eexists. split; [done|].
    apply child_side_me, proc_out_emit.
  - eexists. split; [done|]. apply child_side_me. by apply proc_out_log.
  - eexists. split; [done|]. apply child_side_me. by apply proc_out_log.
  - eexists. split; [done|]. apply child_side_me. by apply proc_out_log.
  - unfold run_pwd, bind, getcwd, gets. simpl.
    destruct (_ <=? _)%nat.
    + eexists. split; [done|]. apply (child_side_me s (fun q => _ (_ q))).
      eapply proc_out_trans; [|apply proc_out_flush].
      split; [done|]. intros; by left.
    + eexists. split; [done|]. apply (child_side_me s (fun q => _ (_ q))).
      eapply proc_out_trans; [|apply proc_out_flush].
      by apply proc_out_log.
  - unfold run_jobs, bind, list_background_jobs. simpl.
    eexists. split; [done|]. apply (child_side_me s (fun q => _ (_ q))).
    eapply proc_out_trans; [|apply proc_out_flush].
    split; [done|]. intros; by left.
  - eexists. split; [done|]. apply child_side_me. by apply proc_out_log.
Qed.

End ChildSide.

(* ===================================================================== *)
(** ** [create_process] *)
(* ===================================================================== *)

Lemma quiet_refl (s : sys) : quiet s s.
Proof. by intros ? ?. Qed.

Lemma quiet_trans (s1 s2 s3 : sys) : quiet s1 s2 → quiet s2 s3 → quiet s1 s3.
Proof. intros H12 H23 t d Hin. by apply H12, H23. Qed.

Lemma same_but_fds_refl (s : sys) : same_but_fds s s.
Proof. by unfold same_but_fds. Qed.

Lemma same_but_fds_trans (s1 s2 s3 : sys) :
  same_but_fds s1 s2 → same_but_fds s2 s3 → same_but_fds s1 s3.
Proof. unfold same_but_fds. intros H12 H23. intuition congruence. Qed.

Lemma dup2_step (oldfd newfd : Z) (s : sys) :
  ∃ rc s', dup2 oldfd newfd s = (Ret rc, s') ∧ quiet s s' ∧ same_but_fds s s'.
Proof.
  unfold dup2. destruct (fd_lookup _ _); [destruct (_ =? _)|];
    eexists _, _; (split; [reflexivity|]);
    (split; [by intros ? ?|by unfold same_but_fds]).
Qed.

Lemma close_step (fd : Z) (s : sys) :
  ∃ rc s', close fd s = (Ret rc, s') ∧ quiet s s' ∧ same_but_fds s s'.
Proof.
  unfold close. destruct (fd_lookup _ _);
    eexists _, _; (split; [reflexivity|]);
    (split; [by intros ? ?|by unfold same_but_fds]).
Qed.

(** The pipe block returns whatever the array holds. *)
Lemma pipe_out_block_returns (r w : Z) (s : sys) :
  ∃ s',
    (dup2 w STDOUT_FILENO ;; close r ;; close w ;; ret tt) s = (Ret tt, s')
    ∧ quiet s s' ∧ same_but_fds s s'.
Proof.
  destruct (dup2_step w STDOUT_FILENO s) as (rc1 & s1 & E1 & Q1 & S1).
  destruct (close_step r s1) as (rc2 & s2 & E2 & Q2 & S2).
  destruct (close_step w s2) as (rc3 & s3 & E3 & Q3 & S3).
  exists s3.
  rewrite (bind_ret_l _ _ _ _ _ E1), (bind_ret_l _ _ _ _ _ E2),
    (bind_ret_l _ _ _ _ _ E3).
  split; [done|]. split.
  - eauto using quiet_trans.
  - eauto using same_but_fds_trans.
Qed.

Section CreateProcess.

Context `{Headers}.

(** The created process never returns from [create_process]: it always
    ends in [_exit(EXIT_FAILURE)].  The processes its command creates
    execute a program or exit with the same status; and when the stage is
    piped to the next one and the array holds a pipe's write end (outside
    descriptors 0 and 1), that write end is descriptor 1 of the process from
    then on, whatever the redirections asked for. *)
Lemma create_process_child_runs (holder : CommandHolder) (fds : Z * Z)
    (s : sys) :
  ∃ s',
    create_process_child holder fds s = (Exit EXIT_FAILURE, s')
    ∧ (∃ new, others s' = others s ++ new
              ∧ Forall (fun g => exec_or_failure (s_end g)
                                 ∧ p_fds (s_proc g) = p_fds (me s')) new)
    ∧ (∀ o, has_flag (flags holder) PIPE_OUT = true →
            p_fds (me s) !! snd fds = Some o →
            0 ≤ snd fds → snd fds ≠ 0 → snd fds ≠ 1 → fst fds ≠ 1 →
            p_fds (me s') !! 1 = Some o
            ∧ ∀ t d, EvWrite STDOUT_FILENO t d ∈ p_trace (me s') →
                     EvWrite STDOUT_FILENO t d ∈ p_trace (me s)
                     ∨ t = Some o)
    ∧ (has_flag (flags holder) REDIRECT_IN = false →
       (has_flag (flags holder) PIPE_OUT = true →
        is_Some (p_fds (me s) !! snd fds)
        ∧ 0 ≤ snd fds ∧ snd fds ≠ 0 ∧ snd fds ≠ 1
        ∧ fst fds ≠ 0 ∧ fst fds ≠ 1) →
       p_fds (me s') !! 0 = p_fds (me s) !! 0).
Proof.
  unfold create_process_child.
  (* redirection of descriptor 0 *)
  assert (HA : ∃ s1,
    when (has_flag (flags holder) REDIRECT_IN)
      (fd <- open (redirect_in holder) O_RDONLY ;;
       dup2 fd STDIN_FILENO ;; close fd ;; ret tt) s = (Ret tt, s1)
    ∧ (∀ k, k ≠ 0 → p_fds (me s1) !! k = p_fds (me s) !! k)
    ∧ quiet s s1 ∧ same_but_fds s s1
    ∧ (has_flag (flags holder) REDIRECT_IN = false → s1 = s)).
  { destruct (has_flag (flags holder) REDIRECT_IN).
    - destruct (redirect_block (redirect_in holder) O_RDONLY STDIN_FILENO s)
        as (s1 & ? & ? & ? & ?).
      exists s1. by repeat (split; [done|]).
    - exists s. split; [done|]. split; [done|].
      split; [apply quiet_refl|]. split; [apply same_but_fds_refl|done]. }
  destruct HA as (s1 & EA & FA & QA & SA & IA).
  rewrite (bind_ret_l _ _ _ _ _ EA).
  (* redirection of descriptor 1 *)
  assert (HB : ∃ s2,
    when (has_flag (flags holder) REDIRECT_OUT)
      (fd <- open (redirect_out holder) O_WRONLY_CREAT_TRUNC ;;
       dup2 fd STDOUT_FILENO ;; close fd ;; ret tt) s1 = (Ret tt, s2)
    ∧ (∀ k, k ≠ 1 → p_fds (me s2) !! k = p_fds (me s1) !! k)
    ∧ quiet s1 s2 ∧ same_but_fds s1 s2).
  { destruct (has_flag (flags holder) REDIRECT_OUT); [apply redirect_block|].
    exists s1. split; [done|]. split; [done|].
    split; [apply quiet_refl|apply same_but_fds_refl]. }
  destruct HB as (s2 & EB & FB & QB & SB).
  rewrite (bind_ret_l _ _ _ _ _ EB).
  (* the pipe *)
  assert (HC : ∃ s3,
    when (has_flag (flags holder) PIPE_OUT)
      (dup2 (snd fds) STDOUT_FILENO ;; close (fst fds) ;; close (snd fds) ;;
       ret tt) s2 = (Ret tt, s3)
    ∧ quiet s2 s3 ∧ same_but_fds s2 s3
    ∧ (∀ o, has_flag (flags holder) PIPE_OUT = true →
            p_fds (me s2) !! snd fds = Some o →
            0 ≤ snd fds → snd fds ≠ 1 → fst fds ≠ 1 →
            p_fds (me s3) !! 1 = Some o
            ∧ ∀ k, k ≠ 1 → k ≠ fst fds → k ≠ snd fds →
                   p_fds (me s3) !! k = p_fds (me s2) !! k)
    ∧ (has_flag (flags holder) PIPE_OUT = false → s3 = s2)).
  { destruct (has_flag (flags holder) PIPE_OUT) eqn:HP.
    - destruct (p_fds (me s2) !! snd fds) as [o|] eqn:Hw.
      + destruct (decide (0 ≤ snd fds ∧ snd fds ≠ 1 ∧ fst fds ≠ 1))
          as [(? & ? & ?)|Hno].
        * destruct (pipe_out_block (fst fds) (snd fds) o s2)
            as (s3 & E & F1 & F2 & Q & S); [done..|].
          exists s3. split; [done|]. split; [done|]. split; [done|].
          split; [|done]. intros o' _ [= <-] _ _ _. done.
        * destruct (pipe_out_block_returns (fst fds) (snd fds) s2)
            as (s3 & E & Q & S).
          exists s3. split; [done|]. split; [done|]. split; [done|].
          split; [|done]. intros o' _ _ ? ? ?. tauto.
      + destruct (pipe_out_block_returns (fst fds) (snd fds) s2)
          as (s3 & E & Q & S).
        exists s3. split; [done|]. split; [done|]. split; [done|].
        split; [|done]. intros o' _ [=].
    - exists s2. split; [done|]. split; [apply quiet_refl|].
      split; [apply same_but_fds_refl|]. split; [|done]. intros o' [=]. }
  destruct HC as (s3 & EC & QC & SC & FC & IC).
  rewrite (bind_ret_l _ _ _ _ _ EC).
  (* the command, then _exit *)
  destruct (child_run_command_child_side (cmd holder) s3)
    as (s4 & ED & [Hfds Hout] & new & Hnew & Hall).
  rewrite (bind_ret_l _ _ _ _ _ ED).
  exists s4. split; [done|]. split; [|split].
  - exists new. split.
    + destruct SA as (_ & OA & _), SB as (_ & OB & _), SC as (_ & OC & _).
      congruence.
    + rewrite Hfds. done.
  - intros o HP Hw Hpos Hw0 Hw1 Hr1.
    assert (H1 : p_fds (me s3) !! 1 = Some o).
    { apply FC; [done| |done..]. by rewrite FB, FA. }
    split; [by rewrite Hfds|].
    intros t d Hin. destruct (Hout t d Hin) as [Hin3 | ->].
    + left. by apply QA, QB, QC.
    + right. done.
  - intros HRI Hpre. rewrite Hfds, <- (IA HRI).
    destruct (has_flag (flags holder) PIPE_OUT) eqn:HP.
    + destruct (Hpre eq_refl) as ([o Hw] & Hpos & Hw0 & Hw1 & Hr0 & Hr1).
      destruct (FC o eq_refl) as [_ Hframe]; [|done..|].
      { by rewrite FB, FA. }
      rewrite Hframe by done. by apply FB.
    + rewrite (IC eq_refl). by apply FB.
Qed.

End CreateProcess.

Lemma pipe_returns (fds0 : Z * Z) (s : sys) :
  ∃ rc fds s1,
    pipe fds0 s = (Ret (rc, fds), s1)
    ∧ pipe_side s s1
    ∧ (next_ok (k_pipe_ok (kern s)) = true →
       is_Some (p_fds (me s) !! 0) → is_Some (p_fds (me s) !! 1) →
       p_fds (me s1) !! snd fds = Some (PipeW (k_next_pipe (kern s)))
       ∧ 0 ≤ snd fds ∧ snd fds ≠ 0 ∧ snd fds ≠ 1
       ∧ fst fds ≠ 0 ∧ fst fds ≠ 1).
Proof.
  unfold pipe. destruct (next_ok (k_pipe_ok (kern s))).
  - eexists _, _, _. split; [reflexivity|]. split.
    { unfold pipe_side. repeat (split; [done|]). simpl.
      intros k o Hk.
      assert (Hr : lowest_free (p_fds (me s)) ≠ k)
        by (apply lowest_free_ne; by eexists).
      rewrite lookup_insert_ne, lookup_insert_ne; [done|done|].
      apply lowest_free_ne. rewrite lookup_insert_ne by done. by eexists. }
    intros _ H0 H1. simpl.
    set (t := p_fds (me s)) in *.
    set (r := lowest_free t).
    set (t1 := <[r := PipeR (k_next_pipe (kern s))]> t).
    set (w := lowest_free t1).
    assert (Hr1 : r ≠ 1) by by apply lowest_free_ne.
    assert (Hr0 : r ≠ 0) by by apply lowest_free_ne.
    assert (Hw1 : w ≠ 1).
    { apply lowest_free_ne. unfold t1. by rewrite lookup_insert_ne. }
    assert (Hw0 : w ≠ 0).
    { apply lowest_free_ne. unfold t1. by rewrite lookup_insert_ne. }
    split; [by rewrite lookup_insert_eq|].
    split; [apply lowest_free_nonneg|]. done.
  - eexists _, _, _. split; [reflexivity|].
    split; [by unfold pipe_side|]. intros [=].
Qed.

Section CreateProcessCaller.

Context `{Headers}.

Lemma parent_run_command_parent_side (c : Command) (s : sys) :
  ∃ s', parent_run_command c s = (Ret tt, s') ∧ parent_side s s'.
Proof.
  assert (Hperror : ∀ (s0 : sys) msg,
    parent_side s0
      (on_me (log (EvPerror (p_fds (me s0) !! STDERR_FILENO) msg)) s0)).
  { intros s0 msg. split; [done|]. split; [done|].
    intros t d [Hin|Hin%list_elem_of_singleton]%elem_of_app;
      [done|discriminate]. }
  assert (Hrefl : ∀ s0, parent_side s0 s0).
  { intros s0. split; [done|]. split; [done|]. apply quiet_refl. }
  destruct c as [g|e|[name value]|[d]|[sg jb]| | | ]; simpl;
    try (eexists; split; [reflexivity|apply Hrefl]).
  - (* export *)
    unfold run_export, bind, setenv, when. simpl.
    destruct (decide (name = "")); simpl.
    { eexists; split; [reflexivity|apply Hperror]. }
    destruct (has_equals name); simpl.
    { eexists; split; [reflexivity|apply Hperror]. }
    destruct (p_env (me s) !! name); simpl;
      eexists; (split; [reflexivity|]); by split; [|split; [|intros ? ?]].
  - (* cd *)
    destruct d as [d|]; [|rewrite run_cd_null by done; eauto].
    destruct (k_realpath (kern s) (p_cwd (me s)) d) as [rp|] eqn:Hrp;
      [|erewrite run_cd_unresolved by done; eauto].
    destruct (k_chdir_ok (kern s) rp) eqn:Hch;
      [|erewrite run_cd_refused by done; eauto].
    erewrite run_cd_changes by done.
    eexists; split; [reflexivity|].
    split; [done|]. simpl.
    destruct (_ <=? _)%nat; by split; [|intros ? ?].
  - (* kill *)
    unfold run_kill, bind, kill, when. simpl.
    destruct (k_kill_ok (kern s) jb sg); simpl.
    + eexists; split; [reflexivity|]. split; [done|]. split; [done|].
      intros t d [Hin|Hin%list_elem_of_singleton]%elem_of_app;
        [done|discriminate].
    + eexists; split; [reflexivity|]. split; [done|]. split; [done|].
      intros t d [[Hin|Hin%list_elem_of_singleton]%elem_of_app
                  |Hin%list_elem_of_singleton]%elem_of_app;
        [done|discriminate..].
Qed.

Lemma create_process_parent_parent_side (holder : CommandHolder)
    (fds : Z * Z) (s : sys) :
  ∃ s', create_process_parent holder fds s = (Ret tt, s') ∧ parent_side s s'.
Proof.
  unfold create_process_parent.
  assert (HC : ∃ s1,
    when (has_flag (flags holder) PIPE_OUT) (close (snd fds) ;; ret tt) s
      = (Ret tt, s1) ∧ parent_side s s1).
  { destruct (has_flag (flags holder) PIPE_OUT); simpl.
    - destruct (close_step (snd fds) s) as (rc & s1 & E & Q & S).
      exists s1. rewrite (bind_ret_l _ _ _ _ _ E).
      split; [done|]. destruct S as (_ & ? & ? & _). by split.
    - exists s. split; [done|]. split; [done|]. split; [done|].
      apply quiet_refl. }
  destruct HC as (s1 & E1 & O1 & J1 & Q1).
  rewrite (bind_ret_l _ _ _ _ _ E1).
  destruct (parent_run_command_parent_side (cmd holder) s1)
    as (s2 & E2 & O2 & J2 & Q2).
  exists s2. split; [done|].
  split; [congruence|]. split; [congruence|]. eauto using quiet_trans.
Qed.

(** [create_process], split at its [fork]. *)
Lemma create_process_to_fork (holder : CommandHolder) (s : sys) :
  ∃ fds s1,
    create_process holder s
    = fork (fun pid => if pid =? 0 then create_process_child holder fds
                       else create_process_parent holder fds) s1
    ∧ pipe_side s s1
    ∧ (has_flag (flags holder) PIPE_OUT = true →
       next_ok (k_pipe_ok (kern s)) = true →
       is_Some (p_fds (me s) !! 0) → is_Some (p_fds (me s) !! 1) →
       p_fds (me s1) !! snd fds = Some (PipeW (k_next_pipe (kern s)))
       ∧ 0 ≤ snd fds ∧ snd fds ≠ 0 ∧ snd fds ≠ 1
       ∧ fst fds ≠ 0 ∧ fst fds ≠ 1).
Proof.
  unfold create_process, bind at 1, gets.
  destruct (has_flag (flags holder) PIPE_OUT).
  - destruct (pipe_returns (p_stack (me s)) s) as (rc & fds & s1 & E & S & F).
    exists fds, s1. unfold bind at 1. unfold bind at 1. rewrite E.
    split; [done|]. split; [done|]. intros _. apply F.
  - exists (p_stack (me s)), s. split; [done|].
    split; [by unfold pipe_side|]. intros [=].
Qed.

End CreateProcessCaller.

Lemma grows_refl (P : summary → Prop) (s : sys) : grows P s s.
Proof. exists []. by rewrite app_nil_r. Qed.

Lemma grows_trans (P : summary → Prop) (s1 s2 s3 : sys) :
  grows P s1 s2 → grows P s2 s3 → grows P s1 s3.
Proof.
  intros (n1 & E1 & F1) (n2 & E2 & F2). exists (n1 ++ n2).
  split; [by rewrite E2, E1, app_assoc|]. by apply Forall_app.
Qed.

Lemma grows_same (P : summary → Prop) (s s' : sys) :
  others s' = others s → grows P s s'.
Proof. intros E. exists []. by rewrite app_nil_r. Qed.

Lemma spawned_grows {A} (P : summary → Prop) (m : M A) (s : sys) :
  grows P s (snd (m s)) → Forall P (spawned m s).
Proof.
  intros (new & E & F). unfold spawned. by rewrite E, drop_app_length.
Qed.

Section Stage.

Context `{Headers}.

(** One stage, when its [fork] succeeds. *)
Lemma create_process_spawns (holder : CommandHolder) (s : sys) :
  next_ok (k_fork_ok (kern s)) = true →
  ∃ child rest s',
    create_process holder s = (Ret tt, s')
    ∧ others s' = others s ++ child :: rest
    ∧ s_pid child = next_pid s
    ∧ s_parent child = p_pid (me s)
    ∧ s_end child = Exited EXIT_FAILURE
    ∧ Forall (fun g => exec_or_failure (s_end g)
                       ∧ p_fds (s_proc g) = p_fds (s_proc child)) rest
    ∧ p_jobs (me s') = p_jobs (me s)
    ∧ quiet s s'
    ∧ (has_flag (flags holder) PIPE_OUT = true →
       next_ok (k_pipe_ok (kern s)) = true →
       is_Some (p_fds (me s) !! 0) → is_Some (p_fds (me s) !! 1) →
       p_fds (s_proc child) !! 1 = Some (PipeW (k_next_pipe (kern s)))
       ∧ stdout_goes_to (Some (PipeW (k_next_pipe (kern s))))
           (p_trace (s_proc child)))
    ∧ (has_flag (flags holder) REDIRECT_IN = false →
       (has_flag (flags holder) PIPE_OUT = true →
        next_ok (k_pipe_ok (kern s)) = true) →
       is_Some (p_fds (me s) !! 0) → is_Some (p_fds (me s) !! 1) →
       p_fds (s_proc child) !! 0 = p_fds (me s) !! 0).
Proof.
  intros Hok.
  destruct (create_process_to_fork holder s)
    as (fds & s1 & E & (O1 & J1 & T1 & P1 & N1 & K1 & F1) & Hpipe).
  rewrite E, fork_succeeds by by rewrite K1.
  change (next_pid s1 =? 0) with false. cbv iota.
  change (0 =? 0) with true. cbv iota.
  destruct (create_process_child_runs holder fds (child_start s1))
    as (c & EC & (new & Onew & Fnew) & Hout & Hin0).
  destruct (create_process_parent_parent_side holder fds
              (after_child (create_process_child holder fds) s1))
    as (s' & EP & OP & JP & QP).
  exists (child_record (create_process_child holder fds) s1), new, s'.
  split; [done|].
  unfold child_record in *. rewrite EC in *. simpl in *.
  split.
  { rewrite OP. unfold child_record. rewrite EC. simpl.
    by rewrite O1, Onew. }
  split; [by unfold next_pid; rewrite N1|].
  split; [done|]. split; [done|]. split; [done|].
  split; [congruence|]. split.
  { intros t d Hin. apply QP in Hin. simpl in Hin. by rewrite <- T1. }
  split.
  - intros HP Hpok H0 H1.
    destruct (Hpipe HP Hpok H0 H1) as (Hw & Hpos & Hw0 & Hw1 & Hr0 & Hr1).
    destruct (Hout _ HP Hw Hpos Hw0 Hw1 Hr1) as [Hfd Hwr].
    split; [done|].
    intros t d Hin. destruct (Hwr t d Hin) as [Hnil|Ht]; [|done].
    by apply elem_of_nil in Hnil.
  - intros HRI Hpok [o0 H0] H1.
    rewrite Hin0; [|done|].
    + rewrite H0. by apply F1.
    + intros HP.
      destruct (Hpipe HP (Hpok HP) (ex_intro _ o0 H0) H1)
        as (Hw & Hpos & Hw0 & Hw1 & Hr0 & Hr1).
      split; [by eexists|done].
Qed.

(** One stage, when its [fork] fails. *)
Lemma create_process_fork_refused (holder : CommandHolder) (s : sys) :
  next_ok (k_fork_ok (kern s)) = false →
  ∃ s',
    create_process holder s = (Ret tt, s')
    ∧ others s' = others s
    ∧ p_jobs (me s') = p_jobs (me s)
    ∧ quiet s s'.
Proof.
  intros Hok.
  destruct (create_process_to_fork holder s)
    as (fds & s1 & E & (O1 & J1 & T1 & P1 & N1 & K1 & F1) & _).
  rewrite E, fork_fails by by rewrite K1.
  change (-1 =? 0) with false. cbv iota.
  destruct (create_process_parent_parent_side holder fds
              (with_kern (kernel_fork_refused (kern s1)) s1))
    as (s' & EP & OP & JP & QP).
  exists s'. split; [done|]. simpl in *.
  split; [congruence|]. split; [congruence|].
  intros t d Hin. apply QP in Hin. simpl in Hin. by rewrite <- T1.
Qed.

(** One stage, whatever [fork] does. *)
Lemma create_process_stage (holder : CommandHolder) (s : sys) :
  ∃ s',
    create_process holder s = (Ret tt, s')
    ∧ grows (fun g => exec_or_failure (s_end g)) s s'
    ∧ p_jobs (me s') = p_jobs (me s)
    ∧ quiet s s'.
Proof.
  destruct (next_ok (k_fork_ok (kern s))) eqn:Hok.
  - destruct (create_process_spawns holder s Hok)
      as (child & rest & s' & E & O & _ & _ & Hend & Hrest & J & Q & _).
    exists s'. split; [done|]. split; [|done].
    exists (child :: rest). split; [done|].
    constructor; [by left|].
    eapply Forall_impl; [exact Hrest|]. by intros g [? _].
  - destruct (create_process_fork_refused holder s Hok)
      as (s' & E & O & J & Q).
    exists s'. split; [done|]. split; [by apply grows_same|done].
Qed.

(** All the stages of a pipeline. *)
Lemma create_processes_stages (holders : list CommandHolder) (s : sys) :
  let s' := snd (create_processes holders s) in
  grows (fun g => exec_or_failure (s_end g)) s s'
  ∧ p_jobs (me s') = p_jobs (me s)
  ∧ quiet s s'.
Proof.
  revert s. induction holders as [|h rest IH]; intros s; simpl.
  - split; [apply grows_refl|]. split; [done|apply quiet_refl].
  - destruct (decide (get_command_holder_type h = EOC)); simpl.
    + split; [apply grows_refl|]. split; [done|apply quiet_refl].
    + destruct (create_process_stage h s) as (s1 & E & G & J & Q).
      rewrite (bind_ret_l _ _ _ _ _ E).
      destruct (IH s1) as (G' & J' & Q').
      split; [eauto using grows_trans|].
      split; [congruence|eauto using quiet_trans].
Qed.

End Stage.

(* ===================================================================== *)
(** ** [run_script] *)
(* ===================================================================== *)

Section Script.

Context `{Headers}.

Lemma drain_finished_others (fuel : nat) (s : sys) :
  others (snd (drain_finished fuel s)) = others s.
Proof.
  revert s. induction fuel as [|n IH]; intros s; [done|].
  simpl. unfold bind at 1. unfold get_finished_job.
  destruct (Registry.take_finished (p_jobs (me s))) as [[j jobs]|]; [|done].
  unfold bind. rewrite print_job_bg_complete_emits.
  by rewrite IH.
Qed.

Lemma check_jobs_bg_status_others (s : sys) :
  others (snd (check_jobs_bg_status s)) = others s.
Proof.
  unfold check_jobs_bg_status.
  destruct get_finished_job_defined; [apply drain_finished_others|done].
Qed.

Lemma wait_each_others (holders : list CommandHolder) (s : sys) :
  others (snd (wait_each holders s)) = others s.
Proof.
  revert s. induction holders as [|h rest IH]; intros s; [done|].
  simpl. destruct (decide _); [done|].
  unfold bind, wait, modify. by rewrite IH.
Qed.

Lemma run_script_grows (holders : option (list CommandHolder)) (s : sys) :
  grows (fun g => exec_or_failure (s_end g)) s (snd (run_script holders s)).
Proof.
  destruct holders as [[|h0 rest]|]; try apply grows_refl.
  unfold run_script. generalize (h0 :: rest) at 1 2. intros hs.
  destruct (decide _); [apply grows_refl|].
  unfold bind at 1.
  pose proof (check_jobs_bg_status_others s) as O1.
  destruct (check_jobs_bg_status s) as [[[]| | | ] s1]; simpl in O1;
    try by apply grows_same.
  unfold bind.
  pose proof (create_processes_stages hs s1) as (G & _ & _).
  destruct (create_processes hs s1) as [[[]| | | ] s2];
    simpl in G.
  2-4: eapply grows_trans; [by apply grows_same|exact G].
  eapply grows_trans; [by apply grows_same|].
  eapply grows_trans; [exact G|]. apply grows_same.
  unfold when. destruct (negb _); [apply wait_each_others|done].
Qed.

(** C10. [EXIT_FAILURE] is not the success status.  Every process created
    while a pipeline runs either replaced its image with [exec] or exited
    with [EXIT_FAILURE].  The process [create_process] creates for a stage
    is never of the first kind: whatever the command and however it went, it
    ends in [_exit(EXIT_FAILURE)]. *)
Theorem C10_stage_process_exits_with_failure :
  EXIT_FAILURE ≠ 0
  ∧ (∀ holders s,
       Forall (fun g => exec_or_failure (s_end g))
              (spawned (run_script holders) s))
  ∧ (∀ holder s,
       next_ok (k_fork_ok (kern s)) = true →
       ∃ child rest,
         spawned (create_process holder) s = child :: rest
         ∧ s_pid child = next_pid s
         ∧ s_parent child = p_pid (me s)
         ∧ s_end child = Exited EXIT_FAILURE
         ∧ Forall (fun g => exec_or_failure (s_end g)) rest).
Proof.
  split; [done|]. split.
  - intros holders s. apply spawned_grows, run_script_grows.
  - intros holder s Hok.
    destruct (create_process_spawns holder s Hok)
      as (child & rest & s' & E & O & Hpid & Hpar & Hend & Hrest & _).
    exists child, rest. unfold spawned. rewrite E. simpl.
    rewrite O, drop_app_length.
    split; [done|]. split; [done|]. split; [done|]. split; [done|].
    eapply Forall_impl; [exact Hrest|]. by intros g [? _].
Qed.

(** C4 (amended). For every stage with PipeToNext set, also when
    RedirectStdoutToFile is set, the pipe takes precedence: provided the
    shell has descriptors 0 and 1 open and [pipe] and [fork] succeed,
    descriptor 1 of the process created for the stage is the write end of
    the new pipe, every write that process makes on descriptor 1 goes to
    that write end (none to the file), and the processes it creates have
    the same descriptor 1. *)
Theorem C4_pipe_overrides_redirection (holder : CommandHolder) (s : sys) :
  has_flag (flags holder) PIPE_OUT = true →
  next_ok (k_pipe_ok (kern s)) = true →
  next_ok (k_fork_ok (kern s)) = true →
  is_Some (p_fds (me s) !! STDIN_FILENO) →
  is_Some (p_fds (me s) !! STDOUT_FILENO) →
  ∃ child rest,
    spawned (create_process holder) s = child :: rest
    ∧ s_pid child = next_pid s
    ∧ p_fds (s_proc child) !! STDOUT_FILENO
      = Some (PipeW (k_next_pipe (kern s)))
    ∧ stdout_goes_to (Some (PipeW (k_next_pipe (kern s))))
        (p_trace (s_proc child))
    ∧ Forall (fun g => p_fds (s_proc g) !! STDOUT_FILENO
                       = Some (PipeW (k_next_pipe (kern s)))) rest.
Proof.
  intros HP Hpipe Hfork H0 H1.
  destruct (create_process_spawns holder s Hfork)
    as (child & rest & s' & E & O & Hpid & _ & _ & Hrest & _ & _ & Hout & _).
  destruct (Hout HP Hpipe H0 H1) as [Hfd Hwr].
  exists child, rest. unfold spawned. rewrite E. simpl.
  rewrite O, drop_app_length.
  split; [done|]. split; [done|]. split; [done|]. split; [done|].
  eapply Forall_impl; [exact Hrest|]. intros g [_ ->]. done.
Qed.

(** The process created for a stage that has no RedirectStdinFromFile
    reads from whatever the shell reads from: no code path installs a pipe's
    read end as its descriptor 0. *)
Lemma create_process_stdin_is_inherited (holder : CommandHolder) (s : sys) :
  next_ok (k_fork_ok (kern s)) = true →
  has_flag (flags holder) REDIRECT_IN = false →
  (has_flag (flags holder) PIPE_OUT = true →
   next_ok (k_pipe_ok (kern s)) = true) →
  is_Some (p_fds (me s) !! STDIN_FILENO) →
  is_Some (p_fds (me s) !! STDOUT_FILENO) →
  ∃ child rest,
    spawned (create_process holder) s = child :: rest
    ∧ p_fds (s_proc child) !! STDIN_FILENO = p_fds (me s) !! STDIN_FILENO
    ∧ Forall (fun g => p_fds (s_proc g) !! STDIN_FILENO
                       = p_fds (me s) !! STDIN_FILENO) rest.
Proof.
  intros Hfork HRI Hpipe H0 H1.
  destruct (create_process_spawns holder s Hfork)
    as (child & rest & s' & E & O & _ & _ & _ & Hrest & _ & _ & _ & Hin0).
  exists child, rest. unfold spawned. rewrite E. simpl.
  rewrite O, drop_app_length.
  split; [done|]. split; [by apply Hin0|].
  eapply Forall_impl; [exact Hrest|]. intros g [_ ->]. by apply Hin0.
Qed.

(** Creating the processes of a pipeline never touches the job table of
    the calling process and writes nothing on its descriptor 1. *)
Lemma create_processes_keep_the_job_table (holders : list CommandHolder)
    (s : sys) :
  p_jobs (me (snd (create_processes holders s))) = p_jobs (me s)
  ∧ quiet s (snd (create_processes holders s)).
Proof. by destruct (create_processes_stages holders s) as (_ & ? & ?). Qed.

End Script.

(* ===================================================================== *)
(** ** The polling loop, where it is compiled *)
(* ===================================================================== *)

Lemma take_finished_Some (jobs : list Job) (j : Job) (rest : list Job) :
  Registry.take_finished jobs = Some (j, rest) →
  finished_jobs jobs = j :: finished_jobs rest
  ∧ running_jobs jobs = running_jobs rest
  ∧ length jobs = S (length rest).
Proof.
  unfold finished_jobs, running_jobs.
  revert rest. induction jobs as [|x jobs IH]; intros rest; [done|].
  simpl. destruct (decide (job_state x = Finished)) as [Hx|Hx].
  - intros [= <- <-]. rewrite filter_cons_True by done.
    rewrite filter_cons_False by (by intros ?). done.
  - destruct (Registry.take_finished jobs) as [[f rest']|]; [|done].
    intros [= <- <-]. destruct (IH rest' eq_refl) as (E1 & E2 & E3).
    rewrite filter_cons_False by done.
    rewrite !(filter_cons_True (λ j, job_state j ≠ Finished)) by done.
    rewrite (filter_cons_False _ x rest') by done.
    simpl. by rewrite E1, E2, E3.
Qed.

Lemma take_finished_None (jobs : list Job) :
  Registry.take_finished jobs = None →
  finished_jobs jobs = [] ∧ running_jobs jobs = jobs.
Proof.
  unfold finished_jobs, running_jobs.
  induction jobs as [|x jobs IH]; [done|].
  simpl. destruct (decide (job_state x = Finished)) as [Hx|Hx]; [done|].
  destruct (Registry.take_finished jobs) as [[f rest']|]; [done|].
  intros _. destruct (IH eq_refl) as [E1 E2].
  rewrite filter_cons_False by done.
  rewrite filter_cons_True by done. by rewrite E1, E2.
Qed.

Section Polling.

Context `{Headers}.

(** With enough iterations the loop ends by itself, having reported every
    finished job once, in table order, and removed it from the table. *)
Lemma drain_finished_reports (fuel : nat) (s : sys) :
  (length (p_jobs (me s)) < fuel)%nat →
  p_stdout (me s) = "" →
  ∃ s',
    drain_finished fuel s = (Ret tt, s')
    ∧ p_jobs (me s') = running_jobs (p_jobs (me s))
    ∧ p_trace (me s')
      = p_trace (me s) ++
        (completion_notice (p_fds (me s) !! STDOUT_FILENO)
           <$> finished_jobs (p_jobs (me s)))
    ∧ p_fds (me s') = p_fds (me s) ∧ p_stdout (me s') = "".
Proof.
  revert s. induction fuel as [|n IH]; intros s Hlen Hbuf; [lia|].
  simpl. unfold bind at 1. unfold get_finished_job.
  destruct (Registry.take_finished (p_jobs (me s))) as [[j rest]|] eqn:E.
  - apply take_finished_Some in E as (E1 & E2 & E3).
    unfold bind. rewrite print_job_bg_complete_emits.
    destruct (IH (on_me (emit ("Completed: " +:+ TAB +:+
                                job_line (job_id j) (job_pid j) (job_cmd j)))
                    (on_me (with_jobs rest) s)))
      as (s' & ED & J & T & F & B); [simpl; lia|done|].
    exists s'. split; [done|]. simpl in *.
    rewrite J, T, F, E1, E2, Hbuf. simpl.
    by rewrite <- app_assoc.
  - apply take_finished_None in E as [E1 E2].
    exists s. rewrite E1, E2. simpl. by rewrite app_nil_r.
Qed.

Lemma check_jobs_bg_status_when_defined (s : sys) :
  get_finished_job_defined = true →
  p_stdout (me s) = "" →
  ∃ s',
    check_jobs_bg_status s = (Ret tt, s')
    ∧ p_jobs (me s') = running_jobs (p_jobs (me s))
    ∧ p_trace (me s')
      = p_trace (me s) ++
        (completion_notice (p_fds (me s) !! STDOUT_FILENO)
           <$> finished_jobs (p_jobs (me s))).
Proof.
  intros Hdef Hbuf. unfold check_jobs_bg_status. rewrite Hdef.
  destruct (drain_finished_reports (S (length (p_jobs (me s)))) s)
    as (s' & E & J & T & _); [lia|done|].
  by exists s'.
Qed.

Lemma check_jobs_bg_status_when_undefined (s : sys) :
  get_finished_job_defined = false →
  check_jobs_bg_status s = (Ret tt, s).
Proof. intros Hdef. unfold check_jobs_bg_status. by rewrite Hdef. Qed.

End Polling.

(* ===================================================================== *)
(** ** Pipelines *)
(* ===================================================================== *)

Lemma create_process_when_fork_refused `{Headers} (c : Command)
    (q : proc) (k : kernel) (o : list summary) :
  create_process (Examples.stage c 0)
    {| me := q; kern := refusing_fork k; others := o |}
  = parent_run_command c {| me := q; kern := k; others := o |}.
Proof.
  unfold create_process, bind at 1, gets.
  change (has_flag (flags (Examples.stage c 0)) PIPE_OUT) with false.
  unfold bind at 1. unfold ret.
  rewrite fork_fails by done.
  change (-1 =? 0) with false. cbv iota.
  unfold create_process_parent.
  change (has_flag (flags (Examples.stage c 0)) PIPE_OUT) with false.
  unfold when, bind, ret. by destruct k.
Qed.

Section Pipelines.

#[local] Existing Instance Examples.quash_headers.

Import Examples.

(** C10 (witness): the stage [echo a b]. *)
Lemma C10_witness :
  ∃ child rest,
    spawned (create_process (stage echo_ab 0)) sys0 = child :: rest
    ∧ s_pid child = next_pid sys0
    ∧ s_parent child = p_pid (me sys0)
    ∧ s_end child = Exited EXIT_FAILURE
    ∧ Forall (fun g => exec_or_failure (s_end g)) rest.
Proof.
  apply (proj2 (proj2 C10_stage_process_exits_with_failure)).
  reflexivity.
Defined.

(** C4 (counterexample). [echo a b] with its output both redirected to
    out.txt and piped on: descriptor 1 of the created process is the write
    end of the pipe, not the file, and the text goes into the pipe. *)
Lemma C4_counterexample :
  has_flag (flags echo_to_file_and_pipe) REDIRECT_OUT = true
  ∧ has_flag (flags echo_to_file_and_pipe) PIPE_OUT = true
  ∧ (wiring <$> spawned (create_process echo_to_file_and_pipe) sys0)
    = [(101, 100, Exited 1, Some Tty, Some (PipeW 0))]
  ∧ ((fun g => p_trace (s_proc g))
       <$> spawned (create_process echo_to_file_and_pipe) sys0)
    = [[EvOpen "out.txt" O_WRONLY_CREAT_TRUNC;
        EvWrite 1 (Some (PipeW 0)) ("a b " +:+ NL)]]
  ∧ ((fun g => p_fds (s_proc g) !! STDOUT_FILENO)
       <$> spawned (create_process echo_to_file_and_pipe) sys0)
    ≠ [Some (FileWr "out.txt")].
Proof. vm_compute. repeat split; discriminate. Qed.

(** C4 (witness): the same stage. *)
Lemma C4_witness :
  ∃ child rest,
    spawned (create_process echo_to_file_and_pipe) sys0 = child :: rest
    ∧ s_pid child = next_pid sys0
    ∧ p_fds (s_proc child) !! STDOUT_FILENO
      = Some (PipeW (k_next_pipe (kern sys0)))
    ∧ stdout_goes_to (Some (PipeW (k_next_pipe (kern sys0))))
        (p_trace (s_proc child))
    ∧ Forall (fun g => p_fds (s_proc g) !! STDOUT_FILENO
                       = Some (PipeW (k_next_pipe (kern sys0)))) rest.
Proof.
  apply (C4_pipe_overrides_redirection echo_to_file_and_pipe sys0);
    try reflexivity; by eexists.
Defined.

(** C1 (failing input). [echo a b | cat]: the process created for the
    first stage writes into pipe 0, but the process created for [cat], and
    [cat] itself, read from the terminal the shell reads from; the read end
    of pipe 0 is descriptor 0 of no process, it is merely left open as
    descriptor 3 of the shell and of the later processes. *)
Theorem C1_pipe_read_end_never_becomes_stdin :
  let s' := snd (run_script (Some echo_pipe_cat) sys0) in
  fst (run_script (Some echo_pipe_cat) sys0) = Ret tt
  ∧ wiring <$> others s'
    = [(101, 100, Exited 1, Some Tty, Some (PipeW 0));
       (102, 100, Exited 1, Some Tty, Some Tty);
       (103, 102, Execed "cat" ["cat"], Some Tty, Some Tty)]
  ∧ ((fun g => p_trace (s_proc g)) <$> others s')
    = [[EvWrite 1 (Some (PipeW 0)) ("a b " +:+ NL)]; [EvWaitpid 103]; []]
  ∧ Forall (fun g => p_fds (s_proc g) !! STDIN_FILENO ≠ Some (PipeR 0))
           (others s')
  ∧ p_fds (me s') !! 3 = Some (PipeR 0)
  ∧ p_fds (me s') !! STDIN_FILENO = Some Tty.
Proof.
  vm_compute. split; [done|]. split; [done|]. split; [done|].
  split; [|done]. repeat constructor; discriminate.
Qed.

(** C2 (failing input). With [get_finished_job] a function, the [#ifdef]
    removes the polling loop: [check_jobs_bg_status] does nothing.  A shell
    tracking a job whose process has exited runs [echo a b]: no completion
    notice is written, and the job is still in the table and in its
    listing afterwards. *)
Theorem C2_finished_jobs_are_never_polled :
  (∀ s, check_jobs_bg_status s = (Ret tt, s))
  ∧ let s' := snd (run_script (Some [stage echo_ab 0; stage CmdEOC 0])
                     sys_finished) in
    p_jobs (me sys_finished) = [finished_job]
    ∧ p_jobs (me s') = [finished_job]
    ∧ p_trace (me s') = [EvWait]
    ∧ ((fun g => p_trace (s_proc g)) <$> others s')
      = [[EvWrite 1 (Some Tty) ("a b " +:+ NL)]]
    ∧ Registry.listing (p_jobs (me s'))
      = "[1]" +:+ TAB +:+ "90" +:+ TAB +:+ "make" +:+ NL.
Proof. split; [done|]. vm_compute. done. Qed.

(** C3 (failing input). Creating the processes of any pipeline leaves the
    job table of the shell as it was and writes nothing on its descriptor 1.
    For [sleep 5 &] the registration and the start notice happen in the
    process created for the stage, on its private copy of the table, which
    is lost when that process exits: the shell's table stays empty. *)
Theorem C3_background_job_registered_in_the_child_only :
  (∀ (H : Headers) holders s,
     p_jobs (me (snd (create_processes holders s))) = p_jobs (me s)
     ∧ quiet s (snd (create_processes holders s)))
  ∧ let s' := snd (run_script (Some sleep_background) sys0) in
    p_jobs (me s') = []
    ∧ p_trace (me s') = []
    ∧ wiring <$> others s'
      = [(101, 100, Exited 1, Some Tty, Some Tty);
         (102, 101, Execed "sleep" ["sleep"; "5"], Some Tty, Some Tty)]
    ∧ ((fun g => (p_jobs (s_proc g), p_trace (s_proc g))) <$> others s')
      = [([{| job_id := 1; job_pid := 102; job_cmd := "sleep";
              job_state := Running |}],
          [EvWrite 1 (Some Tty)
             ("Background job started: " +:+ job_line 1 102 "sleep")]);
         ([], [])].
Proof.
  split; [intros; apply create_processes_keep_the_job_table|].
  vm_compute. done.
Qed.

(** C7 (failing input). When [fork] fails, a stage without a pipe behaves
    exactly as its parent-side command: nothing is reported and the command
    runs.  For [cd /tmp] the shell ends up in /tmp with no process created
    and nothing on the error stream, whereas [run_generic] reports the same
    failure. *)
Theorem C7_fork_failure_goes_unreported :
  (∀ (H : Headers) c q k o,
     create_process (stage c 0)
       {| me := q; kern := refusing_fork k; others := o |}
     = parent_run_command c {| me := q; kern := k; others := o |})
  ∧ (let s' := snd (create_process (stage cd_tmp 0) sys_nofork) in
     next_ok (k_fork_ok (kern sys_nofork)) = false
     ∧ others s' = []
     ∧ p_trace (me s') = []
     ∧ p_cwd (me sys_nofork) = "/home/u"
     ∧ p_cwd (me s') = "/tmp"
     ∧ p_env (me s') !! "PWD" = Some "/tmp")
  ∧ p_trace (me (snd (run_generic ls sys_nofork)))
    = [EvPerror (Some Tty) "ERROR: Fork failed"].
Proof.
  split; [intros; apply create_process_when_fork_refused|].
  vm_compute. done.
Qed.

End Pipelines.

(* ===================================================================== *)
(** * Further properties of the code *)
(* ===================================================================== *)

(* ===================================================================== *)
(** ** The caller's side of a stage *)
(* ===================================================================== *)

Lemma count_waits_app (l1 l2 : list event) :
  count_waits (l1 ++ l2) = (count_waits l1 + count_waits l2)%nat.
Proof.
  induction l1 as [|e l1 IH]; [done|]. destruct e; simpl; by rewrite ?IH.
Qed.

Lemma count_waits_parent_events (evs : list event) :
  Forall (fun e => parent_event e = true) evs → count_waits evs = 0%nat.
Proof.
  induction 1 as [|e evs He _ IH]; [done|]. by destruct e.
Qed.

Lemma count_waits_replicate (n : nat) : count_waits (replicate n EvWait) = n.
Proof. induction n as [|n IH]; [done|]. simpl. by rewrite IH. Qed.

Lemma same_oracles_refl (k : kernel) : same_oracles k k.
Proof. by unfold same_oracles. Qed.

Lemma same_oracles_trans (k1 k2 k3 : kernel) :
  same_oracles k1 k2 → same_oracles k2 k3 → same_oracles k1 k3.
Proof. unfold same_oracles. intuition congruence. Qed.

Lemma shell_step_refl (s : sys) : shell_step s s.
Proof.
  repeat (split; [done|]). exists []. by rewrite app_nil_r.
Qed.

Lemma shell_step_trans (s1 s2 s3 : sys) :
  shell_step s1 s2 → shell_step s2 s3 → shell_step s1 s3.
Proof.
  intros (F1 & B1 & J1 & O1 & K1 & e1 & T1 & P1)
         (F2 & B2 & J2 & O2 & K2 & e2 & T2 & P2).
  split; [congruence|]. split; [congruence|]. split; [congruence|].
  split; [congruence|]. split; [congruence|].
  exists (e1 ++ e2). split; [by rewrite T2, T1, app_assoc|].
  by apply Forall_app.
Qed.

(** Recording one error report or signal. *)
Lemma shell_step_log (e : event) (s : sys) :
  parent_event e = true → shell_step s (on_me (log e) s).
Proof.
  intros He. repeat (split; [done|]). exists [e]. split; [done|].
  by apply Forall_singleton.
Qed.

(** Changing the environment or the working directory only. *)
Lemma shell_step_env (f : proc → proc) (s : sys) :
  (∀ q, p_fds (f q) = p_fds q ∧ p_stdout (f q) = p_stdout q
        ∧ p_jobs (f q) = p_jobs q ∧ p_trace (f q) = p_trace q) →
  shell_step s (on_me f s).
Proof.
  intros Hf. destruct (Hf (me s)) as (? & ? & ? & Ht). simpl.
  repeat (split; [done|]). exists []. simpl. by rewrite Ht, app_nil_r.
Qed.

Section ShellSide.

Context `{Headers}.

Lemma parent_run_command_shell (c : Command) (s : sys) :
  ∃ s', parent_run_command c s = (Ret tt, s') ∧ shell_step s s'.
Proof.
  destruct c as [g|e|[name value]|[d]|[sg jb]| | | ]; simpl;
    try (eexists; split; [reflexivity|apply shell_step_refl]).
  - unfold run_export, bind, setenv, when. simpl.
    destruct (decide (name = "")); simpl.
    { eexists; split; [reflexivity|by apply shell_step_log]. }
    destruct (has_equals name); simpl.
    { eexists; split; [reflexivity|by apply shell_step_log]. }
    destruct (p_env (me s) !! name); simpl;
      eexists; (split; [reflexivity|]); by apply shell_step_env.
  - destruct d as [d|].
    { destruct (k_realpath (kern s) (p_cwd (me s)) d) as [rp|] eqn:Hrp.
      - destruct (k_chdir_ok (kern s) rp) eqn:Hch.
        + erewrite run_cd_changes by done.
          eexists; split; [reflexivity|]. apply shell_step_env.
          intros q. by destruct (_ <=? _)%nat.
        + erewrite run_cd_refused by done.
          eexists; split; [reflexivity|by apply shell_step_log].
      - erewrite run_cd_unresolved by done.
        eexists; split; [reflexivity|by apply shell_step_log]. }
    rewrite run_cd_null by done.
    eexists; split; [reflexivity|by apply shell_step_log].
  - unfold run_kill, bind, kill, when. simpl.
    destruct (k_kill_ok (kern s) jb sg); simpl.
    + eexists; split; [reflexivity|by apply shell_step_log].
    + eexists; split; [reflexivity|].
      eapply shell_step_trans; [by apply (shell_step_log (EvKill jb sg))|].
      by apply shell_step_log.
Qed.

End ShellSide.

Lemma with_fds_same (q : proc) : with_fds (p_fds q) q = q.
Proof. by destruct q. Qed.

(** Where [fork] leaves its caller: in the branch of a non-zero result,
    with its own state untouched. *)
Lemma fork_caller {A} (k : Z → M A) (s : sys) :
  ∃ pid S,
    fork k s = k pid S ∧ pid ≠ 0 ∧ me S = me s
    ∧ (S = after_child (k 0) s
       ∨ S = with_kern (kernel_fork_refused (kern s)) s).
Proof.
  destruct (next_ok (k_fork_ok (kern s))) eqn:Hok.
  - exists (next_pid s), (after_child (k 0) s).
    split; [by apply fork_succeeds|]. split; [done|]. split; [done|by left].
  - exists (-1), (with_kern (kernel_fork_refused (kern s)) s).
    split; [by apply fork_fails|]. split; [done|]. split; [done|by right].
Qed.

Section ShellDescriptors.

Context `{Headers}.

(** [create_process] up to its [fork]: only the descriptor table of the
    caller and the counters of the kernel have changed. *)
Lemma create_process_at_fork (holder : CommandHolder) (s : sys) :
  ∃ fds s1,
    create_process holder s
    = fork (fun pid => if pid =? 0 then create_process_child holder fds
                       else create_process_parent holder fds) s1
    ∧ others s1 = others s
    ∧ me s1 = with_fds (p_fds (me s1)) (me s)
    ∧ same_oracles (kern s) (kern s1)
    ∧ k_fork_ok (kern s1) = k_fork_ok (kern s)
    ∧ k_next_pid (kern s1) = k_next_pid (kern s)
    ∧ (has_flag (flags holder) PIPE_OUT = false → s1 = s)
    ∧ (has_flag (flags holder) PIPE_OUT = true →
       next_ok (k_pipe_ok (kern s)) = true →
       fds = (lowest_free (p_fds (me s)),
              lowest_free (<[lowest_free (p_fds (me s))
                             := PipeR (k_next_pipe (kern s))]> (p_fds (me s))))
       ∧ p_fds (me s1)
         = <[snd fds := PipeW (k_next_pipe (kern s))]>
             (<[fst fds := PipeR (k_next_pipe (kern s))]> (p_fds (me s)))).
Proof.
  unfold create_process, bind at 1, gets.
  destruct (has_flag (flags holder) PIPE_OUT).
  - unfold bind at 1. unfold bind at 1. unfold pipe.
    destruct (next_ok (k_pipe_ok (kern s))).
    + eexists _, _. split; [reflexivity|]. simpl.
      split; [done|]. split; [done|]. split; [by unfold same_oracles|].
      split; [done|]. split; [done|]. split; [done|]. done.
    + eexists _, _. split; [reflexivity|]. simpl.
      split; [done|]. split; [by rewrite with_fds_same|].
      split; [by unfold same_oracles|].
      split; [done|]. split; [done|]. split; [done|]. done.
  - exists (p_stack (me s)), s. split; [done|].
    split; [done|]. split; [by rewrite with_fds_same|].
    split; [apply same_oracles_refl|]. done.
Qed.

(** The [else] branch of [create_process], from a state where the array
    holds the write end of the stage's pipe. *)
Lemma create_process_parent_closes (holder : CommandHolder) (r w : Z)
    (o : file_obj) (t : gmap Z file_obj) (S : sys) :
  has_flag (flags holder) PIPE_OUT = true →
  p_fds (me S) = <[w := o]> t → t !! w = None → 0 ≤ w →
  ∃ s',
    create_process_parent holder (r, w) S = (Ret tt, s')
    ∧ p_fds (me s') = t
    ∧ shell_step (on_me (with_fds t) S) s'.
Proof.
  intros HP Hfds Hfree Hpos. unfold create_process_parent. rewrite HP.
  unfold when. unfold bind at 1. unfold bind at 1. unfold close. simpl.
  rewrite (fd_lookup_nonneg _ w Hpos), Hfds, lookup_insert_eq.
  unfold ret.
  replace (on_me (λ q, with_fds (delete w (p_fds q)) q) S)
    with (on_me (with_fds t) S).
  2:{ unfold on_me. f_equal. f_equal. by rewrite Hfds, delete_insert_id. }
  destruct (parent_run_command_shell (cmd holder) (on_me (with_fds t) S))
    as (s' & E & St).
  exists s'. split; [done|]. split; [|done].
  by destruct St as (-> & _).
Qed.

Lemma create_process_parent_plain (holder : CommandHolder) (fds : Z * Z)
    (S : sys) :
  has_flag (flags holder) PIPE_OUT = false →
  ∃ s',
    create_process_parent holder fds S = (Ret tt, s') ∧ shell_step S s'.
Proof.
  intros HP. unfold create_process_parent. rewrite HP.
  apply parent_run_command_shell.
Qed.

Lemma create_process_fds (holder : CommandHolder)
    (s : sys) :
  let s' := snd (create_process holder s) in
  let r := lowest_free (p_fds (me s)) in
  (has_flag (flags holder) PIPE_OUT = false → p_fds (me s') = p_fds (me s))
  ∧ (has_flag (flags holder) PIPE_OUT = true →
     next_ok (k_pipe_ok (kern s)) = true →
     p_fds (me s) !! r = None
     ∧ p_fds (me s') = <[r := PipeR (k_next_pipe (kern s))]> (p_fds (me s))
     ∧ size (p_fds (me s')) = S (size (p_fds (me s)))).
Proof.
  cbv zeta.
  destruct (create_process_at_fork holder s)
    as (fds & s1 & E & O1 & M1 & _ & _ & _ & Hplain & Hpipe).
  destruct (fork_caller
              (fun pid => if pid =? 0 then create_process_child holder fds
                          else create_process_parent holder fds) s1)
    as (pid & S0 & EF & Hpid & HS & _).
  rewrite E, EF. rewrite (proj2 (Z.eqb_neq pid 0)) by done.
  split.
  - intros HP. destruct (create_process_parent_plain holder fds S0 HP)
      as (s' & EP & (F & _)).
    rewrite EP. simpl. by rewrite F, HS, (Hplain HP).
  - intros HP Hok. destruct (Hpipe HP Hok) as [-> Hfds]. simpl in Hfds.
    set (t := p_fds (me s)) in *.
    set (n := k_next_pipe (kern s)) in *.
    set (r := lowest_free t) in *.
    set (t1 := <[r := PipeR n]> t) in *.
    set (w := lowest_free t1) in *.
    destruct (create_process_parent_closes holder r w (PipeW n) t1 S0 HP)
      as (s' & EP & F & _).
    { by rewrite HS. } { apply lowest_free_is_free. }
    { apply lowest_free_nonneg. }
    rewrite EP. simpl. rewrite F.
    split; [apply lowest_free_is_free|]. split; [done|].
    apply map_size_insert_None, lowest_free_is_free.
Qed.

(** X1.  A stage without PipeToNext leaves the descriptor table of the shell as
    it was; a stage with PipeToNext whose pipe is created leaves the shell
    with exactly one more open descriptor, the read end of that pipe, which
    nothing closes.  Both hold whether or not [fork] succeeds. *)
Theorem create_process_leaves_read_end_open (holder : CommandHolder)
    (s : sys) :
  let s' := snd (create_process holder s) in
  let r := lowest_free (p_fds (me s)) in
  (has_flag (flags holder) PIPE_OUT = false → p_fds (me s') = p_fds (me s))
  ∧ (has_flag (flags holder) PIPE_OUT = true →
     next_ok (k_pipe_ok (kern s)) = true →
     p_fds (me s) !! r = None
     ∧ p_fds (me s') = <[r := PipeR (k_next_pipe (kern s))]> (p_fds (me s))
     ∧ size (p_fds (me s')) = S (size (p_fds (me s)))).
Proof. apply create_process_fds. Qed.

End ShellDescriptors.

(* ===================================================================== *)
(** ** The pipeline runner *)
(* ===================================================================== *)

Lemma close_keeps (fd : Z) (s : sys) :
  ∃ rc s',
    close fd s = (Ret rc, s')
    ∧ me s' = with_fds (p_fds (me s')) (me s)
    ∧ others s' = others s ∧ kern s' = kern s.
Proof.
  unfold close. destruct (fd_lookup _ _); eexists _, _;
    (split; [reflexivity|]); simpl; [done|].
  by rewrite with_fds_same.
Qed.

Section Runner.

Context `{Headers}.

(** The caller's side of a stage, whatever the flags and the array. *)
Lemma create_process_parent_shell (holder : CommandHolder) (fds : Z * Z)
    (S0 : sys) :
  ∃ S1 s',
    create_process_parent holder fds S0 = (Ret tt, s')
    ∧ me S1 = with_fds (p_fds (me S1)) (me S0)
    ∧ others S1 = others S0 ∧ kern S1 = kern S0
    ∧ parent_run_command (cmd holder) S1 = (Ret tt, s')
    ∧ shell_step S1 s'.
Proof.
  unfold create_process_parent.
  destruct (has_flag (flags holder) PIPE_OUT); simpl.
  - destruct (close_keeps (snd fds) S0) as (rc & S1 & E & M1 & O1 & K1).
    destruct (parent_run_command_shell (cmd holder) S1) as (s' & EP & St).
    exists S1, s'. unfold bind at 1. unfold bind at 1. rewrite E.
    unfold ret. done.
  - destruct (parent_run_command_shell (cmd holder) S0) as (s' & EP & St).
    exists S0, s'. by rewrite with_fds_same.
Qed.

(** One stage, seen from the shell: it returns, and the shell itself has
    recorded nothing but error reports and signals. *)
Lemma create_process_shell (holder : CommandHolder) (s : sys) :
  ∃ s',
    create_process holder s = (Ret tt, s')
    ∧ p_stdout (me s') = p_stdout (me s)
    ∧ p_jobs (me s') = p_jobs (me s)
    ∧ ∃ evs, p_trace (me s') = p_trace (me s) ++ evs
             ∧ Forall (fun e => parent_event e = true) evs.
Proof.
  destruct (create_process_at_fork holder s)
    as (fds & s1 & E & O1 & M1 & _).
  destruct (fork_caller
              (fun pid => if pid =? 0 then create_process_child holder fds
                          else create_process_parent holder fds) s1)
    as (pid & S0 & EF & Hpid & HS & _).
  rewrite E, EF. rewrite (proj2 (Z.eqb_neq pid 0)) by done.
  destruct (create_process_parent_shell holder fds S0)
    as (S1 & s' & EP & MS & _ & _ & _ & (_ & B & J & _ & _ & evs & T & P)).
  exists s'. split; [done|].
  rewrite B, J, T, MS, HS, M1. simpl.
  split; [done|]. split; [done|]. by exists evs.
Qed.

(** The loops of [run_script] stop at the terminator: what the array holds
    after it is never read. *)
Lemma create_processes_stop (stages rest : list CommandHolder)
    (eoc : CommandHolder) (s : sys) :
  get_command_holder_type eoc = EOC →
  create_processes (stages ++ eoc :: rest) s
  = create_processes (stages ++ [eoc]) s.
Proof.
  intros He. revert s. induction stages as [|h stages IH]; intros s; simpl.
  - by rewrite !decide_True by done.
  - destruct (decide _); [done|]. unfold bind.
    destruct (create_process h s) as [[[]| | | ] s1]; [apply IH|done..].
Qed.

Lemma wait_each_stop (stages rest : list CommandHolder)
    (eoc : CommandHolder) (s : sys) :
  get_command_holder_type eoc = EOC →
  wait_each (stages ++ eoc :: rest) s = wait_each (stages ++ [eoc]) s.
Proof.
  intros He. revert s. induction stages as [|h stages IH]; intros s; simpl.
  - by rewrite !decide_True by done.
  - destruct (decide _); [done|]. unfold bind, wait, modify. apply IH.
Qed.

Lemma create_processes_return (stages rest : list CommandHolder)
    (eoc : CommandHolder) (s : sys) :
  get_command_holder_type eoc = EOC →
  ∃ s',
    create_processes (stages ++ eoc :: rest) s = (Ret tt, s')
    ∧ p_stdout (me s') = p_stdout (me s)
    ∧ ∃ evs, p_trace (me s') = p_trace (me s) ++ evs
             ∧ Forall (fun e => parent_event e = true) evs.
Proof.
  intros He. revert s. induction stages as [|h stages IH]; intros s; simpl.
  - rewrite decide_True by done. exists s. split; [done|]. split; [done|].
    exists []. by rewrite app_nil_r.
  - destruct (decide _).
    { exists s. split; [done|]. split; [done|].
      exists []. by rewrite app_nil_r. }
    destruct (create_process_shell h s) as (s1 & E & B1 & _ & e1 & T1 & P1).
    rewrite (bind_ret_l _ _ _ _ _ E).
    destruct (IH s1) as (s' & E' & B2 & e2 & T2 & P2).
    exists s'. split; [done|]. split; [congruence|].
    exists (e1 ++ e2). split; [by rewrite T2, T1, app_assoc|].
    by apply Forall_app.
Qed.

(** One [wait(NULL)] per stage in front of the terminator. *)
Lemma wait_each_counts (stages rest : list CommandHolder)
    (eoc : CommandHolder) (s : sys) :
  get_command_holder_type eoc = EOC →
  Forall (fun h => get_command_holder_type h ≠ EOC) stages →
  wait_each (stages ++ eoc :: rest) s
  = (Ret tt,
     on_me (fun q => Nat.iter (length stages) (log EvWait) q) s).
Proof.
  intros He Hst. revert s. induction Hst as [|h stages Hh _ IH]; intros s.
  - simpl. rewrite decide_True by done. by destruct s.
  - simpl. rewrite decide_False by done.
    unfold bind, wait, modify. rewrite IH. unfold on_me. simpl.
    f_equal. f_equal. clear. induction (length stages) as [|n IHn]; [done|].
    simpl. by rewrite IHn.
Qed.

Lemma iter_log_wait_trace (n : nat) (q : proc) :
  p_trace (Nat.iter n (log EvWait) q) = p_trace q ++ replicate n EvWait.
Proof.
  induction n as [|n IH]; simpl; [by rewrite app_nil_r|].
  rewrite IH, <- app_assoc. f_equal.
  clear. induction n as [|n IH]; [done|]. simpl. by rewrite IH.
Qed.

(** The polling loop has iterations to spare, and records no [wait]. *)
Lemma drain_finished_returns (fuel : nat) (s : sys) :
  (length (p_jobs (me s)) < fuel)%nat →
  ∃ s',
    drain_finished fuel s = (Ret tt, s')
    ∧ count_waits (p_trace (me s')) = count_waits (p_trace (me s)).
Proof.
  revert s. induction fuel as [|n IH]; intros s Hlen; [lia|].
  simpl. unfold bind at 1. unfold get_finished_job.
  destruct (Registry.take_finished (p_jobs (me s))) as [[j rest]|] eqn:E.
  - apply take_finished_Some in E as (_ & _ & E3).
    unfold bind. rewrite print_job_bg_complete_emits.
    destruct (IH (on_me (emit ("Completed: " +:+ TAB +:+
                                job_line (job_id j) (job_pid j) (job_cmd j)))
                    (on_me (with_jobs rest) s)))
      as (s' & ED & W); [simpl; lia|].
    exists s'. split; [done|]. rewrite W. simpl.
    rewrite count_waits_app. simpl. lia.
  - by exists s.
Qed.

Lemma check_jobs_bg_status_returns (s : sys) :
  ∃ s',
    check_jobs_bg_status s = (Ret tt, s')
    ∧ count_waits (p_trace (me s')) = count_waits (p_trace (me s)).
Proof.
  unfold check_jobs_bg_status. destruct get_finished_job_defined.
  - apply drain_finished_returns. lia.
  - by exists s.
Qed.

Lemma run_script_cons (h0 : CommandHolder) (l : list CommandHolder)
    (s : sys) :
  run_script (Some (h0 :: l)) s
  = if decide (get_command_holder_type h0 = EOC) then (Ret tt, s)
    else (check_jobs_bg_status ;;
          create_processes (h0 :: l) ;;
          when (negb (has_flag (flags h0) BACKGROUND)) (wait_each (h0 :: l))) s.
Proof. unfold run_script. by destruct (decide _). Qed.

(** X2.  [run_script] on a terminated pipeline returns without reading past the
    terminator, and behaves as if the array ended there. *)
Theorem run_script_stops_at_the_terminator (stages rest : list CommandHolder)
    (eoc : CommandHolder) (s : sys) :
  get_command_holder_type eoc = EOC →
  fst (run_script (Some (pipeline stages eoc rest)) s) = Ret tt
  ∧ run_script (Some (pipeline stages eoc rest)) s
    = run_script (Some (pipeline stages eoc [])) s.
Proof.
  intros He. unfold pipeline.
  destruct stages as [|h0 more].
  { simpl. by rewrite !decide_True by done. }
  change ((h0 :: more) ++ [eoc]) with (h0 :: (more ++ [eoc])).
  change ((h0 :: more) ++ eoc :: rest) with (h0 :: (more ++ eoc :: rest)).
  rewrite !run_script_cons.
  destruct (decide (get_command_holder_type h0 = EOC)); [done|].
  change (h0 :: (more ++ eoc :: rest)) with ((h0 :: more) ++ eoc :: rest).
  change (h0 :: (more ++ [eoc])) with ((h0 :: more) ++ [eoc]).
  destruct (check_jobs_bg_status_returns s) as (s1 & E1 & _).
  rewrite !(bind_ret_l _ _ _ _ _ E1).
  destruct (create_processes_return (h0 :: more) rest eoc s1 He)
    as (s2 & E2 & _).
  assert (E2' : create_processes ((h0 :: more) ++ [eoc]) s1 = (Ret tt, s2))
    by by rewrite <- (create_processes_stop (h0 :: more) rest eoc s1 He).
  rewrite !(bind_ret_l _ _ _ _ _ E2), (bind_ret_l _ _ _ _ _ E2').
  unfold when. destruct (negb _); [|done].
  rewrite (wait_each_stop (h0 :: more) rest eoc s2 He).
  split; [|done].
  clear -He. generalize (h0 :: more). intros l. revert s2.
  induction l as [|h l IH]; intros s2; simpl.
  - by rewrite !decide_True by done.
  - destruct (decide _); [done|]. unfold bind, wait, modify. apply IH.
Qed.

(** X3.  A foreground pipeline makes the shell call [wait] exactly once per
    stage, whether or not the stage's process could be created; a
    background pipeline makes it call [wait] not at all. *)
Theorem run_script_waits_once_per_stage (h0 : CommandHolder)
    (more rest : list CommandHolder) (eoc : CommandHolder) (s : sys) :
  get_command_holder_type eoc = EOC →
  Forall (fun h => get_command_holder_type h ≠ EOC) (h0 :: more) →
  ∃ s',
    run_script (Some (pipeline (h0 :: more) eoc rest)) s = (Ret tt, s')
    ∧ count_waits (p_trace (me s'))
      = (count_waits (p_trace (me s))
         + (if has_flag (flags h0) BACKGROUND then 0 else S (length more)))%nat.
Proof.
  intros He Hst. unfold pipeline.
  change ((h0 :: more) ++ eoc :: rest) with (h0 :: (more ++ eoc :: rest)).
  rewrite run_script_cons.
  rewrite decide_False by by inversion Hst.
  change (h0 :: (more ++ eoc :: rest)) with ((h0 :: more) ++ eoc :: rest).
  destruct (check_jobs_bg_status_returns s) as (s1 & E1 & W1).
  rewrite (bind_ret_l _ _ _ _ _ E1).
  destruct (create_processes_return (h0 :: more) rest eoc s1 He)
    as (s2 & E2 & _ & evs & T2 & P2).
  rewrite (bind_ret_l _ _ _ _ _ E2).
  assert (W2 : count_waits (p_trace (me s2)) = count_waits (p_trace (me s))).
  { rewrite T2, count_waits_app, (count_waits_parent_events evs P2). lia. }
  unfold when. destruct (has_flag (flags h0) BACKGROUND); cbn [negb].
  - exists s2. split; [done|]. lia.
  - rewrite (wait_each_counts (h0 :: more) rest eoc s2 He Hst).
    eexists. split; [reflexivity|].
    cbn [me on_me]. rewrite iter_log_wait_trace, count_waits_app,
      count_waits_replicate, W2. simpl. lia.
Qed.

End Runner.

(* ===================================================================== *)
(** ** The created process *)
(* ===================================================================== *)

(** A redirection block, exactly: nothing at all when no file is opened;
    otherwise one [open] is recorded, the target descriptor (if it was
    open) refers to the file, and no other descriptor has changed. *)
Lemma redirect_when (flag : bool) (path : option string) (mode : open_mode)
    (tgt : Z) (s : sys) :
  ∃ s',
    when flag (fd <- open path mode ;; dup2 fd tgt ;; close fd ;; ret tt) s
    = (Ret tt, s')
    ∧ same_but_fds s s'
    ∧ p_trace (me s')
      = p_trace (me s) ++ open_events (opened (kern s) flag path mode) mode
    ∧ (∀ k, k ≠ tgt → p_fds (me s') !! k = p_fds (me s) !! k)
    ∧ (is_Some (p_fds (me s) !! tgt) →
       p_fds (me s') !! tgt
       = redirected (opened (kern s) flag path mode) mode
           (p_fds (me s) !! tgt))
    ∧ (opened (kern s) flag path mode = None → s' = s).
Proof.
  assert (Hnone : ∀ sx, sx = s →
    (dup2 (-1) tgt ;; close (-1) ;; ret tt) s = (Ret tt, sx)
    ∧ same_but_fds s sx
    ∧ p_trace (me sx) = p_trace (me s) ++ []
    ∧ (∀ k, k ≠ tgt → p_fds (me sx) !! k = p_fds (me s) !! k)
    ∧ (is_Some (p_fds (me s) !! tgt) →
       p_fds (me sx) !! tgt = p_fds (me s) !! tgt)
    ∧ (None = None :> option string → sx = s)).
  { intros sx ->. rewrite app_nil_r.
    unfold bind, dup2, close, fd_lookup, same_but_fds. simpl. done. }
  unfold opened, when. destruct flag.
  2:{ exists s. simpl. rewrite app_nil_r. by unfold same_but_fds. }
  unfold bind at 1. unfold open.
  destruct path as [p|]; [|exists s; by apply Hnone].
  destruct (k_open_ok (kern s) p mode); [|exists s; by apply Hnone].
  clear Hnone.
  set (t := p_fds (me s)).
  set (fd := lowest_free t).
  assert (Hfresh : t !! fd = None) by apply lowest_free_is_free.
  assert (Hpos : 0 ≤ fd) by apply lowest_free_nonneg.
  unfold bind, dup2, close, ret. simpl. fold t. fold fd.
  rewrite (fd_lookup_nonneg _ fd Hpos), lookup_insert_eq.
  destruct (fd =? tgt) eqn:Heq; simpl; fold t; fold fd.
  - apply Z.eqb_eq in Heq. subst tgt.
    rewrite (fd_lookup_nonneg _ fd Hpos), lookup_insert_eq.
    eexists. split; [reflexivity|]. simpl. fold t. fold fd.
    split; [by unfold same_but_fds|]. split; [done|]. split.
    + intros k Hk. by rewrite lookup_delete_ne, lookup_insert_ne.
    + split; [|done]. intros [o Ho]. rewrite Hfresh in Ho. discriminate.
  - apply Z.eqb_neq in Heq.
    rewrite (fd_lookup_nonneg _ fd Hpos), lookup_insert_ne, lookup_insert_eq
      by done.
    eexists. split; [reflexivity|]. simpl. fold t. fold fd.
    split; [by unfold same_but_fds|]. split; [done|]. split.
    + intros k Hk. destruct (decide (k = fd)) as [->|Hne].
      * by rewrite lookup_delete_eq.
      * by rewrite lookup_delete_ne, !lookup_insert_ne.
    + split; [|done]. intros _.
      by rewrite lookup_delete_ne, lookup_insert_eq.
Qed.

Lemma open_events_no_write (o : option string) (mode : open_mode) (fd : Z)
    (t : option file_obj) (d : string) :
  EvWrite fd t d ∉ open_events o mode.
Proof.
  destruct o; simpl; [|apply not_elem_of_nil].
  intros Hin%list_elem_of_singleton. discriminate.
Qed.

Section Child.

Context `{Headers}.

(** The branch [pid == 0] of [create_process] is its set-up of the
    descriptors followed by the command and [_exit]; the set-up touches
    nothing but the descriptor table and writes nothing. *)
Lemma create_process_child_setup (holder : CommandHolder) (fds : Z * Z)
    (s : sys) :
  ∃ s3,
    create_process_child holder fds s
    = (child_run_command (cmd holder) ;; _exit EXIT_FAILURE) s3
    ∧ quiet s s3 ∧ same_but_fds s s3.
Proof.
  unfold create_process_child.
  destruct (redirect_when (has_flag (flags holder) REDIRECT_IN)
              (redirect_in holder) O_RDONLY STDIN_FILENO s)
    as (s1 & E1 & S1 & T1 & _).
  rewrite (bind_ret_l _ _ _ _ _ E1).
  destruct (redirect_when (has_flag (flags holder) REDIRECT_OUT)
              (redirect_out holder) O_WRONLY_CREAT_TRUNC STDOUT_FILENO s1)
    as (s2 & E2 & S2 & T2 & _).
  rewrite (bind_ret_l _ _ _ _ _ E2).
  assert (HC : ∃ s3,
    when (has_flag (flags holder) PIPE_OUT)
      (dup2 (snd fds) STDOUT_FILENO ;; close (fst fds) ;; close (snd fds) ;;
       ret tt) s2 = (Ret tt, s3)
    ∧ quiet s2 s3 ∧ same_but_fds s2 s3).
  { destruct (has_flag (flags holder) PIPE_OUT).
    - apply pipe_out_block_returns.
    - exists s2. split; [done|].
      split; [apply quiet_refl|apply same_but_fds_refl]. }
  destruct HC as (s3 & E3 & Q3 & S3).
  rewrite (bind_ret_l _ _ _ _ _ E3).
  exists s3. split; [done|]. split.
  - intros t d Hin. apply Q3 in Hin. rewrite T2, T1 in Hin.
    apply elem_of_app in Hin as [Hin|Hin].
    + apply elem_of_app in Hin as [Hin|Hin]; [done|].
      by apply open_events_no_write in Hin.
    + by apply open_events_no_write in Hin.
  - eauto using same_but_fds_trans.
Qed.

(** The processes a stage creates, when its [fork] succeeds: the one that
    runs the branch [pid == 0], then those that one created. *)
Lemma create_process_spawned (holder : CommandHolder) (s : sys) :
  next_ok (k_fork_ok (kern s)) = true →
  ∃ fds s1,
    spawned (create_process holder) s
    = child_record (create_process_child holder fds) s1
      :: others (snd (create_process_child holder fds (child_start s1)))
    ∧ me s1 = with_fds (p_fds (me s1)) (me s)
    ∧ same_oracles (kern s) (kern s1)
    ∧ k_next_pid (kern s1) = k_next_pid (kern s)
    ∧ (has_flag (flags holder) PIPE_OUT = false → s1 = s).
Proof.
  intros Hok.
  destruct (create_process_at_fork holder s)
    as (fds & s1 & E & O1 & M1 & K1 & F1 & N1 & Hplain & _).
  exists fds, s1. split; [|done].
  unfold spawned. rewrite E, fork_succeeds by by rewrite F1.
  change (next_pid s1 =? 0) with false. cbv iota.
  change (0 =? 0) with true. cbv iota.
  destruct (create_process_parent_shell holder fds
              (after_child (create_process_child holder fds) s1))
    as (S1 & s' & EP & _ & OS & _ & _ & (_ & _ & _ & O' & _)).
  rewrite EP. simpl. rewrite O', OS. simpl.
  by rewrite O1, drop_app_length.
Qed.

End Child.

Section ChildCommands.

Context `{Headers}.

(** What the process of a stage is, in terms of the state [s3] in which its
    command starts: a copy of the shell but for the descriptor table, with
    nothing written and no process of its own yet. *)
Lemma stage_process (holder : CommandHolder) (s : sys) :
  next_ok (k_fork_ok (kern s)) = true →
  ∃ s3,
    spawned (create_process holder) s
    = {| s_pid := next_pid s; s_parent := p_pid (me s);
         s_end := ending_of
                    (fst ((child_run_command (cmd holder) ;;
                           _exit (A := unit) EXIT_FAILURE) s3));
         s_proc := me (snd ((child_run_command (cmd holder) ;;
                             _exit (A := unit) EXIT_FAILURE) s3)) |}
      :: others (snd ((child_run_command (cmd holder) ;;
                       _exit (A := unit) EXIT_FAILURE) s3))
    ∧ others s3 = []
    ∧ p_env (me s3) = p_env (me s) ∧ p_cwd (me s3) = p_cwd (me s)
    ∧ p_jobs (me s3) = p_jobs (me s) ∧ p_stdout (me s3) = p_stdout (me s)
    ∧ same_oracles (kern s) (kern s3)
    ∧ (∀ t d, EvWrite STDOUT_FILENO t d ∉ p_trace (me s3)).
Proof.
  intros Hok.
  destruct (create_process_spawned holder s Hok)
    as (fds & s1 & E & M1 & K1 & N1 & _).
  destruct (create_process_child_setup holder fds (child_start s1))
    as (s3 & E3 & Q3 & (KS & OS & JS & BS & CS & ES)).
  exists s3. rewrite E. unfold child_record. rewrite E3.
  split.
  { unfold next_pid. rewrite N1, M1. done. }
  split; [by rewrite OS|].
  rewrite ES, CS, JS, BS, KS. simpl. rewrite M1. simpl.
  split; [done|]. split; [done|]. split; [done|]. split; [done|].
  split.
  { destruct K1 as (? & ? & ? & ? & ?). by unfold same_oracles. }
  intros t d Hin. apply Q3 in Hin. simpl in Hin.
  by apply elem_of_nil in Hin.
Qed.

Lemma child_run_command_unknown (c : Command) (s : sys) :
  child_side_kind (get_command_type c) = false →
  child_run_command c s
  = (Ret tt,
     on_me (log (EvWrite STDERR_FILENO (p_fds (me s) !! STDERR_FILENO)
                   ("Unknown command type." +:+ NL))) s).
Proof. by destruct c. Qed.

(** X4.  A stage whose command is of a kind the child side has no case for
    (ListEnvSet, ChangeDirectory, SendSignal) still gets a process: that
    process writes "Unknown command type." on its error stream as the last
    thing it does, creates no process, and exits with the failure status. *)
Theorem parent_side_stage_still_spawns (holder : CommandHolder) (s : sys) :
  child_side_kind (get_command_holder_type holder) = false →
  next_ok (k_fork_ok (kern s)) = true →
  ∃ child t,
    spawned (create_process holder) s = [child]
    ∧ s_pid child = next_pid s
    ∧ s_end child = Exited EXIT_FAILURE
    ∧ last (p_trace (s_proc child))
      = Some (EvWrite STDERR_FILENO t ("Unknown command type." +:+ NL)).
Proof.
  intros Hkind Hok.
  destruct (stage_process holder s Hok) as (s3 & E & O3 & _).
  rewrite E. unfold bind.
  rewrite (child_run_command_unknown (cmd holder) s3 Hkind).
  eexists _, _. simpl. rewrite O3. split; [reflexivity|]. simpl.
  split; [done|]. split; [done|]. apply last_snoc.
Qed.

(** X5.  A RunExternal stage with no command (NULL or empty argument vector)
    still gets a process: it writes "ERROR: No command provided." on its
    error stream, runs no program, and exits with the failure status. *)
Theorem empty_command_stage_still_spawns (holder : CommandHolder)
    (g : GenericCommand) (s : sys) :
  cmd holder = CmdGeneric g →
  generic_args g = None ∨ generic_args g = Some [] →
  next_ok (k_fork_ok (kern s)) = true →
  ∃ child t,
    spawned (create_process holder) s = [child]
    ∧ s_pid child = next_pid s
    ∧ s_end child = Exited EXIT_FAILURE
    ∧ last (p_trace (s_proc child))
      = Some (EvWrite STDERR_FILENO t ("ERROR: No command provided." +:+ NL)).
Proof.
  intros Hcmd Hargs Hok.
  destruct (stage_process holder s Hok) as (s3 & E & O3 & _).
  rewrite E, Hcmd. unfold bind. simpl.
  rewrite (run_generic_no_command g s3 Hargs).
  eexists _, _. simpl. rewrite O3. split; [reflexivity|]. simpl.
  split; [done|]. split; [done|]. apply last_snoc.
Qed.

(** Running a command in a created process keeps its environment and
    working directory, and the processes it creates share them. *)
Lemma child_run_command_inherits (c : Command) (s : sys) :
  ∃ s', child_run_command c s = (Ret tt, s') ∧ inherits s s'.
Proof.
  assert (Hme : ∀ f : proc → proc,
    (∀ q, p_env (f q) = p_env q ∧ p_cwd (f q) = p_cwd q) →
    inherits s (on_me f s)).
  { intros f Hf. destruct (Hf (me s)) as [? ?].
    split; [done|]. split; [done|]. split; [apply same_oracles_refl|].
    exists []. simpl. by rewrite app_nil_r. }
  destruct c as [g|[args]|e|c|k| | | ]; simpl.
  - destruct (generic_args g) as [[|arg0 rest]|] eqn:Hargs.
    + rewrite run_generic_no_command by auto. eexists. split; [done|].
      by apply Hme.
    + destruct (next_ok (k_fork_ok (kern s))) eqn:Hok.
      * erewrite run_generic_forks by done. eexists. split; [done|].
        split; [|split; [|split]]; simpl.
        -- unfold generic_caller. by destruct (has_flag _ _).
        -- unfold generic_caller. by destruct (has_flag _ _).
        -- by unfold same_oracles.
        -- eexists. split; [done|]. apply Forall_singleton.
           unfold lives_like, generic_child. simpl.
           by destruct (k_exec_ok _ _).
      * erewrite run_generic_fork_fails by done. eexists. split; [done|].
        split; [done|]. split; [done|]. split; [by unfold same_oracles|].
        exists []. simpl. by rewrite app_nil_r.
    + rewrite run_generic_no_command by auto. eexists. split; [done|].
      by apply Hme.
  - rewrite run_echo_emits. eexists. split; [done|]. by apply Hme.
  - eexists. split; [done|]. by apply Hme.
  - eexists. split; [done|]. by apply Hme.
  - eexists. split; [done|]. by apply Hme.
  - unfold run_pwd, bind, getcwd, gets, printf, perror, fflush_stdout, modify.
    simpl. destruct (_ <=? _)%nat; simpl.
    + eexists. split; [done|]. apply (Hme (fun q => _ (_ q))).
      intros q. simpl. by destruct (decide _).
    + eexists. split; [done|]. apply (Hme (fun q => _ (_ q))).
      intros q. simpl. by destruct (decide _).
  - unfold run_jobs, bind, list_background_jobs, fflush_stdout, modify. simpl.
    eexists. split; [done|]. apply (Hme (fun q => _ (_ q))).
    intros q. simpl. by destruct (decide _).
  - eexists. split; [done|]. by apply Hme.
Qed.

Lemma create_process_inherits (holder : CommandHolder) (s : sys) :
  next_ok (k_fork_ok (kern s)) = true →
  spawned (create_process holder) s ≠ []
  ∧ Forall (lives_like (me s)) (spawned (create_process holder) s).
Proof.
  intros Hok.
  destruct (stage_process holder s Hok)
    as (s3 & E & O3 & E3 & C3 & _).
  rewrite E. split; [done|].
  destruct (child_run_command_inherits (cmd holder) s3)
    as (s4 & E4 & He & Hc & _ & new & O4 & Hnew).
  unfold bind. rewrite E4. simpl.
  constructor.
  - unfold lives_like. simpl. split; congruence.
  - rewrite O4, O3. simpl.
    eapply Forall_impl; [exact Hnew|].
    intros g [? ?]. unfold lives_like. split; congruence.
Qed.

(** X6.  Every process a stage creates (the stage's own process and whatever
    that one starts) has the environment and the working directory the
    shell had when [create_process] was called: the stage's own
    parent-side command, which runs after the [fork], is not seen by them. *)
Theorem created_processes_inherit (holder : CommandHolder) (s : sys) :
  next_ok (k_fork_ok (kern s)) = true →
  spawned (create_process holder) s ≠ []
  ∧ Forall (lives_like (me s)) (spawned (create_process holder) s).
Proof. apply create_process_inherits. Qed.

End ChildCommands.

(* ===================================================================== *)
(** ** What a stage does to the shell *)
(* ===================================================================== *)

Section ShellEffect.

Context `{Headers}.

Lemma create_process_child_oracles (holder : CommandHolder) (fds : Z * Z)
    (s : sys) :
  same_oracles (kern s) (kern (snd (create_process_child holder fds s))).
Proof.
  destruct (create_process_child_setup holder fds s)
    as (s3 & E & _ & (K3 & _)).
  destruct (child_run_command_inherits (cmd holder) s3)
    as (s4 & E4 & _ & _ & K4 & _).
  rewrite E. unfold bind. rewrite E4. simpl. by rewrite <- K3.
Qed.

(** The environment and working directory a parent-side command leaves
    depend only on those it finds and on the file system. *)
Lemma parent_run_command_effect (c : Command) (s t : sys) :
  p_env (me s) = p_env (me t) → p_cwd (me s) = p_cwd (me t) →
  same_oracles (kern t) (kern s) →
  p_env (me (snd (parent_run_command c s)))
  = p_env (me (snd (parent_run_command c t)))
  ∧ p_cwd (me (snd (parent_run_command c s)))
    = p_cwd (me (snd (parent_run_command c t))).
Proof.
  intros He Hc (_ & _ & Hrp & Hch & _).
  destruct c as [g|e|[name value]|[d]|[sg jb]| | | ]; simpl; try done.
  - unfold run_export, bind, setenv, when. simpl. rewrite He.
    destruct (decide (name = "")); simpl; [done|].
    destruct (has_equals name); simpl; [done|].
    destruct (p_env (me t) !! name); simpl; by rewrite He.
  - destruct d as [d|]; [|by rewrite !run_cd_null].
    destruct (k_realpath (kern t) (p_cwd (me t)) d) as [rp|] eqn:Ht.
    + assert (Hs : k_realpath (kern s) (p_cwd (me s)) d = Some rp)
        by by rewrite Hrp, Hc.
      destruct (k_chdir_ok (kern t) rp) eqn:Hct.
      * rewrite (run_cd_changes _ d rp s), (run_cd_changes _ d rp t);
          [|done|done|done|done|done|by rewrite Hch].
        simpl. destruct (_ <=? _)%nat; simpl; by rewrite ?He.
      * rewrite (run_cd_refused _ d rp s), (run_cd_refused _ d rp t);
          [done|done|done|done|done|done|by rewrite Hch].
    + assert (Hs : k_realpath (kern s) (p_cwd (me s)) d = None)
        by by rewrite Hrp, Hc.
      by rewrite (run_cd_unresolved _ d s), (run_cd_unresolved _ d t).
  - unfold run_kill, bind, kill, when. simpl.
    by destruct (k_kill_ok _ _ _), (k_kill_ok _ _ _).
Qed.

Lemma create_process_effect (holder : CommandHolder)
    (s : sys) :
  p_env (me (snd (create_process holder s)))
  = p_env (me (snd (parent_run_command (cmd holder) s)))
  ∧ p_cwd (me (snd (create_process holder s)))
    = p_cwd (me (snd (parent_run_command (cmd holder) s))).
Proof.
  destruct (create_process_at_fork holder s)
    as (fds & s1 & E & O1 & M1 & K1 & _).
  destruct (fork_caller
              (fun pid => if pid =? 0 then create_process_child holder fds
                          else create_process_parent holder fds) s1)
    as (pid & S0 & EF & Hpid & HS & HS0).
  rewrite E, EF. rewrite (proj2 (Z.eqb_neq pid 0)) by done.
  destruct (create_process_parent_shell holder fds S0)
    as (S1 & s' & EP & MS & _ & KS & ER & _).
  rewrite EP. replace s' with (snd (parent_run_command (cmd holder) S1))
    by by rewrite ER.
  apply parent_run_command_effect.
  - by rewrite MS, HS, M1.
  - by rewrite MS, HS, M1.
  - rewrite KS. eapply same_oracles_trans; [exact K1|].
    destruct HS0 as [-> | ->]; simpl.
    + change 0 with 0. cbv beta. change (0 =? 0) with true. cbv iota.
      eapply same_oracles_trans;
        [|apply (create_process_child_oracles holder fds (child_start s1))].
      by unfold same_oracles.
    + by unfold same_oracles.
Qed.

(** X7.  Whatever its flags, and whether or not its process could be created, a
    stage leaves the shell with the environment and the working directory
    that its parent-side command alone would have left. *)
Theorem stage_changes_shell_as_its_parent_command (holder : CommandHolder)
    (s : sys) :
  p_env (me (snd (create_process holder s)))
  = p_env (me (snd (parent_run_command (cmd holder) s)))
  ∧ p_cwd (me (snd (create_process holder s)))
    = p_cwd (me (snd (parent_run_command (cmd holder) s))).
Proof. apply create_process_effect. Qed.

End ShellEffect.

(* ===================================================================== *)
(** ** The environment and the working directory *)
(* ===================================================================== *)

Section Environment.

Context `{Headers}.

Lemma run_export_sets (name value : string) (s : sys) :
  name ≠ "" → has_equals name = false →
  run_export {| env_var := name; val := value |} s
  = (Ret tt, on_me (fun q => with_env (<[name := value]> (p_env q)) q) s).
Proof.
  intros Hne Heq. unfold run_export, bind, setenv. simpl.
  rewrite decide_False by done. rewrite Heq.
  by destruct (p_env (me s) !! name).
Qed.

Lemma run_export_refused (name value : string) (s : sys) :
  name = "" ∨ has_equals name = true →
  run_export {| env_var := name; val := value |} s
  = (Ret tt,
     on_me (log (EvPerror (p_fds (me s) !! STDERR_FILENO)
                   "ERROR: Failed to set environment variable")) s).
Proof.
  intros Hbad. unfold run_export, bind, setenv. simpl.
  destruct (decide (name = "")); [done|].
  destruct Hbad as [? | ->]; done.
Qed.

(** X8.  A variable set by [run_export] is what [lookup_env] returns afterwards,
    whether or not it was set before; every other variable reads as it
    did, and nothing is reported. *)
Theorem run_export_then_lookup_env (name value other : string) (s : sys) :
  name ≠ "" → has_equals name = false →
  fst (lookup_env name (snd (run_export {| env_var := name; val := value |} s)))
  = Ret value
  ∧ (other ≠ name →
     fst (lookup_env other
            (snd (run_export {| env_var := name; val := value |} s)))
     = fst (lookup_env other s))
  ∧ p_trace (me (snd (run_export {| env_var := name; val := value |} s)))
    = p_trace (me s).
Proof.
  intros Hne Heq. rewrite run_export_sets by done.
  unfold lookup_env, bind, getenv, gets, ret. simpl.
  split; [by rewrite lookup_insert_eq|].
  split; [|done].
  intros Hother. by rewrite lookup_insert_ne.
Qed.

(** X9.  A name that [setenv] refuses (empty, or containing an equals sign)
    leaves every variable as [lookup_env] read it before, and the failure
    is reported once on the error stream. *)
Theorem run_export_bad_name_changes_nothing (name value other : string)
    (s : sys) :
  name = "" ∨ has_equals name = true →
  fst (lookup_env other
         (snd (run_export {| env_var := name; val := value |} s)))
  = fst (lookup_env other s)
  ∧ p_trace (me (snd (run_export {| env_var := name; val := value |} s)))
    = p_trace (me s)
      ++ [EvPerror (p_fds (me s) !! STDERR_FILENO)
            "ERROR: Failed to set environment variable"].
Proof.
  intros Hbad. by rewrite run_export_refused.
Qed.

(** X10.  An [export] stage changes the shell only after its own process was
    created: that process keeps the old environment, and the processes of
    the stages created afterwards have the new value. *)
Theorem exported_variable_reaches_later_stages (h1 h2 : CommandHolder)
    (name value : string) (s : sys) :
  cmd h1 = CmdExport {| env_var := name; val := value |} →
  name ≠ "" → has_equals name = false →
  next_ok (k_fork_ok (kern s)) = true →
  next_ok (k_fork_ok (kern (snd (create_process h1 s)))) = true →
  Forall (fun g => p_env (s_proc g) = p_env (me s))
         (spawned (create_process h1) s)
  ∧ spawned (create_process h2) (snd (create_process h1 s)) ≠ []
  ∧ Forall (fun g => p_env (s_proc g) = <[name := value]> (p_env (me s)))
           (spawned (create_process h2) (snd (create_process h1 s))).
Proof.
  intros Hcmd Hne Heq Hok1 Hok2.
  destruct (create_process_inherits h1 s Hok1) as [_ H1].
  destruct (create_process_inherits h2 _ Hok2) as [N2 H2].
  destruct (create_process_effect h1 s) as [He _].
  rewrite Hcmd in He. simpl in He. rewrite run_export_sets in He by done.
  simpl in He.
  split; [|split; [done|]].
  - eapply Forall_impl; [exact H1|]. by intros g [? _].
  - eapply Forall_impl; [exact H2|]. intros g [Hg _]. by rewrite Hg, He.
Qed.

Lemma pwd_format (c : string) : format ("%s" +:+ NL) [ArgStr c] = c +:+ NL.
Proof. reflexivity. Qed.

Lemma run_pwd_fits (s : sys) :
  (String.length (p_cwd (me s)) < 1024)%nat →
  run_pwd s = (Ret tt, on_me (emit (p_cwd (me s) +:+ NL)) s).
Proof.
  intros Hlen. unfold run_pwd, bind, getcwd, gets.
  rewrite (proj2 (Nat.leb_le _ _)) by lia.
  unfold printf, fflush_stdout, modify, on_me, emit. simpl.
  rewrite pwd_format. f_equal. f_equal.
  destruct (decide (p_stdout (me s) +:+ p_cwd (me s) +:+ NL = "")) as [E|_];
    [|done].
  apply str_app_nonempty_r in E; [done|]. by apply str_app_nonempty_r.
Qed.

Lemma run_pwd_too_long (s : sys) :
  (1024 ≤ String.length (p_cwd (me s)))%nat →
  run_pwd s
  = (Ret tt,
     on_me (fun q =>
       let q' := log (EvPerror (p_fds q !! STDERR_FILENO)
                        "ERROR: Failed to get current directory") q in
       if decide (p_stdout q = "") then q'
       else with_stdout ""
              (log (EvWrite STDOUT_FILENO (p_fds q !! STDOUT_FILENO)
                      (p_stdout q)) q')) s).
Proof.
  intros Hlen. unfold run_pwd, bind, getcwd, gets.
  rewrite (proj2 (Nat.leb_gt _ _)) by lia.
  unfold perror, fflush_stdout, modify, on_me. simpl.
  by destruct (decide (p_stdout (me s) = "")).
Qed.


(** X12.  After a [cd] that succeeded, [get_current_directory] returns the
    resolved path and tells its caller to free it, however long the path
    is, and reports nothing; [PWD] follows only when the path is shorter
    than 1024 characters. *)
Theorem get_current_directory_after_run_cd (d rp : string) (b : bool)
    (s : sys) :
  k_realpath (kern s) (p_cwd (me s)) d = Some rp →
  k_chdir_ok (kern s) rp = true →
  get_current_directory b (snd (run_cd {| dir := Some d |} s))
  = (Ret (Some rp, true), snd (run_cd {| dir := Some d |} s))
  ∧ fst (lookup_env "PWD" (snd (run_cd {| dir := Some d |} s)))
    = (if (String.length rp <? 1024)%nat then Ret rp
       else fst (lookup_env "PWD" s)).
Proof.
  intros Hrp Hch.
  rewrite (run_cd_changes _ d rp s) by done.
  unfold get_current_directory, lookup_env, bind, getcwd_alloc, getenv, gets,
    ret.
  simpl.
  destruct (String.length rp <? 1024)%nat eqn:Hlen.
  - apply Nat.ltb_lt in Hlen.
    rewrite (proj2 (Nat.leb_le (String.length rp + 1) 1024)) by lia.
    simpl. by rewrite lookup_insert_eq.
  - apply Nat.ltb_ge in Hlen.
    rewrite (proj2 (Nat.leb_gt (String.length rp + 1) 1024)) by lia.
    done.
Qed.

(** X13.  A [pwd] stage that comes after a [cd] stage prints the directory the
    [cd] resolved to: its process is created from the shell as the [cd]
    left it. *)
Theorem pwd_stage_after_cd_stage (h1 h2 : CommandHolder) (d rp : string)
    (s : sys) :
  cmd h1 = CmdCD {| dir := Some d |} → cmd h2 = CmdPWD →
  k_realpath (kern s) (p_cwd (me s)) d = Some rp →
  k_chdir_ok (kern s) rp = true →
  (String.length rp < 1024)%nat →
  p_stdout (me s) = "" →
  next_ok (k_fork_ok (kern (snd (create_process h1 s)))) = true →
  ∃ child t,
    spawned (create_process h2) (snd (create_process h1 s)) = [child]
    ∧ last (p_trace (s_proc child))
      = Some (EvWrite STDOUT_FILENO t (rp +:+ NL)).
Proof.
  intros Hc1 Hc2 Hrp Hch Hlen Hbuf Hok.
  destruct (create_process_effect h1 s) as [_ Hcwd].
  rewrite Hc1 in Hcwd. simpl in Hcwd.
  rewrite (run_cd_changes _ d rp s) in Hcwd by done. simpl in Hcwd.
  assert (Hcwd' : p_cwd (me (snd (create_process h1 s))) = rp).
  { rewrite Hcwd. by destruct (_ <=? _)%nat. }
  destruct (create_process_shell h1 s) as (s1 & E1 & Hb & _).
  rewrite E1 in Hcwd', Hok |- *. simpl in Hcwd', Hok |- *.
  destruct (stage_process h2 s1 Hok)
    as (s3 & E & O3 & _ & C3 & _ & B3 & _).
  rewrite E, Hc2. simpl.
  unfold bind. rewrite run_pwd_fits by by rewrite C3, Hcwd'.
  simpl. rewrite O3.
  eexists _, _. split; [reflexivity|]. simpl.
  rewrite last_snoc. by rewrite B3, C3, Hcwd', Hb, Hbuf.
Qed.

End Environment.

Section Redirections.

Context `{Headers}.

Lemma fork_ext {A} (k k' : Z → M A) (s : sys) :
  k 0 (child_start s) = k' 0 (child_start s) →
  (∀ pid t, pid ≠ 0 → k pid t = k' pid t) →
  fork k s = fork k' s.
Proof.
  intros H0 Hp.
  destruct (next_ok (k_fork_ok (kern s))) eqn:Hok.
  - rewrite !fork_succeeds by done.
    unfold after_child, child_record. rewrite H0. by apply Hp.
  - rewrite !fork_fails by done. by apply Hp.
Qed.

Lemma has_flag_0 (mask : Z) : has_flag 0 mask = false.
Proof. unfold has_flag. by rewrite Z.land_0_l. Qed.

(** X14.  A stage without pipe whose redirections open no file (the flag is not
    set, the path is NULL, or [open] fails) runs exactly as the same
    command with no flag at all: a redirection that fails is not reported
    and the command runs on the inherited descriptors. *)
Theorem unopened_redirections_are_ignored (holder : CommandHolder)
    (s : sys) :
  has_flag (flags holder) PIPE_OUT = false →
  opened (kern s) (has_flag (flags holder) REDIRECT_IN)
    (redirect_in holder) O_RDONLY = None →
  opened (kern s) (has_flag (flags holder) REDIRECT_OUT)
    (redirect_out holder) O_WRONLY_CREAT_TRUNC = None →
  create_process holder s
  = create_process {| redirect_in := None; redirect_out := None;
                      flags := 0; cmd := cmd holder |} s.
Proof.
  intros Hpipe Hin Hout.
  unfold create_process, bind at 1, gets. simpl.
  unfold bind at 1. rewrite ?Hpipe, ?has_flag_0. unfold bind at 1. simpl.
  unfold bind at 1. simpl.
  apply fork_ext.
  - simpl. unfold create_process_child. simpl. rewrite ?has_flag_0, ?Hpipe.
    destruct (redirect_when (has_flag (flags holder) REDIRECT_IN)
                (redirect_in holder) O_RDONLY STDIN_FILENO (child_start s))
      as (s1 & E1 & _ & _ & _ & _ & Hs1).
    rewrite (bind_ret_l _ _ _ _ _ E1), (Hs1 Hin).
    destruct (redirect_when (has_flag (flags holder) REDIRECT_OUT)
                (redirect_out holder) O_WRONLY_CREAT_TRUNC STDOUT_FILENO
                (child_start s))
      as (s2 & E2 & _ & _ & _ & _ & Hs2).
    rewrite (bind_ret_l _ _ _ _ _ E2), (Hs2 Hout).
    reflexivity.
  - intros pid t Hpid. rewrite !(proj2 (Z.eqb_neq pid 0)) by done.
    unfold create_process_parent. simpl. by rewrite ?has_flag_0, ?Hpipe.
Qed.


(** The branch [pid == 0] of a stage without pipe, up to its command. *)
Lemma create_process_child_plain (holder : CommandHolder) (fds : Z * Z)
    (s : sys) :
  has_flag (flags holder) PIPE_OUT = false →
  is_Some (p_fds (me s) !! STDIN_FILENO) →
  is_Some (p_fds (me s) !! STDOUT_FILENO) →
  ∃ s3,
    create_process_child holder fds s
    = (child_run_command (cmd holder) ;; _exit EXIT_FAILURE) s3
    ∧ others s3 = others s
    ∧ p_fds (me s3) !! STDIN_FILENO
      = redirected (opened (kern s) (has_flag (flags holder) REDIRECT_IN)
                      (redirect_in holder) O_RDONLY)
          O_RDONLY (p_fds (me s) !! STDIN_FILENO)
    ∧ p_fds (me s3) !! STDOUT_FILENO
      = redirected (opened (kern s) (has_flag (flags holder) REDIRECT_OUT)
                      (redirect_out holder) O_WRONLY_CREAT_TRUNC)
          O_WRONLY_CREAT_TRUNC (p_fds (me s) !! STDOUT_FILENO)
    ∧ (∀ k, k ≠ STDIN_FILENO → k ≠ STDOUT_FILENO →
            p_fds (me s3) !! k = p_fds (me s) !! k)
    ∧ p_trace (me s3)
      = p_trace (me s)
        ++ open_events (opened (kern s) (has_flag (flags holder) REDIRECT_IN)
                          (redirect_in holder) O_RDONLY) O_RDONLY
        ++ open_events (opened (kern s) (has_flag (flags holder) REDIRECT_OUT)
                          (redirect_out holder) O_WRONLY_CREAT_TRUNC)
             O_WRONLY_CREAT_TRUNC
    ∧ p_stdout (me s3) = p_stdout (me s).
Proof.
  intros Hpipe Hin Hout. unfold create_process_child. rewrite Hpipe.
  destruct (redirect_when (has_flag (flags holder) REDIRECT_IN)
              (redirect_in holder) O_RDONLY STDIN_FILENO s)
    as (s1 & E1 & (K1 & O1 & _ & B1 & _) & T1 & F1 & G1 & _).
  rewrite (bind_ret_l _ _ _ _ _ E1).
  destruct (redirect_when (has_flag (flags holder) REDIRECT_OUT)
              (redirect_out holder) O_WRONLY_CREAT_TRUNC STDOUT_FILENO s1)
    as (s2 & E2 & (K2 & O2 & _ & B2 & _) & T2 & F2 & G2 & _).
  rewrite (bind_ret_l _ _ _ _ _ E2).
  rewrite K1 in T2, G2.
  exists s2. split; [done|].
  split; [by rewrite O2, O1|].
  split; [by rewrite F2, G1|].
  split; [rewrite G2, F1; [done|done|by rewrite F1]|].
  split; [intros k ? ?; by rewrite F2, F1|].
  split; [by rewrite T2, T1, <- app_assoc|].
  by rewrite B2, B1.
Qed.

(** X15.  In a stage without pipe whose standard input and output are open, a
    redirection whose file opens replaces the descriptor it names and only
    that one; otherwise the descriptor is the shell's.  No other descriptor
    is left open by the set-up, everything the stage's process writes on
    standard output goes to the object so installed, and the processes it
    creates have the same descriptor table. *)
Theorem redirections_of_a_stage_without_pipe (holder : CommandHolder)
    (s : sys) :
  has_flag (flags holder) PIPE_OUT = false →
  next_ok (k_fork_ok (kern s)) = true →
  is_Some (p_fds (me s) !! STDIN_FILENO) →
  is_Some (p_fds (me s) !! STDOUT_FILENO) →
  ∃ child rest,
    spawned (create_process holder) s = child :: rest
    ∧ p_fds (s_proc child) !! STDIN_FILENO
      = redirected (opened (kern s) (has_flag (flags holder) REDIRECT_IN)
                      (redirect_in holder) O_RDONLY)
          O_RDONLY (p_fds (me s) !! STDIN_FILENO)
    ∧ p_fds (s_proc child) !! STDOUT_FILENO
      = redirected (opened (kern s) (has_flag (flags holder) REDIRECT_OUT)
                      (redirect_out holder) O_WRONLY_CREAT_TRUNC)
          O_WRONLY_CREAT_TRUNC (p_fds (me s) !! STDOUT_FILENO)
    ∧ (∀ k, k ≠ STDIN_FILENO → k ≠ STDOUT_FILENO →
            p_fds (s_proc child) !! k = p_fds (me s) !! k)
    ∧ stdout_goes_to (p_fds (s_proc child) !! STDOUT_FILENO)
        (p_trace (s_proc child))
    ∧ Forall (fun g => p_fds (s_proc g) = p_fds (s_proc child)) rest.
Proof.
  intros Hpipe Hok Hin Hout.
  destruct (create_process_spawned holder s Hok)
    as (fds & s1 & E & _ & _ & _ & Hs1).
  rewrite (Hs1 Hpipe) in E. clear Hs1 s1.
  destruct (create_process_child_plain holder fds (child_start s)
              Hpipe Hin Hout)
    as (s3 & E3 & O3 & I3 & W3 & R3 & T3 & _).
  destruct (child_run_command_child_side (cmd holder) s3)
    as (s4 & E4 & (Hfds & Hout4) & new & O4 & Hnew).
  rewrite E. unfold child_record. rewrite E3. unfold bind. rewrite E4.
  simpl in *.
  eexists _, _. split; [reflexivity|]. simpl.
  rewrite Hfds.
  split; [done|]. split; [done|]. split; [done|]. split.
  - intros t d Hin4. apply Hout4 in Hin4 as [Hin4|Hin4]; [|done].
    rewrite T3 in Hin4.
    apply elem_of_app in Hin4 as [Hin4|Hin4];
      by apply open_events_no_write in Hin4.
  - rewrite O4, O3. simpl.
    eapply Forall_impl; [exact Hnew|]. by intros g [_ ?].
Qed.

End Redirections.

Section ExternalPrograms.

Context `{Headers}.

Lemma redirect_when_pid (flag : bool) (path : option string)
    (mode : open_mode) (tgt : Z) (s : sys) :
  p_pid (me (snd (when flag (fd <- open path mode ;; dup2 fd tgt ;;
                             close fd ;; ret tt) s)))
  = p_pid (me s).
Proof.
  unfold when, bind, open, dup2, close, ret.
  repeat case_match; simplify_eq/=; done.
Qed.

Lemma pipe_out_block_pid (flag : bool) (r w : Z) (s : sys) :
  p_pid (me (snd (when flag (dup2 w STDOUT_FILENO ;; close r ;; close w ;;
                             ret tt) s)))
  = p_pid (me s).
Proof.
  unfold when, bind, dup2, close, ret.
  repeat case_match; simplify_eq/=; done.
Qed.


(** The state in which the command of a stage starts, in the stage's own
    process: the process created by the [fork] of [create_process], under
    the kernel as that [fork] left it. *)
Lemma stage_process_start (holder : CommandHolder) (s : sys) :
  next_ok (k_fork_ok (kern s)) = true →
  ∃ s3,
    spawned (create_process holder) s
    = {| s_pid := next_pid s; s_parent := p_pid (me s);
         s_end := ending_of
                    (fst ((child_run_command (cmd holder) ;;
                           _exit (A := unit) EXIT_FAILURE) s3));
         s_proc := me (snd ((child_run_command (cmd holder) ;;
                             _exit (A := unit) EXIT_FAILURE) s3)) |}
      :: others (snd ((child_run_command (cmd holder) ;;
                       _exit (A := unit) EXIT_FAILURE) s3))
    ∧ others s3 = []
    ∧ p_pid (me s3) = next_pid s
    ∧ k_next_pid (kern s3) = Pos.succ (k_next_pid (kern s))
    ∧ k_fork_ok (kern s3) = tail (k_fork_ok (kern s))
    ∧ k_exec_ok (kern s3) = k_exec_ok (kern s).
Proof.
  intros Hok.
  destruct (create_process_at_fork holder s)
    as (fds & s1 & E & O1 & M1 & K1 & F1 & N1 & _).
  assert (Hsp : spawned (create_process holder) s
    = child_record (create_process_child holder fds) s1
      :: others (snd (create_process_child holder fds (child_start s1)))).
  { unfold spawned. rewrite E, fork_succeeds by by rewrite F1.
    change (next_pid s1 =? 0) with false. cbv iota.
    change (0 =? 0) with true. cbv iota.
    destruct (create_process_parent_shell holder fds
                (after_child (create_process_child holder fds) s1))
      as (S1 & s' & EP & _ & OS & _ & _ & (_ & _ & _ & O' & _)).
    rewrite EP. simpl. rewrite O', OS. simpl.
    by rewrite O1, drop_app_length. }
  rewrite Hsp. clear Hsp E.
  unfold child_record, create_process_child.
  set (s0 := child_start s1).
  destruct (redirect_when (has_flag (flags holder) REDIRECT_IN)
              (redirect_in holder) O_RDONLY STDIN_FILENO s0)
    as (sa & Ea & (Ka & Oa & _) & _).
  pose proof (redirect_when_pid (has_flag (flags holder) REDIRECT_IN)
                (redirect_in holder) O_RDONLY STDIN_FILENO s0) as Pa.
  rewrite Ea in Pa. simpl in Pa.
  rewrite (bind_ret_l _ _ _ _ _ Ea).
  destruct (redirect_when (has_flag (flags holder) REDIRECT_OUT)
              (redirect_out holder) O_WRONLY_CREAT_TRUNC STDOUT_FILENO sa)
    as (sb & Eb & (Kb & Ob & _) & _).
  pose proof (redirect_when_pid (has_flag (flags holder) REDIRECT_OUT)
                (redirect_out holder) O_WRONLY_CREAT_TRUNC STDOUT_FILENO sa)
    as Pb.
  rewrite Eb in Pb. simpl in Pb.
  rewrite (bind_ret_l _ _ _ _ _ Eb).
  assert (HC : ∃ sc,
    when (has_flag (flags holder) PIPE_OUT)
      (dup2 (snd fds) STDOUT_FILENO ;; close (fst fds) ;; close (snd fds) ;;
       ret tt) sb = (Ret tt, sc)
    ∧ same_but_fds sb sc).
  { destruct (has_flag (flags holder) PIPE_OUT).
    - destruct (pipe_out_block_returns (fst fds) (snd fds) sb)
        as (sc & Ec & _ & Sc).
      by exists sc.
    - exists sb. split; [done|apply same_but_fds_refl]. }
  destruct HC as (sc & Ec & (Kc & Oc & _)).
  pose proof (pipe_out_block_pid (has_flag (flags holder) PIPE_OUT)
                (fst fds) (snd fds) sb) as Pc.
  rewrite Ec in Pc. simpl in Pc.
  rewrite (bind_ret_l _ _ _ _ _ Ec).
  exists sc.
  split.
  { unfold next_pid. rewrite N1, M1. done. }
  split; [by rewrite Oc, Ob, Oa|].
  split; [rewrite Pc, Pb, Pa; unfold s0, next_pid; simpl; by rewrite N1|].
  rewrite Kc, Kb, Ka. unfold s0. simpl.
  destruct K1 as (_ & Hx & _).
  by rewrite N1, F1, Hx.
Qed.

(** X16.  An external program named by a stage does not run in the stage's own
    process but in a second one which that process creates: the stage's
    process is the program's parent, waits for the program itself unless
    the command is a background one, and then terminates with the failure
    status whatever the program did. *)
Theorem external_program_runs_in_a_grandchild (holder : CommandHolder)
    (g : GenericCommand) (arg0 : string) (rest : list string) (s : sys) :
  cmd holder = CmdGeneric g →
  generic_args g = Some (arg0 :: rest) →
  next_ok (k_fork_ok (kern s)) = true →
  next_ok (tail (k_fork_ok (kern s))) = true →
  ∃ stage prog,
    spawned (create_process holder) s = [stage; prog]
    ∧ s_pid stage = next_pid s
    ∧ s_parent stage = p_pid (me s)
    ∧ s_end stage = Exited EXIT_FAILURE
    ∧ s_pid prog = Z.pos (Pos.succ (k_next_pid (kern s)))
    ∧ s_parent prog = s_pid stage
    ∧ s_end prog = (if k_exec_ok (kern s) arg0
                    then Execed arg0 (arg0 :: rest)
                    else Exited EXIT_FAILURE)
    ∧ (has_flag (generic_flags g) BACKGROUND = false →
       last (p_trace (s_proc stage)) = Some (EvWaitpid (s_pid prog))).
Proof.
  intros Hcmd Hargs Hok1 Hok2.
  destruct (stage_process_start holder s Hok1)
    as (s3 & E & O3 & P3 & N3 & F3 & X3).
  rewrite E, Hcmd. simpl. unfold bind.
  rewrite (run_generic_forks g arg0 rest s3) by by rewrite ?F3.
  simpl. rewrite O3. simpl.
  eexists _, _. split; [reflexivity|]. simpl.
  unfold next_pid. rewrite N3, P3, X3.
  split; [done|]. split; [done|]. split; [done|]. split; [done|].
  split; [done|]. split; [done|].
  intros Hbg. unfold generic_caller. rewrite Hbg. simpl.
  by rewrite last_snoc.
Qed.

(** X17.  When [run_generic] cannot start its program, because there is no
    program name or because [fork] fails, it returns having created no
    process, with the job table and the buffer of standard output as they
    were and exactly one report on the error stream. *)
Theorem run_generic_reports_when_nothing_starts (g : GenericCommand)
    (s : sys) :
  generic_args g = None ∨ generic_args g = Some []
  ∨ next_ok (k_fork_ok (kern s)) = false →
  fst (run_generic g s) = Ret tt
  ∧ others (snd (run_generic g s)) = others s
  ∧ p_jobs (me (snd (run_generic g s))) = p_jobs (me s)
  ∧ p_stdout (me (snd (run_generic g s))) = p_stdout (me s)
  ∧ ∃ e, p_trace (me (snd (run_generic g s))) = p_trace (me s) ++ [e]
         ∧ reports_error e = true.
Proof.
  intros Hcase.
  destruct (generic_args g) as [[|arg0 rest]|] eqn:Hargs.
  - rewrite run_generic_no_command by by right.
    simpl. repeat split. by eexists.
  - destruct Hcase as [?|[?|Hok]]; [done|done|].
    rewrite (run_generic_fork_fails g arg0 rest) by done.
    simpl. repeat split. by eexists.
  - rewrite run_generic_no_command by by left.
    simpl. repeat split. by eexists.
Qed.

End ExternalPrograms.

(* ===================================================================== *)
(** ** Buffered output *)
(* ===================================================================== *)

Section Buffers.

Context `{Headers}.

Lemma spawned_others {A} (P : summary → Prop) (m : M A) (s : sys) :
  grows P s (snd (m s)) → others (snd (m s)) = others s ++ spawned m s.
Proof.
  intros (new & E & _). unfold spawned. by rewrite E, drop_app_length.
Qed.

Lemma child_run_command_flushes (c : Command) (s : sys) :
  p_stdout (me s) = "" →
  p_stdout (me (snd (child_run_command c s))) = ""
  ∧ grows flushed s (snd (child_run_command c s)).
Proof.
  intros Hb.
  destruct c as [g|[args]|e|d|k| | | ]; simpl;
    try (split; [done|by apply grows_same]).
  - destruct (generic_args g) as [[|arg0 rest]|] eqn:Hargs.
    + rewrite run_generic_no_command by by right.
      split; [done|by apply grows_same].
    + destruct (next_ok (k_fork_ok (kern s))) eqn:Hok.
      * rewrite (run_generic_forks g arg0 rest) by done. simpl. split.
        -- unfold generic_caller. by destruct (has_flag _ _).
        -- eexists. split; [done|]. constructor; [|done].
           unfold flushed, generic_child. simpl.
           by destruct (k_exec_ok _ _).
      * rewrite (run_generic_fork_fails g arg0 rest) by done.
        split; [done|by apply grows_same].
    + rewrite run_generic_no_command by by left.
      split; [done|by apply grows_same].
  - rewrite run_echo_emits. split; [done|by apply grows_same].
  - destruct (String.length (p_cwd (me s)) <? 1024)%nat eqn:Hlen.
    + apply Nat.ltb_lt in Hlen. rewrite run_pwd_fits by done.
      split; [done|by apply grows_same].
    + apply Nat.ltb_ge in Hlen. rewrite run_pwd_too_long by done.
      simpl. rewrite decide_True by done. split; [done|by apply grows_same].
  - unfold run_jobs, bind, list_background_jobs, fflush_stdout, modify.
    simpl. split; [|by apply grows_same].
    by destruct (decide _).
Qed.

Lemma create_process_flushes (holder : CommandHolder) (s : sys) :
  p_stdout (me s) = "" →
  p_stdout (me (snd (create_process holder s))) = ""
  ∧ grows flushed s (snd (create_process holder s)).
Proof.
  intros Hb. split.
  { destruct (create_process_shell holder s) as (s' & E & B & _).
    rewrite E. simpl. by rewrite B. }
  destruct (next_ok (k_fork_ok (kern s))) eqn:Hok.
  - exists (spawned (create_process holder) s). split.
    { destruct (create_process_stage holder s) as (s' & E & G & _).
      apply (spawned_others (fun g => exec_or_failure (s_end g))).
      by rewrite E. }
    destruct (stage_process holder s Hok)
      as (s3 & E & O3 & _ & _ & _ & B3 & _).
    rewrite E.
    destruct (child_run_command_inherits (cmd holder) s3)
      as (s4 & E4 & _).
    destruct (child_run_command_flushes (cmd holder) s3) as [B4 G4];
      [by rewrite B3|].
    rewrite E4 in B4, G4. simpl in B4, G4.
    unfold bind. rewrite E4. simpl.
    constructor; [done|].
    destruct G4 as (new & O4 & F4). rewrite O4, O3. done.
  - destruct (create_process_fork_refused holder s Hok)
      as (s' & E & O & _).
    rewrite E. by apply grows_same.
Qed.

Lemma create_processes_flushes (holders : list CommandHolder) (s : sys) :
  p_stdout (me s) = "" →
  p_stdout (me (snd (create_processes holders s))) = ""
  ∧ grows flushed s (snd (create_processes holders s)).
Proof.
  revert s. induction holders as [|h rest IH]; intros s Hb; simpl.
  - split; [done|apply grows_refl].
  - destruct (decide (get_command_holder_type h = EOC)); simpl.
    + split; [done|apply grows_refl].
    + destruct (create_process_shell h s) as (s1 & E & _).
      destruct (create_process_flushes h s Hb) as [B1 G1].
      rewrite E in B1, G1. simpl in B1, G1.
      rewrite (bind_ret_l _ _ _ _ _ E).
      destruct (IH s1 B1) as [B2 G2].
      split; [done|eauto using grows_trans].
Qed.

Lemma drain_finished_flushes (fuel : nat) (s : sys) :
  p_stdout (me s) = "" →
  p_stdout (me (snd (drain_finished fuel s))) = "".
Proof.
  revert s. induction fuel as [|n IH]; intros s Hb; [done|].
  simpl. unfold bind at 1. unfold get_finished_job.
  destruct (Registry.take_finished (p_jobs (me s))) as [[j jobs]|]; [|done].
  unfold bind. rewrite print_job_bg_complete_emits.
  by apply IH.
Qed.

Lemma wait_each_buffer (holders : list CommandHolder) (s : sys) :
  p_stdout (me (snd (wait_each holders s))) = p_stdout (me s).
Proof.
  revert s. induction holders as [|h rest IH]; intros s; simpl; [done|].
  destruct (decide _); [done|].
  unfold bind, wait, modify. by rewrite IH.
Qed.

(** X18.  Every function of the file that prints ends by flushing: if standard
    output has nothing buffered when [run_script] is called, it has
    nothing buffered when [run_script] returns, and every process created
    meanwhile stopped with an empty buffer, so that no output is lost to
    [_exit] or [execvp], which do not flush. *)
Theorem no_output_is_left_unflushed (holders : option (list CommandHolder))
    (s : sys) :
  p_stdout (me s) = "" →
  p_stdout (me (snd (run_script holders s))) = ""
  ∧ Forall flushed (spawned (run_script holders) s).
Proof.
  intros Hb.
  cut (p_stdout (me (snd (run_script holders s))) = ""
       ∧ grows flushed s (snd (run_script holders s))).
  { intros [? ?]. split; [done|by apply spawned_grows]. }
  destruct holders as [[|h0 rest]|]; try (split; [done|apply grows_refl]).
  rewrite run_script_cons.
  destruct (decide _); [split; [done|apply grows_refl]|].
  destruct (check_jobs_bg_status_returns s) as (s1 & E1 & _).
  rewrite (bind_ret_l _ _ _ _ _ E1).
  assert (B1 : p_stdout (me s1) = "").
  { replace s1 with (snd (check_jobs_bg_status s)) by by rewrite E1.
    unfold check_jobs_bg_status. destruct get_finished_job_defined; [|done].
    by apply drain_finished_flushes. }
  assert (O1 : others s1 = others s).
  { replace s1 with (snd (check_jobs_bg_status s)) by by rewrite E1.
    apply check_jobs_bg_status_others. }
  destruct (create_processes_flushes (h0 :: rest) s1 B1) as [B2 G2].
  unfold bind.
  destruct (create_processes (h0 :: rest) s1) as [[[]| | | ] s2];
    simpl in B2, G2.
  2-4: split; [done|];
       (eapply grows_trans; [by apply grows_same|exact G2]).
  unfold when. destruct (negb _).
  - split; [by rewrite wait_each_buffer|].
    eapply grows_trans; [by apply grows_same|].
    eapply grows_trans; [exact G2|].
    apply grows_same, wait_each_others.
  - split; [done|].
    eapply grows_trans; [by apply grows_same|exact G2].
Qed.

End Buffers.

(* ===================================================================== *)
(** ** The descriptors of the shell over a whole pipeline *)
(* ===================================================================== *)

Section Leak.

Context `{Headers}.

Lemma pipes_granted_next (k : kernel) :
  pipes_granted k → next_ok (k_pipe_ok k) = true.
Proof.
  unfold pipes_granted. destruct (k_pipe_ok k) as [|[] ?]; try done.
  intros Hall. by apply Forall_cons in Hall as [? _].
Qed.

Lemma pipes_granted_tail (k k' : kernel) :
  pipes_granted k →
  k_pipe_ok k' = k_pipe_ok k ∨ k_pipe_ok k' = tail (k_pipe_ok k) →
  pipes_granted k'.
Proof.
  unfold pipes_granted. intros Hall [-> | ->]; [done|].
  destruct (k_pipe_ok k); [done|]. by apply Forall_cons in Hall as [_ ?].
Qed.

Lemma child_run_command_pipe_script (c : Command) (s : sys) :
  k_pipe_ok (kern (snd (child_run_command c s))) = k_pipe_ok (kern s).
Proof.
  destruct c as [g|[args]|e|d|k| | | ]; simpl; try done.
  - destruct (generic_args g) as [[|arg0 rest]|] eqn:Hargs.
    + by rewrite run_generic_no_command by by right.
    + destruct (next_ok (k_fork_ok (kern s))) eqn:Hok.
      * by rewrite (run_generic_forks g arg0 rest) by done.
      * by rewrite (run_generic_fork_fails g arg0 rest) by done.
    + by rewrite run_generic_no_command by by left.
  - by rewrite run_echo_emits.
  - destruct (String.length (p_cwd (me s)) <? 1024)%nat eqn:Hlen.
    + apply Nat.ltb_lt in Hlen. by rewrite run_pwd_fits by done.
    + apply Nat.ltb_ge in Hlen. by rewrite run_pwd_too_long by done.
Qed.

Lemma create_process_pipe_script (holder : CommandHolder) (s : sys) :
  k_pipe_ok (kern (snd (create_process holder s))) = k_pipe_ok (kern s)
  ∨ k_pipe_ok (kern (snd (create_process holder s)))
    = tail (k_pipe_ok (kern s)).
Proof.
  assert (H1 : ∃ fds s1,
    create_process holder s
    = fork (fun pid => if pid =? 0 then create_process_child holder fds
                       else create_process_parent holder fds) s1
    ∧ (k_pipe_ok (kern s1) = k_pipe_ok (kern s)
       ∨ k_pipe_ok (kern s1) = tail (k_pipe_ok (kern s)))).
  { unfold create_process, bind at 1, gets.
    destruct (has_flag (flags holder) PIPE_OUT).
    - unfold bind at 1. unfold bind at 1. unfold pipe.
      destruct (next_ok (k_pipe_ok (kern s)));
        eexists _, _; (split; [reflexivity|]); by right.
    - eexists _, _. split; [reflexivity|]. by left. }
  destruct H1 as (fds & s1 & E & K1).
  destruct (fork_caller
              (fun pid => if pid =? 0 then create_process_child holder fds
                          else create_process_parent holder fds) s1)
    as (pid & S0 & EF & Hpid & _ & HS0).
  rewrite E, EF. rewrite (proj2 (Z.eqb_neq pid 0)) by done.
  destruct (create_process_parent_shell holder fds S0)
    as (S1 & s' & EP & _ & _ & KS & _ & (_ & _ & _ & _ & Ks' & _)).
  rewrite EP. simpl. rewrite Ks', KS.
  cut (k_pipe_ok (kern S0) = k_pipe_ok (kern s1)).
  { intros ->. exact K1. }
  destruct HS0 as [-> | ->]; [|done].
  simpl. change (0 =? 0) with true. cbv iota.
  destruct (create_process_child_setup holder fds (child_start s1))
    as (s3 & E3 & _ & (K3 & _)).
  destruct (child_run_command_inherits (cmd holder) s3) as (s4 & E4 & _).
  pose proof (child_run_command_pipe_script (cmd holder) s3) as P4.
  rewrite E4 in P4. simpl in P4.
  rewrite E3. unfold bind. rewrite E4. simpl. by rewrite P4, K3.
Qed.

Lemma create_processes_fds (stages rest : list CommandHolder)
    (eoc : CommandHolder) (s : sys) :
  get_command_holder_type eoc = EOC →
  Forall (fun h => get_command_holder_type h ≠ EOC) stages →
  pipes_granted (kern s) →
  p_fds (me s) ⊆ p_fds (me (snd (create_processes (stages ++ eoc :: rest) s)))
  ∧ size (p_fds (me (snd (create_processes (stages ++ eoc :: rest) s))))
    = (size (p_fds (me s)) + pipes_of stages)%nat.
Proof.
  intros He Hst. revert s.
  induction Hst as [|h stages Hh _ IH]; intros s Hp.
  - simpl. rewrite decide_True by done. simpl. split; [done|].
    unfold pipes_of. simpl. lia.
  - simpl. rewrite decide_False by done.
    destruct (create_process_shell h s) as (s1 & E & _).
    pose proof (create_process_fds h s) as [Hplain Hpiped].
    pose proof (create_process_pipe_script h s) as K1.
    rewrite E in Hplain, Hpiped, K1. simpl in Hplain, Hpiped, K1.
    rewrite (bind_ret_l _ _ _ _ _ E).
    destruct (IH s1) as [Hsub Hsize]; [by eapply pipes_granted_tail|].
    unfold pipes_of in *. rewrite filter_cons.
    destruct (decide (has_flag (flags h) PIPE_OUT = true)) as [HP|HP].
    + destruct (Hpiped HP (pipes_granted_next _ Hp)) as (Hfree & Hfds & Hsz).
      split.
      * etrans; [|exact Hsub]. rewrite Hfds. by apply insert_subseteq.
      * rewrite Hsize, Hsz. simpl. lia.
    + apply not_true_is_false in HP.
      rewrite (Hplain HP) in Hsub, Hsize. done.
Qed.

Lemma drain_finished_fds (fuel : nat) (s : sys) :
  p_fds (me (snd (drain_finished fuel s))) = p_fds (me s)
  ∧ kern (snd (drain_finished fuel s)) = kern s.
Proof.
  revert s. induction fuel as [|n IH]; intros s; [done|].
  simpl. unfold bind, get_finished_job.
  destruct (Registry.take_finished (p_jobs (me s))) as [[j jobs]|]; [|done].
  rewrite print_job_bg_complete_emits.
  destruct (IH (on_me (emit ("Completed: " +:+ TAB +:+
                              job_line (job_id j) (job_pid j) (job_cmd j)))
                  (on_me (with_jobs jobs) s))) as [-> ->].
  done.
Qed.

Lemma wait_each_fds (holders : list CommandHolder) (s : sys) :
  p_fds (me (snd (wait_each holders s))) = p_fds (me s).
Proof.
  revert s. induction holders as [|h rest IH]; intros s; simpl; [done|].
  destruct (decide _); [done|].
  unfold bind, wait, modify. by rewrite IH.
Qed.

(** X19.  Over a whole pipeline the shell closes none of the read ends: when no
    pipe is refused, [run_script] returns with every descriptor the shell
    had still open and one more for each stage that pipes its output. *)
Theorem run_script_leaves_every_read_end_open
    (stages rest : list CommandHolder) (eoc : CommandHolder) (s : sys) :
  get_command_holder_type eoc = EOC →
  Forall (fun h => get_command_holder_type h ≠ EOC) stages →
  pipes_granted (kern s) →
  p_fds (me s)
  ⊆ p_fds (me (snd (run_script (Some (pipeline stages eoc rest)) s)))
  ∧ size (p_fds (me (snd (run_script (Some (pipeline stages eoc rest)) s))))
    = (size (p_fds (me s)) + pipes_of stages)%nat.
Proof.
  intros He Hst Hp. unfold pipeline.
  destruct stages as [|h0 more].
  { simpl. rewrite decide_True by done. simpl. split; [done|].
    unfold pipes_of. simpl. lia. }
  change ((h0 :: more) ++ eoc :: rest) with (h0 :: (more ++ eoc :: rest)).
  rewrite run_script_cons.
  rewrite decide_False by by apply Forall_cons in Hst as [? _].
  change (h0 :: (more ++ eoc :: rest)) with ((h0 :: more) ++ eoc :: rest).
  destruct (check_jobs_bg_status_returns s) as (s1 & E1 & _).
  rewrite (bind_ret_l _ _ _ _ _ E1).
  assert (F1 : p_fds (me s1) = p_fds (me s) ∧ kern s1 = kern s).
  { replace s1 with (snd (check_jobs_bg_status s)) by by rewrite E1.
    unfold check_jobs_bg_status. destruct get_finished_job_defined; [|done].
    apply drain_finished_fds. }
  destruct F1 as [F1 K1].
  destruct (create_processes_fds (h0 :: more) rest eoc s1 He Hst)
    as [Hsub Hsize]; [by rewrite K1|].
  destruct (create_processes_return (h0 :: more) rest eoc s1 He)
    as (s2 & E2 & _).
  rewrite E2 in Hsub, Hsize. simpl in Hsub, Hsize.
  rewrite (bind_ret_l _ _ _ _ _ E2).
  rewrite F1 in Hsub, Hsize.
  unfold when. destruct (negb _); [|done].
  by rewrite wait_each_fds.
Qed.

End Leak.

Section EchoToFile.

Context `{Headers}.


End EchoToFile.

(* ===================================================================== *)
(** ** Signals *)
(* ===================================================================== *)

Section Signals.

Context `{Headers}.

(** X21.  [run_kill] passes the number in the command's [job] field to [kill] as
    a process id: the job table is neither read nor changed, so the signal
    goes to the process of that number whatever the shell's jobs are; a
    refusal is reported once. *)
Theorem run_kill_signals_the_number_it_is_given (c : KillCommand)
    (jobs : list Job) (s : sys) :
  p_trace (me (snd (run_kill c s)))
  = p_trace (me s)
    ++ EvKill (job c) (sig c)
       :: (if k_kill_ok (kern s) (job c) (sig c) then []
           else [EvPerror (p_fds (me s) !! STDERR_FILENO)
                   "ERROR: Failed to send signal"])
  ∧ p_jobs (me (snd (run_kill c s))) = p_jobs (me s)
  ∧ p_trace (me (snd (run_kill c (on_me (with_jobs jobs) s))))
    = p_trace (me (snd (run_kill c s))).
Proof.
  unfold run_kill, bind, kill, when, perror, modify. simpl.
  destruct (k_kill_ok (kern s) (job c) (sig c)); simpl.
  - done.
  - by rewrite <- app_assoc.
Qed.

End Signals.

(* ===================================================================== *)
(** ** The properties above on concrete inputs *)
(* ===================================================================== *)

Section Instances.

#[local] Existing Instance Examples.quash_headers.

Import Examples Inputs.

(** [echo a b |] leaves descriptor 3 of the shell open on the pipe;
    [echo a b] leaves the table as it was. *)
Lemma create_process_leaves_read_end_open_witness :
  (p_fds (me sys0) !! lowest_free (p_fds (me sys0)) = None
   ∧ p_fds (me (snd (create_process (stage echo_ab 32) sys0)))
     = <[lowest_free (p_fds (me sys0)) := PipeR (k_next_pipe (kern sys0))]>
         (p_fds (me sys0))
   ∧ size (p_fds (me (snd (create_process (stage echo_ab 32) sys0))))
     = S (size (p_fds (me sys0))))
  ∧ p_fds (me (snd (create_process (stage echo_ab 0) sys0)))
    = p_fds (me sys0).
Proof.
  split.
  - exact (proj2 (create_process_leaves_read_end_open (stage echo_ab 32) sys0)
             eq_refl eq_refl).
  - exact (proj1 (create_process_leaves_read_end_open (stage echo_ab 0) sys0)
             eq_refl).
Defined.

Lemma run_script_stops_at_the_terminator_witness :
  fst (run_script (Some (pipeline [stage echo_ab 0] eoc [stage cat 0])) sys0)
  = Ret tt
  ∧ run_script (Some (pipeline [stage echo_ab 0] eoc [stage cat 0])) sys0
    = run_script (Some (pipeline [stage echo_ab 0] eoc [])) sys0.
Proof.
  apply (run_script_stops_at_the_terminator [stage echo_ab 0] [stage cat 0]
           eoc sys0).
  reflexivity.
Defined.

Lemma run_script_waits_once_per_stage_witness :
  ∃ s',
    run_script (Some (pipeline echo_cat_stages eoc [])) sys0 = (Ret tt, s')
    ∧ count_waits (p_trace (me s'))
      = (count_waits (p_trace (me sys0))
         + (if has_flag (flags (stage echo_ab 32)) BACKGROUND then 0
            else S (length [stage cat PIPE_IN])))%nat.
Proof.
  apply (run_script_waits_once_per_stage (stage echo_ab 32)
           [stage cat PIPE_IN] [] eoc sys0).
  - reflexivity.
  - repeat constructor; discriminate.
Defined.

Lemma parent_side_stage_still_spawns_witness :
  ∃ child t,
    spawned (create_process (stage cd_tmp 0)) sys0 = [child]
    ∧ s_pid child = next_pid sys0
    ∧ s_end child = Exited EXIT_FAILURE
    ∧ last (p_trace (s_proc child))
      = Some (EvWrite STDERR_FILENO t ("Unknown command type." +:+ NL)).
Proof.
  apply (parent_side_stage_still_spawns (stage cd_tmp 0) sys0); reflexivity.
Defined.

Lemma empty_command_stage_still_spawns_witness :
  ∃ child t,
    spawned (create_process (stage (CmdGeneric no_program) 0)) sys0 = [child]
    ∧ s_pid child = next_pid sys0
    ∧ s_end child = Exited EXIT_FAILURE
    ∧ last (p_trace (s_proc child))
      = Some (EvWrite STDERR_FILENO t ("ERROR: No command provided." +:+ NL)).
Proof.
  apply (empty_command_stage_still_spawns (stage (CmdGeneric no_program) 0)
           no_program sys0).
  - reflexivity.
  - left. reflexivity.
  - reflexivity.
Defined.

Lemma created_processes_inherit_witness :
  spawned (create_process (stage cd_tmp 0)) sys0 ≠ []
  ∧ Forall (lives_like (me sys0)) (spawned (create_process (stage cd_tmp 0)) sys0).
Proof.
  apply (created_processes_inherit (stage cd_tmp 0) sys0). reflexivity.
Defined.

Lemma run_export_then_lookup_env_witness :
  fst (lookup_env "EDITOR" (snd (run_export export_editor sys0))) = Ret "vi"
  ∧ ("PWD" ≠ "EDITOR" →
     fst (lookup_env "PWD" (snd (run_export export_editor sys0)))
     = fst (lookup_env "PWD" sys0))
  ∧ p_trace (me (snd (run_export export_editor sys0))) = p_trace (me sys0).
Proof.
  apply (run_export_then_lookup_env "EDITOR" "vi" "PWD" sys0).
  - discriminate.
  - reflexivity.
Defined.

Lemma run_export_bad_name_changes_nothing_witness :
  fst (lookup_env "PWD" (snd (run_export export_bad sys0)))
  = fst (lookup_env "PWD" sys0)
  ∧ p_trace (me (snd (run_export export_bad sys0)))
    = p_trace (me sys0)
      ++ [EvPerror (p_fds (me sys0) !! STDERR_FILENO)
            "ERROR: Failed to set environment variable"].
Proof.
  apply (run_export_bad_name_changes_nothing "A=B" "c" "PWD" sys0).
  right. reflexivity.
Defined.

Lemma exported_variable_reaches_later_stages_witness :
  Forall (fun g => p_env (s_proc g) = p_env (me sys0))
         (spawned (create_process (stage (CmdExport export_editor) 0)) sys0)
  ∧ spawned (create_process (stage echo_ab 0))
      (snd (create_process (stage (CmdExport export_editor) 0) sys0)) ≠ []
  ∧ Forall (fun g => p_env (s_proc g) = <["EDITOR" := "vi"]> (p_env (me sys0)))
           (spawned (create_process (stage echo_ab 0))
              (snd (create_process (stage (CmdExport export_editor) 0) sys0))).
Proof.
  apply (exported_variable_reaches_later_stages
           (stage (CmdExport export_editor) 0) (stage echo_ab 0)
           "EDITOR" "vi" sys0).
  - reflexivity.
  - discriminate.
  - reflexivity.
  - reflexivity.
  - vm_compute. reflexivity.
Defined.


Lemma get_current_directory_after_run_cd_witness :
  get_current_directory false (snd (run_cd {| dir := Some "/tmp" |} sys0))
  = (Ret (Some "/tmp", true), snd (run_cd {| dir := Some "/tmp" |} sys0))
  ∧ fst (lookup_env "PWD" (snd (run_cd {| dir := Some "/tmp" |} sys0)))
    = (if (String.length "/tmp" <? 1024)%nat then Ret "/tmp"
       else fst (lookup_env "PWD" sys0)).
Proof.
  apply (get_current_directory_after_run_cd "/tmp" "/tmp" false sys0);
    reflexivity.
Defined.

Lemma pwd_stage_after_cd_stage_witness :
  ∃ child t,
    spawned (create_process (stage CmdPWD 0))
      (snd (create_process (stage cd_tmp 0) sys0)) = [child]
    ∧ last (p_trace (s_proc child))
      = Some (EvWrite STDOUT_FILENO t ("/tmp" +:+ NL)).
Proof.
  apply (pwd_stage_after_cd_stage (stage cd_tmp 0) (stage CmdPWD 0)
           "/tmp" "/tmp" sys0).
  - reflexivity.
  - reflexivity.
  - reflexivity.
  - reflexivity.
  - simpl. lia.
  - reflexivity.
  - vm_compute. reflexivity.
Defined.

(** [echo a b > out.txt] where nothing can be written. *)
Lemma unopened_redirections_are_ignored_witness :
  create_process echo_to_file sys_readonly
  = create_process {| redirect_in := None; redirect_out := None;
                      flags := 0; cmd := cmd echo_to_file |} sys_readonly.
Proof.
  apply (unopened_redirections_are_ignored echo_to_file sys_readonly);
    reflexivity.
Defined.

Lemma redirections_of_a_stage_without_pipe_witness :
  ∃ child rest,
    spawned (create_process echo_to_file) sys0 = child :: rest
    ∧ p_fds (s_proc child) !! STDIN_FILENO
      = redirected (opened (kern sys0)
                      (has_flag (flags echo_to_file) REDIRECT_IN)
                      (redirect_in echo_to_file) O_RDONLY)
          O_RDONLY (p_fds (me sys0) !! STDIN_FILENO)
    ∧ p_fds (s_proc child) !! STDOUT_FILENO
      = redirected (opened (kern sys0)
                      (has_flag (flags echo_to_file) REDIRECT_OUT)
                      (redirect_out echo_to_file) O_WRONLY_CREAT_TRUNC)
          O_WRONLY_CREAT_TRUNC (p_fds (me sys0) !! STDOUT_FILENO)
    ∧ (∀ k, k ≠ STDIN_FILENO → k ≠ STDOUT_FILENO →
            p_fds (s_proc child) !! k = p_fds (me sys0) !! k)
    ∧ stdout_goes_to (p_fds (s_proc child) !! STDOUT_FILENO)
        (p_trace (s_proc child))
    ∧ Forall (fun g => p_fds (s_proc g) = p_fds (s_proc child)) rest.
Proof.
  apply (redirections_of_a_stage_without_pipe echo_to_file sys0).
  - reflexivity.
  - reflexivity.
  - by eexists.
  - by eexists.
Defined.

Lemma external_program_runs_in_a_grandchild_witness :
  ∃ stage prog,
    spawned (create_process (Examples.stage cat 0)) sys0 = [stage; prog]
    ∧ s_pid stage = next_pid sys0
    ∧ s_parent stage = p_pid (me sys0)
    ∧ s_end stage = Exited EXIT_FAILURE
    ∧ s_pid prog = Z.pos (Pos.succ (k_next_pid (kern sys0)))
    ∧ s_parent prog = s_pid stage
    ∧ s_end prog = (if k_exec_ok (kern sys0) "cat"
                    then Execed "cat" ["cat"]
                    else Exited EXIT_FAILURE)
    ∧ (has_flag (generic_flags cat_generic) BACKGROUND = false →
       last (p_trace (s_proc stage)) = Some (EvWaitpid (s_pid prog))).
Proof.
  apply (external_program_runs_in_a_grandchild (Examples.stage cat 0)
           cat_generic "cat" [] sys0); reflexivity.
Defined.

Lemma run_generic_reports_when_nothing_starts_witness :
  fst (run_generic ls sys_nofork) = Ret tt
  ∧ others (snd (run_generic ls sys_nofork)) = others sys_nofork
  ∧ p_jobs (me (snd (run_generic ls sys_nofork))) = p_jobs (me sys_nofork)
  ∧ p_stdout (me (snd (run_generic ls sys_nofork)))
    = p_stdout (me sys_nofork)
  ∧ ∃ e, p_trace (me (snd (run_generic ls sys_nofork)))
         = p_trace (me sys_nofork) ++ [e]
         ∧ reports_error e = true.
Proof.
  apply (run_generic_reports_when_nothing_starts ls sys_nofork).
  right. right. reflexivity.
Defined.

Lemma no_output_is_left_unflushed_witness :
  p_stdout (me (snd (run_script (Some echo_pipe_cat) sys0))) = ""
  ∧ Forall flushed (spawned (run_script (Some echo_pipe_cat)) sys0).
Proof.
  apply (no_output_is_left_unflushed (Some echo_pipe_cat) sys0). reflexivity.
Defined.

Lemma run_script_leaves_every_read_end_open_witness :
  p_fds (me sys0)
  ⊆ p_fds (me (snd (run_script (Some (pipeline echo_cat_stages eoc [])) sys0)))
  ∧ size (p_fds (me (snd (run_script (Some (pipeline echo_cat_stages eoc []))
                            sys0))))
    = (size (p_fds (me sys0)) + pipes_of echo_cat_stages)%nat.
Proof.
  apply (run_script_leaves_every_read_end_open echo_cat_stages [] eoc sys0).
  - reflexivity.
  - repeat constructor; discriminate.
  - constructor.
Defined.


End Instances.
